(** * Cross-account Redshift backup: the wait loops, the clean-up and the
      Lambda handler

    A shallow embedding of

    - [scripts/native_snapshot_demo.py]  ([_wait_for_snapshot_completion]),
    - [scripts/aws_backup_demo.py]       ([wait_for_backup_completion]),
    - [lambda/aca_redshift_backup_lambda.py] ([wait_for_snapshot_completion],
      [create_manual_snapshot], [share_snapshot_with_account],
      [cleanup_old_snapshots], [lambda_handler]),

    over an explicit model of what the Python code talks to: the wall clock,
    [time.sleep], [print]/[logger] and the boto3 clients.  Python code is
    written in a small state-and-exception monad; every boto3 call is answered
    by the environment, which fixes for the n-th call of each API what it
    returns (or raises) and how long it takes.

    Time is the wall clock in seconds, a rational number.  It moves when a
    boto3 call is made (by the time the environment gives the call) and
    when the code sleeps (by the seconds asked for plus an overshoot the
    environment gives; [time.sleep] never returns early).  Reading the clock,
    printing and logging take no time.  The clock is read exactly: the
    rounding of [time.time()] and [timestamp()] to a binary64 float is not
    followed, so a comparison of two instants that are equal, or closer than
    the spacing of the floats, may come out the other way in Python.  The
    count of the polls in sixty seconds, the bound on the number of status
    queries and the completeness of the clean-up are stated with a margin
    for that reason.  The first part of the file holds the embedding and the
    vocabulary of the properties, the second part the lemmas and theorems. *)

From Stdlib Require Import ZArith QArith String List Lia Lqa Bool.
From Stdlib Require Import DecimalString.
From stdpp Require Import base gmap strings.
Import ListNotations.

Local Open Scope string_scope.

(** ** Python values and exceptions *)

(** Values that arrive in a Lambda event or leave in its result: what
    [json.loads] produces.  A Python [float] is read as the rational it
    denotes. *)
#[warnings="-register-all"]
Inductive json : Type :=
| JNull
| JBool (b : bool)
| JInt (z : Z)
| JFloat (q : Q)
| JStr (s : string)
| JList (l : list json)
| JDict (d : gmap string json).

(** The exception classes the code raises or meets.  All of them derive from
    Python's [Exception], so [except Exception] catches every one. *)
Inductive exn : Type :=
| Exception (msg : string)
| ValueError (msg : string)
| AttributeError (msg : string)
| TypeError (msg : string)
| KeyError (key : string)
| ClientError (msg : string).

(** What a caller may pass as the [event] of the handler.  The Lambda service
    passes what [json.loads] made of the payload, and [json.dumps] writes any
    such value.  A direct caller may pass any object: for one that
    [json.dumps] cannot write (a dict that holds a set or a datetime, say)
    [Unserialisable x] records the exception [x] that [json.dumps] raises for
    it, a [TypeError] as a rule. *)
Inductive event_object : Type :=
| Serialisable (event : json)
| Unserialisable (x : exn).

Coercion Serialisable : json >-> event_object.

(** [str(e)] *)
Definition str (e : exn) : string :=
  match e with
  | Exception m | ValueError m | AttributeError m | TypeError m
  | ClientError m => m
  | KeyError k => "'" ++ k ++ "'"
  end.

(** Python truthiness: [bool(v)]. *)
Definition truthy (v : json) : bool :=
  match v with
  | JNull => false
  | JBool b => b
  | JInt z => negb (z =? 0)%Z
  | JFloat q => negb (Qeq_bool q 0)
  | JStr s => negb (String.eqb s "")
  | JList l => match l with [] => false | _ => true end
  | JDict d => negb (bool_decide (d = ∅))
  end.

(** [type(v).__name__] *)
Definition type_name (v : json) : string :=
  match v with
  | JNull => "NoneType"
  | JBool _ => "bool"
  | JInt _ => "int"
  | JFloat _ => "float"
  | JStr _ => "str"
  | JList _ => "list"
  | JDict _ => "dict"
  end.

(** [str(n)] for an [int]. *)
Definition str_int (n : Z) : string := NilZero.string_of_int (Z.to_int n).

(** ** Time *)

(** A span of time that cannot be negative: how long a call takes, or by how
    much a sleep overshoots.  Seconds, as a fraction. *)
Record duration : Type := { dnum : N; dden : positive }.

Definition secs (d : duration) : Q := Z.of_N (dnum d) # dden d.

Definition instant : duration := {| dnum := 0; dden := 1 |}.

Definition millisecond : Q := 1 # 1000.

(** [x < y] on clock readings, as a boolean. *)
Definition Qltb (x y : Q) : bool := negb (Qle_bool y x).

(** ** What the boto3 clients return *)

(** One entry of [response['Snapshots']]. *)
Record snapshot : Type := {
  SnapshotIdentifier : string;
  Status : string;
  SnapshotCreateTime : Q  (* [.timestamp()]: seconds since the epoch *)
}.

(** The response of [describe_cluster_snapshots]: a dict whose ['Snapshots']
    key may be missing. *)
Record describe_response : Type := { Snapshots : option (list snapshot) }.

(** The response of [describe_backup_job]. *)
Record backup_job : Type := {
  State : string;
  RecoveryPointArn : option string
}.

Inductive outcome (A : Type) : Type :=
| Returns (a : A)
| Raises (e : exn).
Arguments Returns {A} a.
Arguments Raises {A} e.

(** How the environment answers one call: the outcome and the time the call
    takes. *)
Record reply (A : Type) : Type := { answer : outcome A; took : duration }.
Arguments answer {A} r.
Arguments took {A} r.

(** The environment of a run.  The n-th call (counting from 0) of an API gets
    the n-th reply of that API; the n-th [time.sleep(s)] lasts [s] seconds
    plus the n-th [oversleep].  The formatting functions of the Python
    library are taken as they are. *)
Record environment : Type := {
  identity_reply : reply string;
  create_cluster_snapshot_reply : nat -> reply unit;
  describe_cluster_snapshots_reply : nat -> reply describe_response;
  authorize_snapshot_access_reply : nat -> reply unit;
  delete_cluster_snapshot_reply : nat -> reply unit;
  describe_backup_job_reply : nat -> reply backup_job;
  oversleep : nat -> duration;
  strftime : Q -> string;       (* [strftime("%Y%m%d-%H%M%S")] *)
  isoformat : Q -> string;      (* [datetime.isoformat()] *)
  json_dumps : json -> string;  (* [json.dumps] *)
  format : json -> string       (* a value inside an f-string *)
}.

(** ** Effects *)

(** How [describe_cluster_snapshots] is called. *)
Inductive describe_args : Type :=
| BySnapshotIdentifier (snapshot_identifier : string)
| ManualOfCluster (cluster_identifier : json).

Inductive level : Type := INFO | WARNING | ERROR.

(** What a run does to the outside, one entry per action. *)
Inductive effect : Type :=
| Print (line : string)
| Log (l : level) (line : string)
| Sleep (seconds : Z)
| GetCallerIdentity
| CreateClusterSnapshot (snapshot_identifier : string)
    (cluster_identifier target_account_id : json)
| DescribeClusterSnapshots (args : describe_args)
| AuthorizeSnapshotAccess (snapshot_identifier : string) (account : json)
| DeleteClusterSnapshot (snapshot_identifier : string)
| DescribeBackupJob (job_id : string).

(** The state a run threads: the environment (never changed), the wall clock
    in seconds and the effects so far, newest first. *)
Record world : Type := {
  env : environment;
  clock : Q;
  trace : list effect
}.

Definition record (e : effect) (w : world) : world :=
  {| env := env w; clock := clock w; trace := e :: trace w |}.

Definition advance (d : Q) (w : world) : world :=
  {| env := env w; clock := clock w + d; trace := trace w |}.

Definition is_sleep (e : effect) : bool :=
  match e with Sleep _ => true | _ => false end.
Definition is_create (e : effect) : bool :=
  match e with CreateClusterSnapshot _ _ _ => true | _ => false end.
Definition is_describe (e : effect) : bool :=
  match e with DescribeClusterSnapshots _ => true | _ => false end.
Definition is_authorize (e : effect) : bool :=
  match e with AuthorizeSnapshotAccess _ _ => true | _ => false end.
Definition is_delete (e : effect) : bool :=
  match e with DeleteClusterSnapshot _ => true | _ => false end.
Definition is_describe_job (e : effect) : bool :=
  match e with DescribeBackupJob _ => true | _ => false end.

(** How many effects of a kind a trace holds. *)
Definition count (p : effect -> bool) (t : list effect) : nat :=
  List.length (List.filter p t).

(** The seconds asked of [time.sleep], newest first. *)
Fixpoint sleeps (t : list effect) : list Z :=
  match t with
  | [] => []
  | Sleep s :: t' => s :: sleeps t'
  | _ :: t' => sleeps t'
  end.

(** ** The monad *)

(** The result of running a piece of Python: a value, an exception on its
    way up, or [Stuck] when a [while] loop was not given enough fuel. *)
Inductive res (A : Type) : Type :=
| Ok (a : A) (w : world)
| Err (e : exn) (w : world)
| Stuck.
Arguments Ok {A} a w.
Arguments Err {A} e w.
Arguments Stuck {A}.

Definition M (A : Type) : Type := world -> res A.

Definition ret {A} (a : A) : M A := fun w => Ok a w.

Definition bind {A B} (m : M A) (k : A -> M B) : M B :=
  fun w =>
    match m w with
    | Ok a w' => k a w'
    | Err e w' => Err e w'
    | Stuck => Stuck
    end.

Definition raise {A} (e : exn) : M A := fun w => Err e w.

(** [try: m  except Exception as e: h e] *)
Definition try_except {A} (m : M A) (h : exn -> M A) : M A :=
  fun w =>
    match m w with
    | Err e w' => h e w'
    | r => r
    end.

Declare Scope py_scope.
Delimit Scope py_scope with py.
Notation "x <- m ;; k" := (bind m (fun x => k))
  (at level 100, m at next level, right associativity) : py_scope.
Notation "m ;; k" := (bind m (fun _ => k))
  (at level 100, right associativity) : py_scope.
Notation "'try' m 'except' h" := (try_except m h)
  (at level 60, m at level 200, h at level 9) : py_scope.
Local Open Scope py_scope.

(** [while cond: body], where [body] answers [Some v] for [return v] and
    [None] for reaching its end.  The loop answers [Some v] when the body
    returned [v] and [None] when the condition became false. *)
Fixpoint while {A} (fuel : nat) (cond : M bool) (body : M (option A))
  : M (option A) :=
  match fuel with
  | O => fun _ => Stuck
  | S fuel' =>
      c <- cond ;;
      if c : bool then
        r <- body ;;
        match r with
        | Some v => ret (Some v)
        | None => while fuel' cond body
        end
      else ret None
  end.

(** What follows a statement that may have executed [return]. *)
Definition or_else {A} (r : option A) (rest : M (option A)) : M (option A) :=
  match r with
  | Some v => ret (Some v)
  | None => rest
  end.

(** *** Primitives *)

Definition print (line : string) : M unit :=
  fun w => Ok tt (record (Print line) w).

Definition logger (l : level) (line : string) : M unit :=
  fun w => Ok tt (record (Log l line) w).

(** Reading the environment (the Python library's formatting functions). *)
Definition ask : M environment := fun w => Ok (env w) w.

(** [time.time()], and [datetime.now()] as seconds since the epoch. *)
Definition time_time : M Q := fun w => Ok (clock w) w.

(** [time.sleep(seconds)]: suspends for at least [seconds]. *)
Definition time_sleep (seconds : Z) : M unit :=
  fun w =>
    let over := oversleep (env w) (count is_sleep (trace w)) in
    Ok tt (advance (inject_Z seconds + secs over) (record (Sleep seconds) w)).

(** A call of a boto3 client method: noted in the trace, it takes the time
    the environment says and returns or raises what the environment says. *)
Definition call {A} (e : effect) (r : reply A) : M A :=
  fun w =>
    let w' := advance (secs (took r)) (record e w) in
    match answer r with
    | Returns a => Ok a w'
    | Raises x => Err x w'
    end.

Definition describe_cluster_snapshots (args : describe_args)
  : M describe_response :=
  fun w =>
    call (DescribeClusterSnapshots args)
      (describe_cluster_snapshots_reply (env w) (count is_describe (trace w)))
      w.

Definition describe_backup_job (job_id : string) : M backup_job :=
  fun w =>
    call (DescribeBackupJob job_id)
      (describe_backup_job_reply (env w) (count is_describe_job (trace w))) w.

(** [response['Snapshots']] *)
Definition getitem_Snapshots (response : describe_response)
  : M (list snapshot) :=
  match Snapshots response with
  | Some l => ret l
  | None => raise (KeyError "Snapshots")
  end.

(** [response['RecoveryPointArn']] *)
Definition getitem_RecoveryPointArn (response : backup_job) : M string :=
  match RecoveryPointArn response with
  | Some a => ret a
  | None => raise (KeyError "RecoveryPointArn")
  end.

(** ** scripts/native_snapshot_demo.py *)

Module NativeSnapshotDemo.

(** The body of the [while] loop of [_wait_for_snapshot_completion]. *)
Definition poll (snapshot_identifier : string) : M (option bool) :=
  try
    (response <- describe_cluster_snapshots
                   (BySnapshotIdentifier snapshot_identifier) ;;
     snapshots <- getitem_Snapshots response ;;
     r <- match snapshots with
          | s :: _ =>
              let status := Status s in
              print ("Snapshot status: " ++ status) ;;
              if String.eqb status "available" then ret (Some true)
              else if String.eqb status "failed"
                   then raise (Exception "Snapshot creation failed")
                   else ret None
          | [] => ret None
          end ;;
     or_else r (time_sleep 30 ;; ret None))
  except
    (fun e =>
       print ("Error checking snapshot status: " ++ str e) ;;
       time_sleep 30 ;;
       ret None).

(** [RedshiftSnapshotDemo._wait_for_snapshot_completion].  Every turn of
    the loop that does not return sleeps 30 seconds, so [timeout] turns are
    more than the loop can take: [wait_functions_end] shows that the fuel
    never runs out. *)
Definition _wait_for_snapshot_completion
    (snapshot_identifier : string) (timeout : Z) : M bool :=
  print "Waiting for snapshot to complete..." ;;
  start_time <- time_time ;;
  r <- while (S (Z.to_nat timeout))
         (now <- time_time ;;
          ret (Qltb (now - start_time) (inject_Z timeout)))
         (poll snapshot_identifier) ;;
  match r with
  | Some v => ret v
  | None => raise (Exception "Timeout waiting for snapshot completion")
  end.

End NativeSnapshotDemo.

(** ** scripts/aws_backup_demo.py *)

Module AwsBackupDemo.

(** The body of the [while] loop of [wait_for_backup_completion]. *)
Definition poll (job_id : string) : M (option string) :=
  try
    (response <- describe_backup_job job_id ;;
     let status := State response in
     print ("Backup job status: " ++ status) ;;
     r <- (if String.eqb status "COMPLETED" then
             recovery_point_arn <- getitem_RecoveryPointArn response ;;
             print ("Backup completed successfully: " ++ recovery_point_arn) ;;
             ret (Some recovery_point_arn)
           else if existsb (String.eqb status) ["FAILED"; "ABORTED"; "EXPIRED"]
                then raise (Exception
                              ("Backup job failed with status: " ++ status))
                else ret None) ;;
     or_else r (time_sleep 60 ;; ret None))
  except
    (fun e =>
       print ("Error checking backup status: " ++ str e) ;;
       time_sleep 60 ;;
       ret None).

(** [AWSBackupDemo.wait_for_backup_completion]; it returns the ARN of the
    recovery point. *)
Definition wait_for_backup_completion (job_id : string) (timeout : Z)
  : M string :=
  print "Waiting for backup to complete..." ;;
  start_time <- time_time ;;
  r <- while (S (Z.to_nat timeout))
         (now <- time_time ;;
          ret (Qltb (now - start_time) (inject_Z timeout)))
         (poll job_id) ;;
  match r with
  | Some v => ret v
  | None => raise (Exception "Timeout waiting for backup completion")
  end.

End AwsBackupDemo.

(** ** lambda/aca_redshift_backup_lambda.py *)

Module BackupLambda.

(** [AcaRedshiftBackupLambda()]: the constructor builds the boto3 clients
    and asks STS for the account; [identity_reply] is the outcome of that. *)
Definition __init__ : M unit :=
  e <- ask ;;
  source_account_id <- call GetCallerIdentity (identity_reply e) ;;
  logger INFO ("Lambda initialized for source account: " ++ source_account_id).

Definition create_cluster_snapshot (snapshot_identifier : string)
    (cluster_identifier target_account_id : json) : M unit :=
  fun w =>
    call (CreateClusterSnapshot snapshot_identifier cluster_identifier
            target_account_id)
      (create_cluster_snapshot_reply (env w) (count is_create (trace w))) w.

Definition authorize_snapshot_access (snapshot_identifier : string)
    (account : json) : M unit :=
  fun w =>
    call (AuthorizeSnapshotAccess snapshot_identifier account)
      (authorize_snapshot_access_reply (env w) (count is_authorize (trace w)))
      w.

Definition delete_cluster_snapshot (snapshot_identifier : string) : M unit :=
  fun w =>
    call (DeleteClusterSnapshot snapshot_identifier)
      (delete_cluster_snapshot_reply (env w) (count is_delete (trace w))) w.

Definition create_manual_snapshot (cluster_identifier target_account_id : json)
  : M string :=
  e <- ask ;;
  now <- time_time ;;
  let timestamp := strftime e now in
  let snapshot_identifier := "aca-lambda-snapshot-" ++ timestamp in
  logger INFO ("Creating manual snapshot: " ++ snapshot_identifier) ;;
  try
    (create_cluster_snapshot snapshot_identifier cluster_identifier
       target_account_id ;;
     logger INFO ("Snapshot creation initiated: " ++ snapshot_identifier) ;;
     ret snapshot_identifier)
  except
    (fun e =>
       logger ERROR ("Error creating snapshot: " ++ str e) ;;
       raise e).

(** The body of the [while] loop of [wait_for_snapshot_completion]. *)
Definition poll (snapshot_identifier : string) : M (option bool) :=
  try
    (response <- describe_cluster_snapshots
                   (BySnapshotIdentifier snapshot_identifier) ;;
     snapshots <- getitem_Snapshots response ;;
     r <- match snapshots with
          | s :: _ =>
              let status := Status s in
              logger INFO ("Snapshot status: " ++ status) ;;
              if String.eqb status "available" then
                logger INFO ("Snapshot completed successfully: "
                             ++ snapshot_identifier) ;;
                ret (Some true)
              else if String.eqb status "failed" then
                logger ERROR "Snapshot creation failed" ;;
                raise (Exception "Snapshot creation failed")
              else ret None
          | [] => ret None
          end ;;
     or_else r (time_sleep 30 ;; ret None))
  except
    (fun e =>
       logger ERROR ("Error checking snapshot status: " ++ str e) ;;
       time_sleep 30 ;;
       ret None).

Definition wait_for_snapshot_completion (snapshot_identifier : string)
    (max_wait_minutes : Z) : M bool :=
  logger INFO ("Waiting for snapshot completion: " ++ snapshot_identifier) ;;
  start_time <- time_time ;;
  let max_wait_seconds := (max_wait_minutes * 60)%Z in
  r <- while (S (Z.to_nat max_wait_seconds))
         (now <- time_time ;;
          ret (Qltb (now - start_time) (inject_Z max_wait_seconds)))
         (poll snapshot_identifier) ;;
  match r with
  | Some v => ret v
  | None =>
      logger WARNING ("Snapshot still in progress after "
                      ++ str_int max_wait_minutes ++ " minutes") ;;
      ret false
  end.

Definition share_snapshot_with_account (snapshot_identifier : string)
    (target_account_id : json) : M bool :=
  e <- ask ;;
  logger INFO ("Sharing snapshot " ++ snapshot_identifier ++ " with account "
               ++ format e target_account_id) ;;
  try
    (authorize_snapshot_access snapshot_identifier target_account_id ;;
     logger INFO "Snapshot shared successfully" ;;
     ret true)
  except
    (fun e =>
       logger ERROR ("Error sharing snapshot: " ++ str e) ;;
       ret false).

(** [datetime.now().timestamp() - (retention_days * 24 * 3600)], for
    whatever the event gave as [retention_days]: a [str] or a [list] survives
    the multiplications (it is repeated) and fails at the subtraction.  The
    arithmetic is exact here; Python's is that of binary64 floats, which
    rounds the result and raises [OverflowError] for an [int] beyond the
    range of a float. *)
Definition cutoff (now : Q) (retention_days : json) : M Q :=
  match retention_days with
  | JInt z => ret (now - inject_Z (z * 24 * 3600))%Q
  | JFloat q => ret (now - q * 24 * 3600)%Q
  | JBool b => ret (now - inject_Z ((if b then 1 else 0) * 24 * 3600))%Q
  | JStr _ | JList _ =>
      raise (TypeError ("unsupported operand type(s) for -: 'float' and '"
                        ++ type_name retention_days ++ "'"))
  | JNull | JDict _ =>
      raise (TypeError ("unsupported operand type(s) for *: '"
                        ++ type_name retention_days ++ "' and 'int'"))
  end.

(** The [for snapshot in ...] loop of [cleanup_old_snapshots]. *)
Fixpoint delete_old (cutoff_time : Q) (snapshots : list snapshot)
    (deleted_count : Z) : M Z :=
  match snapshots with
  | [] => ret deleted_count
  | snapshot :: rest =>
      let snapshot_id := SnapshotIdentifier snapshot in
      deleted_count <-
        (if String.prefix "aca-lambda-snapshot-" snapshot_id then
           let snapshot_time := SnapshotCreateTime snapshot in
           if Qltb snapshot_time cutoff_time then
             logger INFO ("Deleting old snapshot: " ++ snapshot_id) ;;
             try
               (delete_cluster_snapshot snapshot_id ;;
                ret (deleted_count + 1)%Z)
             except
               (fun e =>
                  logger WARNING ("Could not delete snapshot " ++ snapshot_id
                                  ++ ": " ++ str e) ;;
                  ret deleted_count)
           else ret deleted_count
         else ret deleted_count) ;;
      delete_old cutoff_time rest deleted_count
  end.

Definition cleanup_old_snapshots (cluster_identifier retention_days : json)
  : M Z :=
  e <- ask ;;
  logger INFO ("Cleaning up snapshots older than " ++ format e retention_days
               ++ " days") ;;
  try
    (response <- describe_cluster_snapshots
                   (ManualOfCluster cluster_identifier) ;;
     now <- time_time ;;
     cutoff_time <- cutoff now retention_days ;;
     deleted_count <-
       delete_old cutoff_time (default [] (Snapshots response)) 0%Z ;;
     logger INFO ("Cleaned up " ++ str_int deleted_count ++ " old snapshots") ;;
     ret deleted_count)
  except
    (fun e =>
       logger ERROR ("Error during cleanup: " ++ str e) ;;
       ret 0%Z).

(** [event.get(key, default)]; an event that is not a dict has no [get]. *)
Definition event_get (event : json) (key : string) (dflt : json) : M json :=
  match event with
  | JDict d => ret (default dflt (d !! key))
  | _ => raise (AttributeError ("'" ++ type_name event
                                ++ "' object has no attribute 'get'"))
  end.

(** [json.dumps(event)] for the event of the handler. *)
Definition dumps_event (event : event_object) : M string :=
  match event with
  | Serialisable v => e <- ask ;; ret (json_dumps e v)
  | Unserialisable x => raise x
  end.

(** The event as the handler reads it once [json.dumps] has written it: a
    JSON value.  (An object [json.dumps] refuses is never read: the handler
    has raised by then.) *)
Definition json_of (event : event_object) : json :=
  match event with
  | Serialisable v => v
  | Unserialisable _ => JNull
  end.

(** The first statement, [logger.info(f"... {json.dumps(event)}")], stands
    before the [try]: what [json.dumps] raises leaves the handler. *)
Definition lambda_handler {C : Type} (event : event_object) (context : C)
  : M (gmap string json) :=
  e <- ask ;;
  written <- dumps_event event ;;
  logger INFO ("Lambda invoked with event: " ++ written) ;;
  let event := json_of event in
  try
    (cluster_identifier <-
       event_get event "cluster_identifier" (JStr "aca-redshift-cluster") ;;
     target_account_id <- event_get event "target_account_id" JNull ;;
     retention_days <- event_get event "retention_days" (JInt 7) ;;
     wait_for_completion <-
       event_get event "wait_for_completion" (JBool false) ;;
     (if negb (truthy target_account_id)
      then raise (ValueError "target_account_id is required")
      else ret tt) ;;
     __init__ ;;
     snapshot_id <- create_manual_snapshot cluster_identifier
                      target_account_id ;;
     now <- time_time ;;
     let result : gmap string json :=
       {[ "statusCode" := JInt 200;
          "snapshot_id" := JStr snapshot_id;
          "cluster_identifier" := cluster_identifier;
          "target_account_id" := target_account_id;
          "timestamp" := JStr (isoformat e now);
          "status" := JStr "snapshot_initiated" ]} in
     result <-
       (if truthy wait_for_completion then
          completed <- wait_for_snapshot_completion snapshot_id 10 ;;
          if completed : bool then
            shared <- share_snapshot_with_account snapshot_id
                        target_account_id ;;
            let result := <["shared" := JBool shared]> result in
            ret (<["status" := JStr (if shared : bool
                                     then "completed_and_shared"
                                     else "completed_not_shared")]> result)
          else ret (<["status" := JStr "snapshot_in_progress"]> result)
        else ret (<["status" := JStr "snapshot_initiated_async"]> result)) ;;
     deleted_count <- cleanup_old_snapshots cluster_identifier
                        retention_days ;;
     let result := <["cleaned_up_snapshots" := JInt deleted_count]> result in
     logger INFO ("Lambda completed successfully: "
                  ++ json_dumps e (JDict result)) ;;
     ret result)
  except
    (fun ex =>
       logger ERROR ("Lambda execution failed: " ++ str ex) ;;
       now <- time_time ;;
       ret ({[ "statusCode" := JInt 500;
               "error" := JStr (str ex);
               "timestamp" := JStr (isoformat e now) ]} : gmap string json)).

End BackupLambda.

(** * Vocabulary of the properties *)

(** The outcome of a run, the final world left out. *)
Definition outcome_of {A} (r : res A) : option (outcome A) :=
  match r with
  | Ok a _ => Some (Returns a)
  | Err e _ => Some (Raises e)
  | Stuck => None
  end.

(** The world a run ends in. *)
Definition world_of {A} (r : res A) : option world :=
  match r with
  | Ok _ w | Err _ w => Some w
  | Stuck => None
  end.

(** The run returned a value: it raised nothing. *)
Definition returns_a_value {A} (r : res A) : Prop :=
  exists v w, r = Ok v w.

(** ** The shape the three wait functions share

    Each of them reads the clock and, while less than [timeout] seconds have
    gone by since [start], does one turn of its loop. *)
Definition loop {A} (body : M (option A)) (fuel : nat) (start : Q)
    (timeout : Z) : M (option A) :=
  while fuel
    (now <- time_time ;; ret (Qltb (now - start) (inject_Z timeout)))
    body.

(** What one turn [body] does from [w] to [w'], for a loop whose status
    queries are counted by [calls]: it asks for the status once, which takes
    [latency]; it returns [v] when [verdict] reads [Some v] from the reply,
    and otherwise sleeps [interval] seconds and goes on. *)
Definition turn_of {A} (interval : Z) (calls : list effect -> nat)
    (latency : environment -> nat -> duration)
    (verdict : environment -> nat -> option A)
    (body : M (option A)) (w w' : world) : Prop :=
  let n := calls (trace w) in
  body w = Ok (verdict (env w) n) w' /\
  env w' = env w /\
  calls (trace w') = S n /\
  match verdict (env w) n with
  | Some _ =>
      (clock w' == clock w + secs (latency (env w) n))%Q /\
      sleeps (trace w') = sleeps (trace w)
  | None =>
      (clock w' == clock w + secs (latency (env w) n) + inject_Z interval
                   + secs (oversleep (env w)
                             (List.length (sleeps (trace w)))))%Q
      /\
      sleeps (trace w') = interval :: sleeps (trace w)
  end.

(** A wait function around such a loop: it does [hello] (a line printed or
    logged), notes the start time, runs the loop with fuel for [timeout]
    turns, returns what the loop returned and does [on_timeout] when the loop
    ended because the time was over. *)
Definition waits {A} (body : M (option A)) (hello : effect) (on_timeout : M A)
    (timeout : Z) : M A :=
  fun w =>
    match loop body (S (Z.to_nat timeout)) (clock w) timeout (record hello w)
    with
    | Ok (Some v) w' => Ok v w'
    | Ok None w' => on_timeout w'
    | Err e w' => Err e w'
    | Stuck => Stuck
    end.

(** ** Reading a status reply *)

(** The status of the first snapshot a reply of [describe_cluster_snapshots]
    lists; [None] when the call raises or lists nothing. *)
Definition first_status (r : reply describe_response) : option string :=
  match answer r with
  | Returns {| Snapshots := Some (s :: _) |} => Some (Status s)
  | _ => None
  end.

(** What the snapshot loops return on the n-th status reply: [True] when it
    reports ['available']. *)
Definition snapshot_verdict (e : environment) (n : nat) : option bool :=
  match first_status (describe_cluster_snapshots_reply e n) with
  | Some st => if String.eqb st "available" then Some true else None
  | None => None
  end.

Definition snapshot_latency (e : environment) (n : nat) : duration :=
  took (describe_cluster_snapshots_reply e n).

(** A reply that reports no terminal status of a snapshot: neither
    ['available'] nor ['failed']. A call that raises is one. *)
Definition snapshot_nonterminal (r : reply describe_response) : bool :=
  match first_status r with
  | Some st => negb (String.eqb st "available") && negb (String.eqb st "failed")
  | None => true
  end.

(** What the backup loop returns on the n-th status reply: the ARN of the
    recovery point when the job is ['COMPLETED']. *)
Definition job_verdict (e : environment) (n : nat) : option string :=
  match answer (describe_backup_job_reply e n) with
  | Returns j =>
      if String.eqb (State j) "COMPLETED" then RecoveryPointArn j else None
  | Raises _ => None
  end.

Definition job_latency (e : environment) (n : nat) : duration :=
  took (describe_backup_job_reply e n).

(** A reply that reports no terminal state of a backup job. *)
Definition job_nonterminal (r : reply backup_job) : bool :=
  match answer r with
  | Returns j =>
      negb (existsb (String.eqb (State j))
              ["COMPLETED"; "FAILED"; "ABORTED"; "EXPIRED"])
  | Raises _ => true
  end.

(** The number of effects of a kind a run has left in its trace. *)
Definition queries_of {A} (p : effect -> bool) (r : res A) : option nat :=
  option_map (fun w => count p (trace w)) (world_of r).

(** [r] ends with outcome [o] in a world whose environment is [e]. *)
Definition ends_with {A} (o : outcome A) (e : environment) (r : res A)
  : Prop :=
  outcome_of r = Some o /\ exists w, world_of r = Some w /\ env w = e.

(** ** The clean-up *)

(** The identifiers of the delete requests in a trace, newest first. *)
Fixpoint deleted (t : list effect) : list string :=
  match t with
  | [] => []
  | DeleteClusterSnapshot snapshot_id :: t' => snapshot_id :: deleted t'
  | _ :: t' => deleted t'
  end.

Definition is_log (e : effect) : bool :=
  match e with Log _ _ => true | _ => false end.

(** A snapshot the clean-up is meant for: made by the Lambda and created
    before [cutoff_time]. *)
Definition eligible (cutoff_time : Q) (s : snapshot) : bool :=
  String.prefix "aca-lambda-snapshot-" (SnapshotIdentifier s)
  && Qltb (SnapshotCreateTime s) cutoff_time.

(** How many of the [n] delete requests from the [from]-th on succeed. *)
Fixpoint succeeded (e : environment) (from n : nat) : Z :=
  match n with
  | O => 0
  | S n' =>
      (match answer (delete_cluster_snapshot_reply e from) with
       | Returns _ => 1
       | Raises _ => 0
       end + succeeded e (S from) n')%Z
  end.

(** A retention of a size met in practice: a whole number of days, a
    million at most either way.  For such a retention
    [retention_days * 24 * 3600] is an [int] that a binary64 float holds
    exactly, and no clean-up overflows. *)
Definition realistic (retention_days : Z) : Prop :=
  (- 1000000 <= retention_days <= 1000000)%Z.

(** The snapshot was created a second or more before [cutoff_time]: well
    clear of what the rounding of the time stamps can move. *)
Definition well_before (cutoff_time : Q) (s : snapshot) : Prop :=
  (SnapshotCreateTime s + 1 <= cutoff_time)%Q.

(** The number of days a [retention_days] stands for, when it is a number. *)
Definition days (retention_days : json) : option Q :=
  match retention_days with
  | JInt z => Some (inject_Z z)
  | JFloat q => Some q
  | JBool b => Some (if b then 1 else 0)%Q
  | _ => None
  end.

(** ** The handler *)

(** What the handler reads as [target_account_id]. *)
Definition target_of (event : json) : json :=
  match event with
  | JDict d => default JNull (d !! "target_account_id")
  | _ => JNull
  end.

Definition returned {A} (r : reply A) : bool :=
  match answer r with Returns _ => true | Raises _ => false end.

(** The handler gets as far as [create_cluster_snapshot] and that call
    returns: the event names a target account, the clients can be built and
    the next creation succeeds. *)
Definition creation_succeeds (event : json) (w : world) : bool :=
  truthy (target_of event)
  && returned (identity_reply (env w))
  && returned (create_cluster_snapshot_reply (env w)
                 (count is_create (trace w))).

(** ** Worlds for the examples *)

(** A reply that takes no time. *)
Definition at_once {A} (o : outcome A) : reply A :=
  {| answer := o; took := instant |}.

Definition listing (snapshot_identifier status : string) (created : Q)
  : snapshot :=
  {| SnapshotIdentifier := snapshot_identifier;
     Status := status;
     SnapshotCreateTime := created |}.

Definition reporting (status : string) : describe_response :=
  {| Snapshots := Some [listing "demo-snapshot-20250101-000000" status 0] |}.

Definition job_in (state : string) : backup_job :=
  {| State := state;
     RecoveryPointArn :=
       if String.eqb state "COMPLETED"
       then Some "arn:aws:backup:us-east-1:164543933824:recovery-point:demo"
       else None |}.

(** An environment where every call other than the status queries succeeds
    at once and sleeps are exact. *)
Definition environment_of (snapshots : nat -> reply describe_response)
    (jobs : nat -> reply backup_job) : environment :=
  {| identity_reply := at_once (Returns "164543933824");
     create_cluster_snapshot_reply := fun _ => at_once (Returns tt);
     describe_cluster_snapshots_reply := snapshots;
     authorize_snapshot_access_reply := fun _ => at_once (Returns tt);
     delete_cluster_snapshot_reply := fun _ => at_once (Returns tt);
     describe_backup_job_reply := jobs;
     oversleep := fun _ => instant;
     strftime := fun _ => "20250101-000000";
     isoformat := fun _ => "2025-01-01T00:00:00";
     json_dumps := fun _ => "{}";
     format := fun _ => "7" |}.

(** A reply that takes [seconds]. *)
Definition after_seconds {A} (seconds : N) (o : outcome A) : reply A :=
  {| answer := o; took := {| dnum := seconds; dden := 1 |} |}.

Definition boot (e : environment) : world :=
  {| env := e; clock := 0; trace := [] |}.

(** Every status query reports the same status, at once. *)
Definition steady (status state : string) : world :=
  boot (environment_of (fun _ => at_once (Returns (reporting status)))
          (fun _ => at_once (Returns (job_in state)))).

(** Every status query reports the same status and takes [seconds]. *)
Definition unhurried (seconds : N) (status state : string) : world :=
  boot (environment_of
          (fun _ => after_seconds seconds (Returns (reporting status)))
          (fun _ => after_seconds seconds (Returns (job_in state)))).

(** The first two status queries fail with a throttling error, the later
    ones report success. *)
Definition flaky : world :=
  boot (environment_of
          (fun n => at_once (if (n <? 2)%nat
                             then Raises (ClientError "Throttling")
                             else Returns (reporting "available")))
          (fun n => at_once (if (n <? 2)%nat
                             then Raises (ClientError "Throttling")
                             else Returns (job_in "COMPLETED")))).

(** * More of the code *)

(** ** scripts/native_snapshot_demo.py: creating and sharing *)

Module RedshiftSnapshotDemo.

(** What [__init__] leaves in [self] that the methods below read. *)
Record self : Type := {
  source_account_id : string;
  target_account_id : string
}.

(** [RedshiftSnapshotDemo.create_manual_snapshot]. The request carries the
    tags Purpose and CreatedBy and no target account, noted as [JNull]; the
    wait runs with its default [timeout] of 1800 seconds. *)
Definition create_manual_snapshot (cluster_identifier : string) : M string :=
  e <- ask ;;
  now <- time_time ;;
  let timestamp := strftime e now in
  let snapshot_identifier := "demo-snapshot-" ++ timestamp in
  print ("Creating manual snapshot: " ++ snapshot_identifier) ;;
  try
    (BackupLambda.create_cluster_snapshot snapshot_identifier
       (JStr cluster_identifier) JNull ;;
     NativeSnapshotDemo._wait_for_snapshot_completion snapshot_identifier
       1800 ;;
     print ("Snapshot created successfully: " ++ snapshot_identifier) ;;
     ret snapshot_identifier)
  except
    (fun e =>
       print ("Error creating snapshot: " ++ str e) ;;
       raise e).

(** [RedshiftSnapshotDemo.share_snapshot_with_account] *)
Definition share_snapshot_with_account (s : self)
    (snapshot_identifier : string) : M bool :=
  print ("Sharing snapshot " ++ snapshot_identifier ++ " with account "
         ++ target_account_id s) ;;
  try
    (BackupLambda.authorize_snapshot_access snapshot_identifier
       (JStr (target_account_id s)) ;;
     print "Snapshot shared successfully" ;;
     ret true)
  except
    (fun e =>
       print ("Error sharing snapshot: " ++ str e) ;;
       ret false).

End RedshiftSnapshotDemo.

(** ** More vocabulary *)

(** A status query: [describe_cluster_snapshots(SnapshotIdentifier=...)]. *)
Definition is_status_query (e : effect) : bool :=
  match e with
  | DescribeClusterSnapshots (BySnapshotIdentifier _) => true
  | _ => false
  end.

(** What the handler reads from the event, with its defaults. *)
Definition cluster_of (event : json) : json :=
  match event with
  | JDict d => default (JStr "aca-redshift-cluster") (d !! "cluster_identifier")
  | _ => JStr "aca-redshift-cluster"
  end.

Definition retention_of (event : json) : json :=
  match event with
  | JDict d => default (JInt 7) (d !! "retention_days")
  | _ => JInt 7
  end.

Definition wait_of (event : json) : json :=
  match event with
  | JDict d => default (JBool false) (d !! "wait_for_completion")
  | _ => JBool false
  end.

(** The n-th status reply reports ['available'] for the first snapshot. *)
Definition reports_available (e : environment) (n : nat) : Prop :=
  first_status (describe_cluster_snapshots_reply e n) = Some "available".

(** The n-th reply of [describe_backup_job] is a ['COMPLETED'] job with the
    recovery point [arn]. *)
Definition reports_completed (e : environment) (n : nat) (arn : string)
  : Prop :=
  exists j,
    answer (describe_backup_job_reply e n) = Returns j /\
    State j = "COMPLETED" /\ RecoveryPointArn j = Some arn.

(** ** What a function may do to the outside *)

(** From [w] to [w'] the trace grew by effects that all satisfy [ok]. *)
Definition extends (ok : effect -> Prop) (w w' : world) : Prop :=
  exists es, trace w' = (es ++ trace w)%list /\ Forall ok es.

(** The effects of the Lambda's wait for the snapshot [id]: log lines,
    sleeps of 30 seconds and status queries for [id]. *)
Definition wait_effect (id : string) (e : effect) : Prop :=
  match e with
  | Log _ _ => True
  | Sleep s => s = 30%Z
  | DescribeClusterSnapshots (BySnapshotIdentifier i) => i = id
  | _ => False
  end.


(** The effects of sharing the snapshot [id] with [account]. *)
Definition share_effect (id : string) (account : json) (e : effect) : Prop :=
  match e with
  | Log _ _ => True
  | AuthorizeSnapshotAccess i a => i = id /\ a = account
  | _ => False
  end.

(** The effects of the clean-up for [cluster]: log lines, the listing of the
    manual snapshots of [cluster] and delete requests for snapshots whose
    identifier has the Lambda's prefix. *)
Definition cleanup_effect (cluster : json) (e : effect) : Prop :=
  match e with
  | Log _ _ => True
  | DescribeClusterSnapshots (ManualOfCluster c) => c = cluster
  | DeleteClusterSnapshot i =>
      String.prefix "aca-lambda-snapshot-" i = true
  | _ => False
  end.

(** The identifier the handler gives the snapshot it creates in [w]: the
    time stamp is taken once the clients are built. *)
Definition snapshot_id_of (w : world) : string :=
  "aca-lambda-snapshot-"
  ++ strftime (env w) (clock w + secs (took (identity_reply (env w)))).

(** The effects of one invocation of the handler on [event] in [w]. *)
Definition handler_effect (event : json) (w : world) (e : effect) : Prop :=
  match e with
  | Log _ _ | GetCallerIdentity => True
  | CreateClusterSnapshot i c t =>
      i = snapshot_id_of w /\ c = cluster_of event /\ t = target_of event /\
      truthy t = true
  | Sleep s => s = 30%Z /\ truthy (wait_of event) = true
  | DescribeClusterSnapshots (BySnapshotIdentifier i) =>
      i = snapshot_id_of w /\ truthy (wait_of event) = true
  | DescribeClusterSnapshots (ManualOfCluster c) => c = cluster_of event
  | AuthorizeSnapshotAccess i a =>
      i = snapshot_id_of w /\ a = target_of event /\
      truthy (wait_of event) = true /\
      exists n, reports_available (env w) n
  | DeleteClusterSnapshot i =>
      String.prefix "aca-lambda-snapshot-" i = true
  | Print _ | DescribeBackupJob _ => False
  end.

(** The identifiers the clean-up is to ask the deletion of, in the order of
    the listing [r], when it runs at time [now]: those of the listed
    snapshots that carry the Lambda's prefix and were created before
    [retention_days] days ago. None when the listing fails or
    [retention_days] is no number. *)
Definition requested (r : reply describe_response) (now : Q)
    (retention_days : json) : list string :=
  match answer r, days retention_days with
  | Returns resp, Some d =>
      map SnapshotIdentifier
        (List.filter (eligible (now - d * 24 * 3600)%Q)
           (default [] (Snapshots resp)))
  | _, _ => []
  end.

(** The message of the exception that keeps the handler from a created
    snapshot, when there is one: the event is no dict, it names no target
    account, the clients cannot be built or the creation request fails. *)
Definition failure_of (event : json) (w : world) : option string :=
  match event with
  | JDict _ =>
      if truthy (target_of event) then
        match answer (identity_reply (env w)) with
        | Raises x => Some (str x)
        | Returns _ =>
            match answer (create_cluster_snapshot_reply (env w)
                            (count is_create (trace w))) with
            | Raises x => Some (str x)
            | Returns _ => None
            end
        end
      else Some "target_account_id is required"
  | _ => Some ("'" ++ type_name event ++ "' object has no attribute 'get'")
  end.

(** What the handler's result says of the wait and the sharing, when the
    snapshot was created: the status, the 'shared' entry and the number of
    requests to authorize access. *)
Definition reported (event : json) (result : gmap string json)
    (authorized : nat) : Prop :=
  if truthy (wait_of event) then
    (result !! "status" = Some (JStr "completed_and_shared") /\
     result !! "shared" = Some (JBool true) /\ authorized = 1%nat)
    \/
    (result !! "status" = Some (JStr "completed_not_shared") /\
     result !! "shared" = Some (JBool false) /\ authorized = 1%nat)
    \/
    (result !! "status" = Some (JStr "snapshot_in_progress") /\
     result !! "shared" = None /\ authorized = 0%nat)
  else
    result !! "status" = Some (JStr "snapshot_initiated_async") /\
    result !! "shared" = None /\ authorized = 0%nat.

(** ** Events for the examples *)

(** An event that names the target account only. *)
Definition async_event : json :=
  JDict {[ "target_account_id" := JStr "058264155998" ]}.

(** An event that [json.dumps] refuses: its dict holds a set. *)
Definition unwritable_event : event_object :=
  Unserialisable (TypeError "Object of type set is not JSON serializable").

(** An event that also asks to wait for completion. *)
Definition waiting_event : json :=
  JDict {[ "target_account_id" := JStr "058264155998";
           "wait_for_completion" := JBool true ]}.

(** * The other methods of the two scripts

    The methods below talk to several clients (Backup and IAM of the source
    account, Backup and Redshift of the target account) and tell the classes
    of the exceptions apart.  They are written in a second monad of the same
    kind, over a world in which every client call is answered by the service:
    the n-th call made, whichever it is, gets the n-th answer.  A response is
    looked at as far as the code reads it: its entries that are strings, and
    its entries that are lists of dicts of strings. *)

Module Sdk.

(** The exceptions: those of the first part and the classes the scripts name
    or meet besides.  [AlreadyExistsException] and [NoSuchEntityException]
    are the exceptions of the botocore clients. *)
Inductive error : Type :=
| Std (e : exn)
| IndexError (msg : string)
| AlreadyExistsException (msg : string)
| NoSuchEntityException (msg : string).

(** [str(e)] *)
Definition message (e : error) : string :=
  match e with
  | Std x => str x
  | IndexError m | AlreadyExistsException m
  | NoSuchEntityException m => m
  end.

Definition is_already_exists (e : error) : bool :=
  match e with AlreadyExistsException _ => true | _ => false end.

Definition is_no_such_entity (e : error) : bool :=
  match e with NoSuchEntityException _ => true | _ => false end.

(** A dict of strings: a recovery point, a snapshot, a plan, as listed. *)
Definition item : Type := gmap string string.

(** What the code reads of a response. *)
Record response : Type := {
  strings : gmap string string;
  lists : gmap string (list item)
}.

(** The answer of the service to one call, and the time the call takes. *)
Record served : Type := {
  result : error + response;
  spent : duration
}.

(** The service answers the n-th call; the n-th sleep overshoots; and
    [json.dumps] is taken as it is. *)
Record host : Type := {
  service : nat -> served;
  overshoot : nat -> duration;
  dumps : json -> string
}.

Inductive action : Type :=
| Printed (line : string)
| Slept (seconds : Z)
| Called (client operation : string) (kwargs : gmap string json).

(** The host, the wall clock and what was done so far, newest first. *)
Record state : Type := {
  on : host;
  time : Q;
  done : list action
}.

Definition is_called (a : action) : bool :=
  match a with Called _ _ _ => true | _ => false end.

Definition is_slept (a : action) : bool :=
  match a with Slept _ => true | _ => false end.

(** The calls in a list of actions, newest first. *)
Definition calls (t : list action) : list action := List.filter is_called t.

Inductive run (A : Type) : Type :=
| Done (a : A) (s : state)
| Thrown (e : error) (s : state).
Arguments Done {A} a s.
Arguments Thrown {A} e s.

Definition M (A : Type) : Type := state -> run A.

Definition ret {A} (a : A) : M A := fun s => Done a s.

Definition bind {A B} (m : M A) (k : A -> M B) : M B :=
  fun s =>
    match m s with
    | Done a s' => k a s'
    | Thrown e s' => Thrown e s'
    end.

Definition raise {A} (e : error) : M A := fun s => Thrown e s.

(** [try: m  except <class>: h e]: only the exceptions [caught] are handled,
    the others go on up. An exception raised by the handler is not caught
    again. *)
Definition try_except {A} (m : M A) (caught : error -> bool)
    (h : error -> M A) : M A :=
  fun s =>
    match m s with
    | Thrown e s' => if caught e then h e s' else Thrown e s'
    | r => r
    end.

(** [except Exception] and the bare [except]. *)
Definition any (e : error) : bool := true.

Declare Scope sdk_scope.
Delimit Scope sdk_scope with sdk.
Notation "x <- m ;; k" := (bind m (fun x => k))
  (at level 100, m at next level, right associativity) : sdk_scope.
Notation "m ;; k" := (bind m (fun _ => k))
  (at level 100, right associativity) : sdk_scope.
Local Open Scope sdk_scope.

Definition note (a : action) (s : state) : state :=
  {| on := on s; time := time s; done := a :: done s |}.

Definition later (d : Q) (s : state) : state :=
  {| on := on s; time := (time s + d)%Q; done := done s |}.

Definition print (line : string) : M unit :=
  fun s => Done tt (note (Printed line) s).

(** [time.sleep(seconds)] *)
Definition time_sleep (seconds : Z) : M unit :=
  fun s =>
    let over := overshoot (on s) (List.length (List.filter is_slept (done s))) in
    Done tt (later (inject_Z seconds + secs over)%Q (note (Slept seconds) s)).

(** [client.operation(...)] with keyword arguments *)
Definition call (client operation : string) (kwargs : gmap string json)
  : M response :=
  fun s =>
    let a := service (on s) (List.length (calls (done s))) in
    let s' := later (secs (spent a)) (note (Called client operation kwargs) s)
    in
    match result a with
    | inr r => Done r s'
    | inl e => Thrown e s'
    end.

(** [json.dumps(v)] *)
Definition json_dumps (v : json) : M string :=
  fun s => Done (dumps (on s) v) s.

(** [response[key]] for an entry that is a string *)
Definition getitem (r : response) (key : string) : M string :=
  match strings r !! key with
  | Some v => ret v
  | None => raise (Std (KeyError key))
  end.

(** [response[key]] for an entry that is a list *)
Definition getlist (r : response) (key : string) : M (list item) :=
  match lists r !! key with
  | Some l => ret l
  | None => raise (Std (KeyError key))
  end.

(** [d[key]] for an item of a list *)
Definition field (d : item) (key : string) : M string :=
  match d !! key with
  | Some v => ret v
  | None => raise (Std (KeyError key))
  end.

(** The character [/]. *)
Definition slash : Ascii.ascii := Ascii.ascii_of_nat 47.

(** [s.split(sep)] for a separator of one character *)
Fixpoint split (sep : Ascii.ascii) (s : string) : list string :=
  match s with
  | EmptyString => [EmptyString]
  | String c s' =>
      if Ascii.eqb c sep then EmptyString :: split sep s'
      else match split sep s' with
           | h :: t => String c h :: t
           | [] => [String c EmptyString]
           end
  end.

(** [l[-2]] *)
Definition last_but_one (l : list string) : M string :=
  match rev l with
  | _ :: x :: _ => ret x
  | _ => raise (IndexError "list index out of range")
  end.

(** What [__init__] leaves in [self] that the methods read. *)
Record self : Type := {
  source_account_id : string;
  target_account_id : string
}.

(** ** scripts/aws_backup_demo.py *)

Module AWSBackupDemo.

Definition role_name : string := "AWSBackupServiceRole-RedshiftDemo".

Definition trust_policy : json :=
  JDict {[ "Version" := JStr "2012-10-17";
           "Statement" :=
             JList [JDict {[ "Effect" := JStr "Allow";
                             "Principal" :=
                               JDict {[ "Service" :=
                                          JStr "backup.amazonaws.com" ]};
                             "Action" := JStr "sts:AssumeRole" ]}] ]}.

Definition create_backup_role (me : self) : M string :=
  try_except
    (call "source_iam" "get_role" {[ "RoleName" := JStr role_name ]} ;;
     print ("IAM role " ++ role_name ++ " already exists"))
    is_no_such_entity
    (fun _ =>
       print ("Creating IAM role: " ++ role_name) ;;
       document <- json_dumps trust_policy ;;
       call "source_iam" "create_role"
         {[ "RoleName" := JStr role_name;
            "AssumeRolePolicyDocument" := JStr document;
            "Description" :=
              JStr "Service role for AWS Backup to access Redshift" ]} ;;
       call "source_iam" "attach_role_policy"
         {[ "RoleName" := JStr role_name;
            "PolicyArn" :=
              JStr ("arn:aws:iam::aws:policy/service-role/"
                    ++ "AWSBackupServiceRolePolicyForBackup") ]} ;;
       time_sleep 10) ;;
  let role_arn :=
    "arn:aws:iam::" ++ source_account_id me ++ ":role/" ++ role_name in
  print ("Using IAM role: " ++ role_arn) ;;
  ret role_arn.

Definition create_backup_vault (vault_name : string) : M string :=
  print ("Creating backup vault: " ++ vault_name) ;;
  try_except
    (response <- call "source_backup" "create_backup_vault"
                   {[ "BackupVaultName" := JStr vault_name;
                      "BackupVaultTags" :=
                        JDict {[ "Purpose" := JStr "RedshiftCrossAccountDemo";
                                 "CreatedBy" := JStr "AWSBackupDemo" ]} ]} ;;
     vault_arn <- getitem response "BackupVaultArn" ;;
     print ("Backup vault created: " ++ vault_arn) ;;
     ret vault_arn)
    is_already_exists
    (fun _ =>
       print ("Backup vault " ++ vault_name ++ " already exists") ;;
       response <- call "source_backup" "describe_backup_vault"
                     {[ "BackupVaultName" := JStr vault_name ]} ;;
       getitem response "BackupVaultArn").

(** The [for ... in ...: if ...: return ...] search of both
    [create_backup_plan] and [create_backup_selection]: the identifier of
    the first entry of that name. *)
Fixpoint find_existing (name_key id_key line : string) (name : string)
    (entries : list item) : M (option string) :=
  match entries with
  | [] => ret None
  | entry :: rest =>
      entry_name <- field entry name_key ;;
      if String.eqb entry_name name then
        entry_id <- field entry id_key ;;
        print (line ++ entry_id) ;;
        ret (Some entry_id)
      else find_existing name_key id_key line name rest
  end.

Definition backup_plan (plan_name vault_name : string) : json :=
  JDict {[ "BackupPlanName" := JStr plan_name;
           "Rules" :=
             JList [JDict
               {[ "RuleName" := JStr "RedshiftDailyBackup";
                  "TargetBackupVaultName" := JStr vault_name;
                  "ScheduleExpression" := JStr "cron(0 2 * * ? *)";
                  "StartWindowMinutes" := JInt 60;
                  "CompletionWindowMinutes" := JInt 120;
                  "Lifecycle" := JDict {[ "DeleteAfterDays" := JInt 30 ]};
                  "RecoveryPointTags" :=
                    JDict {[ "Purpose" := JStr "RedshiftDemo";
                             "AutomatedBackup" := JStr "true" ]} ]}] ]}.

Definition create_backup_plan (plan_name vault_name role_arn : string)
  : M string :=
  print ("Creating backup plan: " ++ plan_name) ;;
  try_except
    (response <- call "source_backup" "create_backup_plan"
                   {[ "BackupPlan" := backup_plan plan_name vault_name;
                      "BackupPlanTags" :=
                        JDict {[ "Purpose" :=
                                   JStr "RedshiftCrossAccountDemo" ]} ]} ;;
     plan_id <- getitem response "BackupPlanId" ;;
     print ("Backup plan created: " ++ plan_id) ;;
     ret plan_id)
    any
    (fun e =>
       if is_already_exists e then
         print ("Backup plan " ++ plan_name
                ++ " already exists, finding existing plan...") ;;
         plans <- call "source_backup" "list_backup_plans" ∅ ;;
         entries <- getlist plans "BackupPlansList" ;;
         found <- find_existing "BackupPlanName" "BackupPlanId"
                    "Using existing backup plan: " plan_name entries ;;
         match found with
         | Some plan_id => ret plan_id
         | None => raise (Std (Exception "Could not find existing backup plan"))
         end
       else
         print ("Error creating backup plan: " ++ message e) ;;
         raise e).

Definition create_backup_selection (plan_id cluster_arn role_arn : string)
  : M string :=
  let selection_name := "RedshiftClusterSelection" in
  print ("Creating backup selection: " ++ selection_name) ;;
  try_except
    (response <- call "source_backup" "create_backup_selection"
                   {[ "BackupPlanId" := JStr plan_id;
                      "BackupSelection" :=
                        JDict {[ "SelectionName" := JStr selection_name;
                                 "IamRoleArn" := JStr role_arn;
                                 "Resources" := JList [JStr cluster_arn] ]} ]} ;;
     selection_id <- getitem response "SelectionId" ;;
     print ("Backup selection created: " ++ selection_id) ;;
     ret selection_id)
    any
    (fun e =>
       if is_already_exists e then
         print ("Backup selection " ++ selection_name
                ++ " already exists, finding existing selection...") ;;
         selections <- call "source_backup" "list_backup_selections"
                         {[ "BackupPlanId" := JStr plan_id ]} ;;
         entries <- getlist selections "BackupSelectionsList" ;;
         found <- find_existing "SelectionName" "SelectionId"
                    "Using existing backup selection: " selection_name
                    entries ;;
         match found with
         | Some selection_id => ret selection_id
         | None =>
             raise (Std (Exception "Could not find existing backup selection"))
         end
       else
         print ("Error creating backup selection: " ++ message e) ;;
         raise e).

Definition copy_backup_to_target_account (me : self)
    (source_recovery_point_arn target_vault_name : string) : M string :=
  print ("Copying backup to target account vault: " ++ target_vault_name) ;;
  try_except
    (source_vault <- last_but_one (split slash source_recovery_point_arn) ;;
     response <- call "source_backup" "start_copy_job"
                   {[ "RecoveryPointArn" := JStr source_recovery_point_arn;
                      "SourceBackupVaultName" := JStr source_vault;
                      "DestinationBackupVaultArn" :=
                        JStr ("arn:aws:backup:us-east-1:"
                              ++ target_account_id me ++ ":backup-vault:"
                              ++ target_vault_name);
                      "IamRoleArn" :=
                        JStr ("arn:aws:iam::" ++ source_account_id me
                              ++ ":role/AWSBackupServiceRole-RedshiftDemo") ]} ;;
     copy_job_id <- getitem response "CopyJobId" ;;
     print ("Copy job started: " ++ copy_job_id) ;;
     ret copy_job_id)
    any
    (fun e =>
       print ("Error copying backup: " ++ message e) ;;
       raise e).

(** The [for rp in recovery_points: print(...)] loop. *)
Fixpoint print_each (key1 key2 : string) (entries : list item) : M unit :=
  match entries with
  | [] => ret tt
  | entry :: rest =>
      v1 <- field entry key1 ;;
      v2 <- field entry key2 ;;
      print ("  - " ++ v1 ++ " (" ++ v2 ++ ")") ;;
      print_each key1 key2 rest
  end.

Definition list_recovery_points (vault_name : string) : M (list item) :=
  print ("Listing recovery points in vault: " ++ vault_name) ;;
  try_except
    (response <- call "source_backup" "list_recovery_points_by_backup_vault"
                   {[ "BackupVaultName" := JStr vault_name ]} ;;
     let recovery_points := default [] (lists response !! "RecoveryPoints") in
     print ("Found " ++ str_int (Z.of_nat (List.length recovery_points))
            ++ " recovery points") ;;
     print_each "RecoveryPointArn" "Status" recovery_points ;;
     ret recovery_points)
    any
    (fun e =>
       print ("Error listing recovery points: " ++ message e) ;;
       ret []).

End AWSBackupDemo.

(** ** scripts/native_snapshot_demo.py, the target account's side *)

Module RedshiftSnapshotDemo.

Definition list_shared_snapshots (me : self) : M (list item) :=
  print "Listing shared snapshots in target account..." ;;
  try_except
    (response <- call "target_redshift" "describe_cluster_snapshots"
                   {[ "SnapshotType" := JStr "manual";
                      "OwnerAccount" := JStr (source_account_id me) ]} ;;
     let snapshots := default [] (lists response !! "Snapshots") in
     print ("Found " ++ str_int (Z.of_nat (List.length snapshots))
            ++ " shared snapshots") ;;
     AWSBackupDemo.print_each "SnapshotIdentifier" "Status" snapshots ;;
     ret snapshots)
    any
    (fun e =>
       print ("Error listing shared snapshots: " ++ message e) ;;
       ret []).

Fixpoint cleanup_snapshots_loop (snapshot_identifiers : list string)
  : M unit :=
  match snapshot_identifiers with
  | [] => ret tt
  | snapshot_id :: rest =>
      try_except
        (call "source_redshift" "delete_cluster_snapshot"
           {[ "SnapshotIdentifier" := JStr snapshot_id ]} ;;
         print ("Deleted snapshot from source: " ++ snapshot_id))
        any
        (fun _ =>
           try_except
             (call "target_redshift" "delete_cluster_snapshot"
                {[ "SnapshotIdentifier" := JStr snapshot_id ]} ;;
              print ("Deleted snapshot from target: " ++ snapshot_id))
             any
             (fun e =>
                print ("Could not delete snapshot " ++ snapshot_id ++ ": "
                       ++ message e))) ;;
      cleanup_snapshots_loop rest
  end.

Definition cleanup_snapshots (snapshot_identifiers : list string) : M unit :=
  print "Cleaning up snapshots..." ;;
  cleanup_snapshots_loop snapshot_identifiers.

End RedshiftSnapshotDemo.


(** ** Vocabulary of the properties of these methods *)

(** What a run returned or raised, and the state it left. *)
Definition outcome {A} (r : run A) : error + A :=
  match r with Done a _ => inr a | Thrown e _ => inl e end.

Definition after {A} (r : run A) : state :=
  match r with Done _ s => s | Thrown _ s => s end.

(** The answer to the k-th call made from state [s] on. *)
Definition answer (s : state) (k : nat) : error + response :=
  result (service (on s) (k + List.length (calls (done s)))%nat).

(** The calls made from [s] to [s'] are [l], newest first. *)
Definition called (s s' : state) (l : list action) : Prop :=
  calls (done s') = (l ++ calls (done s))%list.

(** The entry has both keys. *)
Definition has_keys (key1 key2 : string) (d : item) : bool :=
  match d !! key1, d !! key2 with
  | Some _, Some _ => true
  | _, _ => false
  end.

(** The entry's [key] is [name]. *)
Definition named (key name : string) (d : item) : bool :=
  match d !! key with
  | Some n => String.eqb n name
  | None => false
  end.

(** The identifier of the first entry of that name, if there is one. *)
Definition existing (name_key id_key name : string) (entries : list item)
  : option string :=
  match List.find (named name_key name) entries with
  | Some d => d !! id_key
  | None => None
  end.

(** The string has no [/]. *)
Definition no_slash (s : string) : bool :=
  forallb (fun c => negb (Ascii.eqb c slash)) (list_ascii_of_string s).

(** The line was printed. *)
Definition printed (line : string) (s : state) : Prop :=
  In (Printed line) (done s).

(** The request to delete a snapshot, as either account gets it. *)
Definition delete_request (client snapshot_id : string) : action :=
  Called client "delete_cluster_snapshot"
    {[ "SnapshotIdentifier" := JStr snapshot_id ]}.

(** The calls to one client among actions. *)
Definition to_client (client : string) (a : action) : bool :=
  match a with
  | Called c _ _ => String.eqb c client
  | _ => false
  end.

(** Every call of the service is answered without an error. *)
Definition obliging (h : host) : Prop :=
  forall n, exists r, result (service h n) = inr r.

(** A host whose service answers every call with the same response, at
    once. *)
Definition host_of (answers : nat -> error + response) : host :=
  {| service := fun n => {| result := answers n; spent := {| dnum := 0; dden := 1 |} |};
     overshoot := fun _ => {| dnum := 0; dden := 1 |};
     dumps := fun _ => "{}" |}.

Definition start (answers : nat -> error + response) : state :=
  {| on := host_of answers; time := 0; done := [] |}.

Definition only (key value : string) : response :=
  {| strings := {[ key := value ]}; lists := ∅ |}.

Definition listing_of (key : string) (entries : list item) : response :=
  {| strings := ∅; lists := {[ key := entries ]} |}.


(** The service refuses the creation because the thing exists, and then
    answers with [found]. *)
Definition exists_already (found : response) (n : nat) : error + response :=
  match n with
  | O => inl (AlreadyExistsException "already exists")
  | _ => inr found
  end.

(** IAM has no such role; the calls that follow are answered. *)
Definition role_missing (n : nat) : error + response :=
  match n with
  | O => inl (NoSuchEntityException "no such role")
  | _ => inr (only "RequestId" "1")
  end.

(** Every call is answered. *)
Definition agreeable (n : nat) : error + response :=
  inr (only "CopyJobId" "copy-1").

Definition plan_entry (name id : string) : item :=
  {[ "BackupPlanName" := name; "BackupPlanId" := id ]}.

Definition listed_plans : list item :=
  [plan_entry "weekly" "plan-1"; plan_entry "daily" "plan-2";
   plan_entry "daily" "plan-3"].

Definition demo : self :=
  {| source_account_id := "111111111111";
     target_account_id := "222222222222" |}.

End Sdk.

(** * Properties *)

Local Open Scope Q_scope.

(** ** Clock arithmetic and traces *)

Lemma secs_nonneg (d : duration) : 0 <= secs d.
Proof.
  unfold secs, Qle; simpl. lia.
Qed.

Lemma Qltb_true (x y : Q) : Qltb x y = true <-> x < y.
Proof.
  unfold Qltb. rewrite negb_true_iff.
  split; intros H.
  - apply Qnot_le_lt. intros L. apply Qle_bool_iff in L. congruence.
  - destruct (Qle_bool y x) eqn:E; [ | reflexivity ].
    apply Qle_bool_iff in E. lra.
Qed.

Lemma Qltb_false (x y : Q) : Qltb x y = false <-> y <= x.
Proof.
  unfold Qltb. rewrite negb_false_iff. apply Qle_bool_iff.
Qed.

Lemma count_is_sleep (t : list effect) :
  count is_sleep t = List.length (sleeps t).
Proof.
  unfold count. induction t as [ | e t IH ]; [ reflexivity | ].
  destruct e; simpl; auto.
Qed.

(** ** The poll loop, once for the three functions *)
Section Polling.

Context {A : Type}.
Variable interval : Z.
(** the number of status queries in a trace *)
Variable calls : list effect -> nat.
(** the time the n-th status query takes *)
Variable latency : environment -> nat -> duration.
(** [Some v] when the n-th status reply makes the turn return [v] *)
Variable verdict : environment -> nat -> option A.
Variable body : M (option A).

Hypothesis interval_pos : (0 < interval)%Z.
Hypothesis body_turn :
  forall w, exists w', turn_of interval calls latency verdict body w w'.

Lemma loop_expired fuel start timeout w :
  inject_Z timeout <= clock w - start ->
  loop body (S fuel) start timeout w = Ok None w.
Proof.
  intros H. apply Qltb_false in H.
  unfold loop; simpl. unfold bind, time_time, ret. rewrite H. reflexivity.
Qed.

Lemma loop_first_success fuel start timeout w v :
  clock w - start < inject_Z timeout ->
  verdict (env w) (calls (trace w)) = Some v ->
  exists w',
    loop body (S fuel) start timeout w = Ok (Some v) w' /\
    env w' = env w /\
    calls (trace w') = S (calls (trace w)) /\
    sleeps (trace w') = sleeps (trace w).
Proof.
  intros H Hv. apply Qltb_true in H.
  destruct (body_turn w) as (w' & Hb & He & Hc & Hrest).
  rewrite Hv in Hb, Hrest. destruct Hrest as [_ Hs].
  exists w'. repeat split; auto.
  unfold loop; simpl. unfold bind at 1 2, time_time, ret at 1. rewrite H.
  unfold bind. rewrite Hb. reflexivity.
Qed.

Lemma loop_turn fuel start timeout w :
  clock w - start < inject_Z timeout ->
  verdict (env w) (calls (trace w)) = None ->
  exists w',
    loop body (S fuel) start timeout w = loop body fuel start timeout w' /\
    env w' = env w /\
    calls (trace w') = S (calls (trace w)) /\
    sleeps (trace w') = interval :: sleeps (trace w) /\
    clock w' == clock w + secs (latency (env w) (calls (trace w)))
                + inject_Z interval
                + secs (oversleep (env w) (List.length (sleeps (trace w)))).
Proof.
  intros H Hv. apply Qltb_true in H.
  destruct (body_turn w) as (w' & Hb & He & Hc & Hrest).
  rewrite Hv in Hb, Hrest. destruct Hrest as [Hk Hs].
  exists w'. repeat split; auto.
  unfold loop; simpl. unfold bind at 1 2, time_time, ret at 1. rewrite H.
  unfold bind at 1. rewrite Hb. reflexivity.
Qed.

(** The loop always ends with a result: after [k] turns that slept it
    either returns, at the first reply with the success status, or gives
    up because the time is over.  It never raises. *)
Lemma loop_runs start timeout fuel : forall w,
  inject_Z timeout - (clock w - start)
    <= inject_Z (interval * Z.of_nat fuel) ->
  exists (k : nat) (r : option A) (w' : world),
    loop body (S fuel) start timeout w = Ok r w' /\
    env w' = env w /\
    sleeps (trace w') = (repeat interval k ++ sleeps (trace w))%list /\
    (forall m, (m < k)%nat ->
               verdict (env w) (calls (trace w) + m)%nat = None) /\
    match r with
    | Some v =>
        calls (trace w') = S (calls (trace w) + k) /\
        verdict (env w) (calls (trace w) + k)%nat = Some v
    | None =>
        calls (trace w') = (calls (trace w) + k)%nat /\
        inject_Z timeout <= clock w' - start
    end.
Proof.
  induction fuel as [ | fuel IH ]; intros w Hfuel.
  - exists 0%nat, None, w. rewrite Nat.add_0_r.
    assert (E : inject_Z timeout <= clock w - start).
    { change (inject_Z (interval * Z.of_nat 0)) with (inject_Z (interval * 0))
        in Hfuel.
      rewrite Z.mul_0_r in Hfuel. change (inject_Z 0) with 0 in Hfuel. lra. }
    rewrite (loop_expired _ _ _ _ E).
    repeat split; auto. intros m Hm; lia.
  - destruct (Qlt_le_dec (clock w - start) (inject_Z timeout)) as [Lt | Ge].
    + destruct (verdict (env w) (calls (trace w))) as [ v | ] eqn:Hv.
      * destruct (loop_first_success (S fuel) _ _ _ _ Lt Hv)
          as (w' & Hl & He & Hc & Hs).
        exists 0%nat, (Some v), w'. rewrite Nat.add_0_r.
        repeat split; auto. intros m Hm; lia.
      * destruct (loop_turn (S fuel) _ _ _ Lt Hv)
          as (w1 & Hl & He & Hc & Hs & Hk).
        assert (Hfuel1 : inject_Z timeout - (clock w1 - start)
                         <= inject_Z (interval * Z.of_nat fuel)).
        { rewrite Nat2Z.inj_succ, Z.mul_succ_r, inject_Z_plus in Hfuel.
          pose proof (secs_nonneg (latency (env w) (calls (trace w)))).
          pose proof (secs_nonneg
                        (oversleep (env w) (List.length (sleeps (trace w))))).
          lra. }
        destruct (IH w1 Hfuel1) as (k & r & w' & Hl' & He' & Hs' & Hn & Hr).
        exists (S k), r, w'. rewrite Hl, Hl'.
        split; [ reflexivity | ].
        split; [ congruence | ].
        split.
        { rewrite Hs', Hs.
          change (repeat interval (S k)) with (interval :: repeat interval k).
          rewrite repeat_cons, <- app_assoc. reflexivity. }
        split.
        { intros m Hm. destruct m as [ | m ].
          - rewrite Nat.add_0_r. exact Hv.
          - specialize (Hn m ltac:(lia)). rewrite He, Hc in Hn.
            rewrite <- Hn. f_equal. lia. }
        rewrite He, Hc in Hr.
        replace (calls (trace w) + S k)%nat
          with (S (calls (trace w)) + k)%nat by lia.
        exact Hr.
    + exists 0%nat, None, w. rewrite Nat.add_0_r.
      rewrite (loop_expired _ _ _ _ Ge).
      repeat split; auto. intros m Hm; lia.
Qed.

(** The fuel the three functions give their loop is enough. *)
Lemma fuel_enough (start : Q) (timeout : Z) (w : world) :
  clock w == start ->
  inject_Z timeout - (clock w - start)
    <= inject_Z (interval * Z.of_nat (Z.to_nat timeout)).
Proof.
  intros E.
  assert (H : (timeout <= interval * Z.of_nat (Z.to_nat timeout))%Z) by nia.
  rewrite Zle_Qle in H. lra.
Qed.

(** When no reply ever has the success status, the loop ends with the time
    over. *)
Lemma loop_times_out start timeout fuel w :
  inject_Z timeout - (clock w - start)
    <= inject_Z (interval * Z.of_nat fuel) ->
  (forall n, (calls (trace w) <= n)%nat -> verdict (env w) n = None) ->
  exists w',
    loop body (S fuel) start timeout w = Ok None w' /\
    env w' = env w /\
    inject_Z timeout <= clock w' - start.
Proof.
  intros Hfuel Hnone.
  destruct (loop_runs start timeout fuel w Hfuel)
    as (k & r & w' & Hl & He & _ & _ & Hr).
  destruct r as [ v | ].
  - destruct Hr as [_ Hv]. rewrite Hnone in Hv by lia. discriminate.
  - exists w'. tauto.
Qed.

End Polling.

(** ** The three loops take their turns *)

Lemma native_poll_turn id w :
  exists w',
    turn_of 30 (count is_describe) snapshot_latency snapshot_verdict
      (NativeSnapshotDemo.poll id) w w'.
Proof.
  unfold turn_of, snapshot_verdict, snapshot_latency, first_status,
    NativeSnapshotDemo.poll, try_except, bind, describe_cluster_snapshots,
    call, getitem_Snapshots.
  destruct (describe_cluster_snapshots_reply (env w)
              (count is_describe (trace w)))
    as [ [ [ [ [ | s l ] | ] ] | e ] d ]; simpl.
  all: try destruct (String.eqb (Status s) "available") eqn:Ea; simpl.
  all: try destruct (String.eqb (Status s) "failed") eqn:Ef; simpl.
  all: eexists; split; [ reflexivity | ]; simpl.
  all: repeat split; try reflexivity.
  all: rewrite count_is_sleep; simpl; lra.
Qed.

Lemma lambda_poll_turn id w :
  exists w',
    turn_of 30 (count is_describe) snapshot_latency snapshot_verdict
      (BackupLambda.poll id) w w'.
Proof.
  unfold turn_of, snapshot_verdict, snapshot_latency, first_status,
    BackupLambda.poll, try_except, bind, describe_cluster_snapshots,
    call, getitem_Snapshots.
  destruct (describe_cluster_snapshots_reply (env w)
              (count is_describe (trace w)))
    as [ [ [ [ [ | s l ] | ] ] | e ] d ]; simpl.
  all: try destruct (String.eqb (Status s) "available") eqn:Ea; simpl.
  all: try destruct (String.eqb (Status s) "failed") eqn:Ef; simpl.
  all: eexists; split; [ reflexivity | ]; simpl.
  all: repeat split; try reflexivity.
  all: rewrite count_is_sleep; simpl; lra.
Qed.

Lemma backup_poll_turn job w :
  exists w',
    turn_of 60 (count is_describe_job) job_latency job_verdict
      (AwsBackupDemo.poll job) w w'.
Proof.
  unfold turn_of, job_verdict, job_latency, AwsBackupDemo.poll, try_except,
    bind, describe_backup_job, call, getitem_RecoveryPointArn.
  destruct (describe_backup_job_reply (env w)
              (count is_describe_job (trace w)))
    as [ [ [ st [ arn | ] ] | e ] d ]; simpl.
  all: try destruct (String.eqb st "COMPLETED") eqn:Ec; simpl.
  all: try destruct (String.eqb st "FAILED"); simpl.
  all: try destruct (String.eqb st "ABORTED"); simpl.
  all: try destruct (String.eqb st "EXPIRED"); simpl.
  all: eexists; split; [ reflexivity | ]; simpl.
  all: repeat split; try reflexivity.
  all: rewrite count_is_sleep; simpl; lra.
Qed.

(** ** A wait function, once for the three *)
Section Waiting.

Context {A : Type}.
Variable interval : Z.
Variable calls : list effect -> nat.
Variable latency : environment -> nat -> duration.
Variable verdict : environment -> nat -> option A.
Variable body : M (option A).
Variable hello : effect.
Variable on_timeout : M A.

Hypothesis interval_pos : (0 < interval)%Z.
Hypothesis body_turn :
  forall w, exists w', turn_of interval calls latency verdict body w w'.
Hypothesis hello_calls : forall t, calls (hello :: t) = calls t.
Hypothesis hello_sleeps : forall t, sleeps (hello :: t) = sleeps t.

Let wait := waits body hello on_timeout.

Local Ltac expose :=
  unfold record in *; cbn [trace env clock] in *;
  rewrite ?hello_calls, ?hello_sleeps in *.

Lemma fuel_S (timeout : Z) :
  (0 < timeout)%Z -> Z.to_nat timeout = S (Z.to_nat (timeout - 1)).
Proof using All. lia. Qed.

(** No time at all: the loop is not entered. *)
Lemma waits_no_budget timeout w :
  (timeout <= 0)%Z ->
  wait timeout w = on_timeout (record hello w).
Proof using All.
  intros H. unfold wait, waits.
  rewrite loop_expired; [ reflexivity | ].
  expose. rewrite Zle_Qle in H. change (inject_Z 0) with 0 in H. lra.
Qed.

(** The success status at the first query: returned at once. *)
Lemma waits_first_success timeout w v :
  (0 < timeout)%Z ->
  verdict (env w) (calls (trace w)) = Some v ->
  exists w',
    wait timeout w = Ok v w' /\
    env w' = env w /\
    calls (trace w') = S (calls (trace w)) /\
    sleeps (trace w') = sleeps (trace w).
Proof using All.
  intros H Hv. unfold wait, waits.
  destruct (loop_first_success interval calls latency verdict body body_turn
              (Z.to_nat timeout) (clock w) timeout (record hello w) v)
    as (w' & Hl & He & Hc & Hs).
  - expose. rewrite Zlt_Qlt in H. change (inject_Z 0) with 0 in H. lra.
  - expose. exact Hv.
  - exists w'. rewrite Hl. expose. auto.
Qed.

(** Whatever the replies, the wait ends: with the value of the first
    reply that has the success status, after [k] turns that slept, or
    with [on_timeout] once [timeout] seconds are over. *)
Lemma waits_runs timeout w :
  exists (k : nat) (w' : world),
    env w' = env w /\
    sleeps (trace w') = (repeat interval k ++ sleeps (trace w))%list /\
    (forall m, (m < k)%nat ->
               verdict (env w) (calls (trace w) + m)%nat = None) /\
    ((exists v,
        wait timeout w = Ok v w' /\
        calls (trace w') = S (calls (trace w) + k) /\
        verdict (env w) (calls (trace w) + k)%nat = Some v)
     \/
     (wait timeout w = on_timeout w' /\
      calls (trace w') = (calls (trace w) + k)%nat /\
      inject_Z timeout <= clock w' - clock w)).
Proof using All.
  destruct (loop_runs interval calls latency verdict body body_turn
              (clock w) timeout (Z.to_nat timeout) (record hello w))
    as (k & r & w' & Hl & He & Hs & Hn & Hr).
  { apply fuel_enough; [ exact interval_pos | reflexivity ]. }
  exists k, w'. unfold wait, waits. rewrite Hl. expose.
  repeat split; auto.
  destruct r as [ v | ]; [ left; exists v | right ]; tauto.
Qed.

(** No reply ever has the success status: the wait times out, and not
    before the time is over. *)
Lemma waits_times_out timeout w :
  (forall n, (calls (trace w) <= n)%nat -> verdict (env w) n = None) ->
  exists w',
    wait timeout w = on_timeout w' /\
    env w' = env w /\
    inject_Z timeout <= clock w' - clock w.
Proof using All.
  intros Hnone.
  destruct (waits_runs timeout w) as (k & w' & He & _ & _ & Hr).
  destruct Hr as [ (v & _ & _ & Hv) | (Hw & _ & Ht) ].
  - rewrite Hnone in Hv by lia. discriminate.
  - exists w'. auto.
Qed.

(** One turn without the success status, and the time is over. *)
Lemma waits_one_turn timeout w :
  (0 < timeout)%Z ->
  verdict (env w) (calls (trace w)) = None ->
  inject_Z timeout
    <= secs (latency (env w) (calls (trace w))) + inject_Z interval
       + secs (oversleep (env w) (List.length (sleeps (trace w)))) ->
  exists w',
    wait timeout w = on_timeout w' /\
    env w' = env w /\
    calls (trace w') = S (calls (trace w)) /\
    sleeps (trace w') = interval :: sleeps (trace w).
Proof using All.
  intros H Hv Hlate. unfold wait, waits.
  rewrite (fuel_S _ H).
  destruct (loop_turn interval calls latency verdict body body_turn
              (S (Z.to_nat (timeout - 1))) (clock w) timeout
              (record hello w))
    as (w1 & Hl & He & Hc & Hs & Hk).
  - expose. rewrite Zlt_Qlt in H. change (inject_Z 0) with 0 in H. lra.
  - expose. exact Hv.
  - rewrite Hl, loop_expired by (expose; lra).
    expose. exists w1. auto.
Qed.


(** Two turns without the success status, and the time is over. *)
Lemma waits_two_turns timeout w :
  let n := calls (trace w) in
  let s := List.length (sleeps (trace w)) in
  verdict (env w) n = None ->
  verdict (env w) (S n) = None ->
  secs (latency (env w) n) + inject_Z interval + secs (oversleep (env w) s)
    < inject_Z timeout ->
  inject_Z timeout
    <= secs (latency (env w) n) + inject_Z interval
       + secs (oversleep (env w) s)
       + secs (latency (env w) (S n)) + inject_Z interval
       + secs (oversleep (env w) (S s)) ->
  exists w',
    wait timeout w = on_timeout w' /\
    env w' = env w /\
    calls (trace w') = S (S n) /\
    sleeps (trace w') = interval :: interval :: sleeps (trace w).
Proof using All.
  intros n s H0 H1 Hin Hout. subst n s.
  pose proof (secs_nonneg (latency (env w) (calls (trace w)))) as P1.
  pose proof (secs_nonneg
                (oversleep (env w) (List.length (sleeps (trace w))))) as P3.
  assert (Hi : 0 < inject_Z interval).
  { change 0 with (inject_Z 0). rewrite <- Zlt_Qlt. exact interval_pos. }
  assert (Ht : (1 < timeout)%Z).
  { assert (T : inject_Z interval < inject_Z timeout) by lra.
    rewrite <- Zlt_Qlt in T. lia. }
  unfold wait, waits.
  replace (Z.to_nat timeout) with (S (S (Z.to_nat (timeout - 2)))) by lia.
  destruct (loop_turn interval calls latency verdict body body_turn
              (S (S (Z.to_nat (timeout - 2)))) (clock w) timeout
              (record hello w))
    as (w1 & Hl1 & He1 & Hc1 & Hs1 & Hk1).
  { expose. lra. }
  { expose. exact H0. }
  rewrite Hl1. expose.
  destruct (loop_turn interval calls latency verdict body body_turn
              (S (Z.to_nat (timeout - 2))) (clock w) timeout w1)
    as (w2 & Hl2 & He2 & Hc2 & Hs2 & Hk2).
  { lra. }
  { rewrite He1, Hc1. exact H1. }
  rewrite He1, Hc1, Hs1 in Hk2. cbn [List.length] in Hk2.
  exists w2. rewrite Hl2, loop_expired by lra.
  repeat split; congruence.
Qed.

(** The status queries always read the same: every call of the wait ends
    with the same outcome. *)
Lemma waits_constant timeout (e : environment) (c : option A)
    (og : outcome A) :
  (forall w, ends_with og (env w) (on_timeout w)) ->
  (forall n, verdict e n = c) ->
  exists o, forall w, env w = e -> ends_with o e (wait timeout w).
Proof using All.
  intros Hg Hc.
  destruct (Z_lt_le_dec 0 timeout) as [ Hpos | Hneg ].
  - destruct c as [ v | ].
    + exists (Returns v). intros w Hw.
      destruct (waits_first_success timeout w v Hpos)
        as (w' & Hr & He & _).
      { rewrite Hw. apply Hc. }
      rewrite Hr. split; [ reflexivity | ].
      exists w'. split; [ reflexivity | congruence ].
    + exists og. intros w Hw.
      destruct (waits_times_out timeout w) as (w' & Hr & He & _).
      { intros n _. rewrite Hw. apply Hc. }
      rewrite Hr. rewrite <- Hw, <- He. apply Hg.
  - exists og. intros w Hw.
    rewrite (waits_no_budget timeout w Hneg).
    rewrite <- Hw. exact (Hg (record hello w)).
Qed.

End Waiting.

(** ** The three functions are such wait functions *)

Lemma native_waits id timeout w :
  NativeSnapshotDemo._wait_for_snapshot_completion id timeout w =
  waits (NativeSnapshotDemo.poll id)
    (Print "Waiting for snapshot to complete...")
    (raise (Exception "Timeout waiting for snapshot completion")) timeout w.
Proof.
  unfold NativeSnapshotDemo._wait_for_snapshot_completion, waits, loop, bind,
    print, time_time.
  destruct (while _ _ _ _) as [ [ v | ] w' | e w' | ]; reflexivity.
Qed.

Lemma backup_waits job timeout w :
  AwsBackupDemo.wait_for_backup_completion job timeout w =
  waits (AwsBackupDemo.poll job)
    (Print "Waiting for backup to complete...")
    (raise (Exception "Timeout waiting for backup completion")) timeout w.
Proof.
  unfold AwsBackupDemo.wait_for_backup_completion, waits, loop, bind,
    print, time_time.
  destruct (while _ _ _ _) as [ [ v | ] w' | e w' | ]; reflexivity.
Qed.

Lemma lambda_waits id minutes w :
  BackupLambda.wait_for_snapshot_completion id minutes w =
  waits (BackupLambda.poll id)
    (Log INFO ("Waiting for snapshot completion: " ++ id))
    (logger WARNING ("Snapshot still in progress after "
                     ++ str_int minutes ++ " minutes") ;;
     ret false)
    (minutes * 60) w.
Proof.
  unfold BackupLambda.wait_for_snapshot_completion, waits, loop, bind,
    logger, time_time.
  destruct (while _ _ _ _) as [ [ v | ] w' | e w' | ]; reflexivity.
Qed.


(** ** What a status reply makes of a turn *)

Lemma available_verdict e n s l :
  answer (describe_cluster_snapshots_reply e n)
    = Returns {| Snapshots := Some (s :: l) |} ->
  Status s = "available" ->
  snapshot_verdict e n = Some true.
Proof.
  intros H Hs. unfold snapshot_verdict, first_status. rewrite H, Hs.
  reflexivity.
Qed.

Lemma completed_verdict e n arn :
  answer (describe_backup_job_reply e n)
    = Returns {| State := "COMPLETED"; RecoveryPointArn := Some arn |} ->
  job_verdict e n = Some arn.
Proof.
  intros H. unfold job_verdict. rewrite H. reflexivity.
Qed.

Lemma nonterminal_verdict e n :
  snapshot_nonterminal (describe_cluster_snapshots_reply e n) = true ->
  snapshot_verdict e n = None.
Proof.
  unfold snapshot_nonterminal, snapshot_verdict.
  destruct (first_status _) as [ st | ]; [ | reflexivity ].
  destruct (String.eqb st "available"); [ discriminate | reflexivity ].
Qed.

Lemma job_nonterminal_verdict e n :
  job_nonterminal (describe_backup_job_reply e n) = true ->
  job_verdict e n = None.
Proof.
  unfold job_nonterminal, job_verdict.
  destruct (answer _) as [ j | x ]; [ | reflexivity ].
  simpl. destruct (String.eqb (State j) "COMPLETED");
    [ discriminate | reflexivity ].
Qed.




(** The lemmas of [Waiting] at each of the three functions. *)
Ltac at_native L id :=
  constr:(L bool 30%Z (count is_describe) snapshot_latency snapshot_verdict
            (NativeSnapshotDemo.poll id)
            (Print "Waiting for snapshot to complete...")
            (@raise bool (Exception "Timeout waiting for snapshot completion"))
            (eq_refl : (0 < 30)%Z) (native_poll_turn id)
            (fun _ => eq_refl) (fun _ => eq_refl)).

Ltac at_backup L job :=
  constr:(L string 60%Z (count is_describe_job) job_latency job_verdict
            (AwsBackupDemo.poll job)
            (Print "Waiting for backup to complete...")
            (@raise string (Exception "Timeout waiting for backup completion"))
            (eq_refl : (0 < 60)%Z) (backup_poll_turn job)
            (fun _ => eq_refl) (fun _ => eq_refl)).

Ltac at_lambda L id minutes :=
  constr:(L bool 30%Z (count is_describe) snapshot_latency snapshot_verdict
            (BackupLambda.poll id)
            (Log INFO ("Waiting for snapshot completion: " ++ id))
            (logger WARNING ("Snapshot still in progress after "
                             ++ str_int minutes ++ " minutes") ;;
             ret false)
            (eq_refl : (0 < 30)%Z) (lambda_poll_turn id)
            (fun _ => eq_refl) (fun _ => eq_refl)).

(** ** Success at the first query *)

(** C5. With a positive time budget, a status query that reports the success
    status on the very first call ('available' for a snapshot, 'COMPLETED'
    for a backup job) makes each of the three wait functions return the
    completed result ([True], or the ARN of the recovery point) after that
    single query and without any [time.sleep]. *)
Theorem C5_success_on_first_query_returns_without_sleeping (w : world) :
  (forall id timeout s l,
     (0 < timeout)%Z ->
     answer (describe_cluster_snapshots_reply (env w)
               (count is_describe (trace w)))
       = Returns {| Snapshots := Some (s :: l) |} ->
     Status s = "available" ->
     exists w',
       NativeSnapshotDemo._wait_for_snapshot_completion id timeout w
         = Ok true w' /\
       count is_describe (trace w') = S (count is_describe (trace w)) /\
       sleeps (trace w') = sleeps (trace w))
  /\
  (forall job timeout arn,
     (0 < timeout)%Z ->
     answer (describe_backup_job_reply (env w)
               (count is_describe_job (trace w)))
       = Returns {| State := "COMPLETED"; RecoveryPointArn := Some arn |} ->
     exists w',
       AwsBackupDemo.wait_for_backup_completion job timeout w = Ok arn w' /\
       count is_describe_job (trace w')
         = S (count is_describe_job (trace w)) /\
       sleeps (trace w') = sleeps (trace w))
  /\
  (forall id max_wait_minutes s l,
     (0 < max_wait_minutes)%Z ->
     answer (describe_cluster_snapshots_reply (env w)
               (count is_describe (trace w)))
       = Returns {| Snapshots := Some (s :: l) |} ->
     Status s = "available" ->
     exists w',
       BackupLambda.wait_for_snapshot_completion id max_wait_minutes w
         = Ok true w' /\
       count is_describe (trace w') = S (count is_describe (trace w)) /\
       sleeps (trace w') = sleeps (trace w)).
Proof.
  split; [ | split ].
  - intros id timeout s l Hpos Hr Hs.
    let T := at_native @waits_first_success id in
    destruct (T timeout w true Hpos (available_verdict _ _ _ _ Hr Hs))
      as (w' & Hw & _ & Hc & Hsl).
    exists w'. rewrite native_waits. auto.
  - intros job timeout arn Hpos Hr.
    let T := at_backup @waits_first_success job in
    destruct (T timeout w arn Hpos (completed_verdict _ _ _ Hr))
      as (w' & Hw & _ & Hc & Hsl).
    exists w'. rewrite backup_waits. auto.
  - intros id minutes s l Hpos Hr Hs.
    let T := at_lambda @waits_first_success id minutes in
    destruct (T (minutes * 60)%Z w true ltac:(lia)
                (available_verdict _ _ _ _ Hr Hs))
      as (w' & Hw & _ & Hc & Hsl).
    exists w'. rewrite lambda_waits. auto.
Qed.

Lemma C5_witness :
  (exists w',
     NativeSnapshotDemo._wait_for_snapshot_completion "demo-snapshot" 1800
       (steady "available" "COMPLETED") = Ok true w' /\
     count is_describe (trace w') = 1%nat /\ sleeps (trace w') = [])
  /\
  (exists w',
     AwsBackupDemo.wait_for_backup_completion "job-1" 3600
       (steady "available" "COMPLETED")
       = Ok "arn:aws:backup:us-east-1:164543933824:recovery-point:demo" w' /\
     count is_describe_job (trace w') = 1%nat /\ sleeps (trace w') = [])
  /\
  (exists w',
     BackupLambda.wait_for_snapshot_completion "demo-snapshot" 10
       (steady "available" "COMPLETED") = Ok true w' /\
     count is_describe (trace w') = 1%nat /\ sleeps (trace w') = []).
Proof.
  destruct (C5_success_on_first_query_returns_without_sleeping
              (steady "available" "COMPLETED")) as (N & B & L).
  split; [ | split ].
  - eapply (N "demo-snapshot" 1800%Z); [ lia | reflexivity | reflexivity ].
  - eapply (B "job-1" 3600%Z); [ lia | reflexivity ].
  - eapply (L "demo-snapshot" 10%Z); [ lia | reflexivity | reflexivity ].
Defined.

(** ** A failure status does not end the wait *)

(** Whatever the status queries answer, the native script's wait ends by
    returning or with the time-out exception: the exception raised for a
    'failed' snapshot never reaches the caller. *)
Lemma failure_is_never_reported (id : string) (timeout : Z) (w : world) :
  outcome_of (NativeSnapshotDemo._wait_for_snapshot_completion id timeout w)
  <> Some (Raises (Exception "Snapshot creation failed")).
Proof.
  rewrite native_waits.
  let T := at_native @waits_runs id in
  destruct (T timeout w)
    as (k & w' & _ & _ & _ & [ (v & Hw & _) | (Hw & _) ]);
    rewrite Hw; simpl; discriminate.
Qed.

(** C1. A status query that reports a failure status does not end the
    wait: the [raise] that follows it sits inside the [try] whose
    [except Exception] prints the message, sleeps and lets the loop go on.
    With every query reporting the failure status, the native script's wait
    with a 60 second budget asks twice and raises the time-out exception; the
    backup script's wait with 120 seconds and the Lambda's wait with one
    minute do the same, the latter returning [False]. *)
Theorem C1_failed_status_is_swallowed :
  let native :=
    NativeSnapshotDemo._wait_for_snapshot_completion "demo-snapshot" 60
      (steady "failed" "FAILED") in
  let backup :=
    AwsBackupDemo.wait_for_backup_completion "job-1" 120
      (steady "failed" "FAILED") in
  let lambda :=
    BackupLambda.wait_for_snapshot_completion "demo-snapshot" 1
      (steady "failed" "FAILED") in
  (outcome_of native
     = Some (Raises (Exception "Timeout waiting for snapshot completion")) /\
   queries_of is_describe native = Some 2%nat) /\
  (outcome_of backup
     = Some (Raises (Exception "Timeout waiting for backup completion")) /\
   queries_of is_describe_job backup = Some 2%nat) /\
  (outcome_of lambda = Some (Returns false) /\
   queries_of is_describe lambda = Some 2%nat).
Proof.
  vm_compute. repeat split.
Qed.

(** C3. Polling does not stop at the first terminal status when that status
    is a failure: with a backup job that is 'ABORTED' from the first query
    on and a budget of 180 seconds, the wait asks three times, sleeps three
    times and ends with the time-out exception; the trace shows the status
    printed, the swallowed failure and the sleep, three times over. *)
Theorem C3_polling_goes_on_after_a_failure_status :
  let r :=
    AwsBackupDemo.wait_for_backup_completion "job-1" 180
      (steady "failed" "ABORTED") in
  outcome_of r
    = Some (Raises (Exception "Timeout waiting for backup completion")) /\
  queries_of is_describe_job r = Some 3%nat /\
  option_map (fun w => sleeps (trace w)) (world_of r) = Some [60; 60; 60]%Z /\
  option_map (fun w => firstn 4 (rev (trace w))) (world_of r)
    = Some [Print "Waiting for backup to complete...";
            DescribeBackupJob "job-1";
            Print "Backup job status: ABORTED";
            Print ("Error checking backup status: "
                   ++ "Backup job failed with status: ABORTED")].
Proof.
  vm_compute. repeat split.
Qed.

(** ** Time-out *)




(** ** A budget shorter than the interval *)

(** With a budget of 10 seconds, shorter than the 30 second interval, the
    native script's wait still returns [True] when its one status query
    reports 'available': it does not time out. *)
Lemma C6_short_budget_can_complete :
  (10 < 30)%Z /\
  outcome_of
    (NativeSnapshotDemo._wait_for_snapshot_completion "demo-snapshot" 10
       (steady "available" "COMPLETED"))
    = Some (Returns true) /\
  outcome_of
    (NativeSnapshotDemo._wait_for_snapshot_completion "demo-snapshot" 10
       (steady "available" "COMPLETED"))
    <> Some (Raises (Exception "Timeout waiting for snapshot completion")).
Proof.
  split; [ lia | ].
  split; [ vm_compute; reflexivity | vm_compute; discriminate ].
Qed.

(** C6, as the code has it. When the maximum wait is strictly less than the
    poll interval (30 seconds in the native script, 60 in the backup
    script), the wait performs zero or one status query; when that query
    reports no terminal status (a pending status, or it fails), and when no
    query is made because the budget is not positive, the wait ends with the
    time-out, which the scripts raise as an exception. *)
Theorem C6_short_budget_at_most_one_query (w : world) :
  (forall id timeout,
     (timeout < 30)%Z ->
     exists w',
       world_of (NativeSnapshotDemo._wait_for_snapshot_completion id timeout w)
         = Some w' /\
       (count is_describe (trace w') <= S (count is_describe (trace w)))%nat /\
       (snapshot_nonterminal
          (describe_cluster_snapshots_reply (env w)
             (count is_describe (trace w))) = true ->
        NativeSnapshotDemo._wait_for_snapshot_completion id timeout w
          = Err (Exception "Timeout waiting for snapshot completion") w') /\
       ((timeout <= 0)%Z ->
        NativeSnapshotDemo._wait_for_snapshot_completion id timeout w
          = Err (Exception "Timeout waiting for snapshot completion") w' /\
        count is_describe (trace w') = count is_describe (trace w)))
  /\
  (forall job timeout,
     (timeout < 60)%Z ->
     exists w',
       world_of (AwsBackupDemo.wait_for_backup_completion job timeout w)
         = Some w' /\
       (count is_describe_job (trace w')
        <= S (count is_describe_job (trace w)))%nat /\
       (job_nonterminal
          (describe_backup_job_reply (env w)
             (count is_describe_job (trace w))) = true ->
        AwsBackupDemo.wait_for_backup_completion job timeout w
          = Err (Exception "Timeout waiting for backup completion") w') /\
       ((timeout <= 0)%Z ->
        AwsBackupDemo.wait_for_backup_completion job timeout w
          = Err (Exception "Timeout waiting for backup completion") w' /\
        count is_describe_job (trace w') = count is_describe_job (trace w))).
Proof.
  split.
  - intros id timeout Hshort. rewrite native_waits.
    destruct (Z_lt_le_dec 0 timeout) as [ Hpos | Hneg ].
    + destruct (snapshot_verdict (env w) (count is_describe (trace w)))
        as [ v | ] eqn:Hv.
      * let T := at_native @waits_first_success id in
        destruct (T timeout w v Hpos Hv) as (w' & Hw & _ & Hc & _).
        exists w'. rewrite Hw. split; [ reflexivity | ].
        split; [ lia | ].
        split; [ | lia ].
        intros Hn. apply nonterminal_verdict in Hn. congruence.
      * let T := at_native @waits_one_turn id in
        destruct (T timeout w Hpos Hv) as (w' & Hw & _ & Hc & _).
        { pose proof (secs_nonneg
                        (snapshot_latency (env w)
                           (count is_describe (trace w)))).
          pose proof (secs_nonneg
                        (oversleep (env w) (List.length (sleeps (trace w))))).
          assert (inject_Z timeout < inject_Z 30)
            by (rewrite <- Zlt_Qlt; exact Hshort).
          change (inject_Z 30) with 30 in *. lra. }
        exists w'. rewrite Hw. split; [ reflexivity | ].
        split; [ lia | ].
        split; [ reflexivity | lia ].
    + let T := at_native @waits_no_budget id in
      rewrite (T timeout w Hneg).
      eexists. split; [ reflexivity | ].
      split; [ apply Nat.le_succ_diag_r | ].
      split; [ reflexivity | ].
      intros _. split; reflexivity.
  - intros job timeout Hshort. rewrite backup_waits.
    destruct (Z_lt_le_dec 0 timeout) as [ Hpos | Hneg ].
    + destruct (job_verdict (env w) (count is_describe_job (trace w)))
        as [ v | ] eqn:Hv.
      * let T := at_backup @waits_first_success job in
        destruct (T timeout w v Hpos Hv) as (w' & Hw & _ & Hc & _).
        exists w'. rewrite Hw. split; [ reflexivity | ].
        split; [ lia | ].
        split; [ | lia ].
        intros Hn. apply job_nonterminal_verdict in Hn. congruence.
      * let T := at_backup @waits_one_turn job in
        destruct (T timeout w Hpos Hv) as (w' & Hw & _ & Hc & _).
        { pose proof (secs_nonneg
                        (job_latency (env w)
                           (count is_describe_job (trace w)))).
          pose proof (secs_nonneg
                        (oversleep (env w) (List.length (sleeps (trace w))))).
          assert (inject_Z timeout < inject_Z 60)
            by (rewrite <- Zlt_Qlt; exact Hshort).
          change (inject_Z 60) with 60 in *. lra. }
        exists w'. rewrite Hw. split; [ reflexivity | ].
        split; [ lia | ].
        split; [ reflexivity | lia ].
    + let T := at_backup @waits_no_budget job in
      rewrite (T timeout w Hneg).
      eexists. split; [ reflexivity | ].
      split; [ apply Nat.le_succ_diag_r | ].
      split; [ reflexivity | ].
      intros _. split; reflexivity.
Qed.

Lemma C6_witness :
  (exists w',
     world_of (NativeSnapshotDemo._wait_for_snapshot_completion
                 "demo-snapshot" 10 (steady "creating" "RUNNING")) = Some w' /\
     (count is_describe (trace w') <= 1)%nat /\
     NativeSnapshotDemo._wait_for_snapshot_completion "demo-snapshot" 10
       (steady "creating" "RUNNING")
       = Err (Exception "Timeout waiting for snapshot completion") w')
  /\
  (exists w',
     world_of (AwsBackupDemo.wait_for_backup_completion "job-1" 59
                 (steady "creating" "RUNNING")) = Some w' /\
     (count is_describe_job (trace w') <= 1)%nat /\
     AwsBackupDemo.wait_for_backup_completion "job-1" 59
       (steady "creating" "RUNNING")
       = Err (Exception "Timeout waiting for backup completion") w').
Proof.
  destruct (C6_short_budget_at_most_one_query (steady "creating" "RUNNING"))
    as (N & B).
  split.
  - destruct (N "demo-snapshot" 10%Z ltac:(lia)) as (w' & Hw & Hc & Ht & _).
    exists w'. split; [ exact Hw | ]. split; [ exact Hc | ].
    apply Ht. reflexivity.
  - destruct (B "job-1" 59%Z ltac:(lia)) as (w' & Hw & Hc & Ht & _).
    exists w'. split; [ exact Hw | ]. split; [ exact Hc | ].
    apply Ht. reflexivity.
Defined.

(** ** Thirty seconds apart, sixty seconds long *)

(** With a maximum wait of 60 seconds and every status query reporting
    'creating', the native script's wait makes one status query, not two,
    when that query takes 31 seconds: after the sleep that follows it, 61
    seconds have gone by. *)
Lemma C7_one_query_when_the_status_query_is_slow :
  snapshot_nonterminal (after_seconds 31 (Returns (reporting "creating")))
  = true /\
  outcome_of
    (NativeSnapshotDemo._wait_for_snapshot_completion "demo-snapshot" 60
       (unhurried 31 "creating" "RUNNING"))
    = Some (Raises (Exception "Timeout waiting for snapshot completion")) /\
  queries_of is_describe
    (NativeSnapshotDemo._wait_for_snapshot_completion "demo-snapshot" 60
       (unhurried 31 "creating" "RUNNING"))
    = Some 1%nat /\
  queries_of is_describe
    (NativeSnapshotDemo._wait_for_snapshot_completion "demo-snapshot" 60
       (unhurried 31 "creating" "RUNNING"))
    <> Some 2%nat.
Proof.
  split; [ reflexivity | ].
  split; [ vm_compute; reflexivity | ].
  split; [ vm_compute; reflexivity | vm_compute; discriminate ].
Qed.

(** C7, as the code has it. The native script's wait polls every 30 seconds
    and reads the clock before each poll. With a maximum wait of 60 seconds
    and non-terminal replies to its status queries it ends with the
    time-out, raised as [Exception("Timeout waiting for snapshot
    completion")]; how many queries it has made by then depends on the time
    the queries and the sleeps take beyond the 30 seconds of each sleep.
    - It makes exactly 2 status queries when the second poll starts inside
      the budget and the third does not: the first query and the overshoot
      of the first sleep take 29.999 s at most, and the two queries and
      overshoots take a millisecond or more in all.
    - It makes exactly 1 status query when the first query and the overshoot
      of the first sleep take 30.001 s or more.
    The margins of a millisecond keep the statement away from readings of
    exactly 60 seconds, where the rounding of the clock readings decides the
    loop test. *)
Theorem C7_two_queries_in_sixty_seconds (w : world) (id : string) :
  let n := count is_describe (trace w) in
  let z := count is_sleep (trace w) in
  let reply := describe_cluster_snapshots_reply (env w) in
  let first := secs (took (reply n)) + secs (oversleep (env w) z) in
  let second := secs (took (reply (S n))) + secs (oversleep (env w) (S z)) in
  snapshot_nonterminal (reply n) = true ->
  (first <= 30 - millisecond ->
   snapshot_nonterminal (reply (S n)) = true ->
   millisecond <= first + second ->
   exists w',
     NativeSnapshotDemo._wait_for_snapshot_completion id 60 w
       = Err (Exception "Timeout waiting for snapshot completion") w' /\
     count is_describe (trace w') = S (S n) /\
     sleeps (trace w') = (30 :: 30 :: sleeps (trace w))%Z)
  /\
  (30 + millisecond <= first ->
   exists w',
     NativeSnapshotDemo._wait_for_snapshot_completion id 60 w
       = Err (Exception "Timeout waiting for snapshot completion") w' /\
     count is_describe (trace w') = S n /\
     sleeps (trace w') = (30 :: sleeps (trace w))%Z).
Proof.
  intros n z reply first second Hn0.
  subst n z reply first second. rewrite count_is_sleep.
  pose proof (secs_nonneg
                (snapshot_latency (env w) (count is_describe (trace w)))).
  pose proof (secs_nonneg
                (snapshot_latency (env w) (S (count is_describe (trace w))))).
  pose proof (secs_nonneg
                (oversleep (env w) (List.length (sleeps (trace w))))).
  pose proof (secs_nonneg
                (oversleep (env w) (S (List.length (sleeps (trace w)))))).
  unfold snapshot_latency, millisecond in *.
  split.
  - intros Hfast Hn1 Hsome.
    let T := at_native @waits_two_turns id in
    destruct (T 60%Z w) as (w' & Hw & _ & Hc & Hs).
    + apply nonterminal_verdict, Hn0.
    + apply nonterminal_verdict, Hn1.
    + unfold snapshot_latency. change (inject_Z 30) with 30.
      change (inject_Z 60) with 60. lra.
    + unfold snapshot_latency. change (inject_Z 30) with 30.
      change (inject_Z 60) with 60. lra.
    + exists w'. rewrite native_waits, Hw. auto.
  - intros Hslow.
    let T := at_native @waits_one_turn id in
    destruct (T 60%Z w) as (w' & Hw & _ & Hc & Hs).
    + lia.
    + apply nonterminal_verdict, Hn0.
    + unfold snapshot_latency. change (inject_Z 30) with 30.
      change (inject_Z 60) with 60. lra.
    + exists w'. rewrite native_waits, Hw. auto.
Qed.

Lemma C7_witness :
  exists w',
    NativeSnapshotDemo._wait_for_snapshot_completion "demo-snapshot" 60
      (unhurried 1 "creating" "RUNNING")
      = Err (Exception "Timeout waiting for snapshot completion") w' /\
    count is_describe (trace w') = 2%nat /\
    sleeps (trace w') = [30; 30]%Z.
Proof.
  destruct (C7_two_queries_in_sixty_seconds
              (unhurried 1 "creating" "RUNNING") "demo-snapshot")
    as (Htwo & _).
  - reflexivity.
  - apply Htwo.
    + vm_compute. discriminate.
    + reflexivity.
    + vm_compute. discriminate.
Defined.

(** ** Transient errors *)



(** ** The same answer every time *)

Lemma raise_ends {A} (e : exn) (w : world) :
  ends_with (Raises e) (env w) (@raise A e w).
Proof.
  split; [ reflexivity | ]. exists w. split; reflexivity.
Qed.

(** C8. When the status query is a constant function (so also when the
    status it reports is already terminal), calling a wait function twice
    in a row gives the same outcome both times, and so does a call in any
    later world of the same environment: the outcome does not depend on
    what was called before. *)
Theorem C8_same_outcome_on_every_call (w : world) :
  (forall id timeout a,
     (forall n, answer (describe_cluster_snapshots_reply (env w) n) = a) ->
     let wait := NativeSnapshotDemo._wait_for_snapshot_completion id timeout in
     exists o w1,
       outcome_of (wait w) = Some o /\
       world_of (wait w) = Some w1 /\
       outcome_of (wait w1) = Some o /\
       forall w2, env w2 = env w -> outcome_of (wait w2) = Some o)
  /\
  (forall job timeout a,
     (forall n, answer (describe_backup_job_reply (env w) n) = a) ->
     let wait := AwsBackupDemo.wait_for_backup_completion job timeout in
     exists o w1,
       outcome_of (wait w) = Some o /\
       world_of (wait w) = Some w1 /\
       outcome_of (wait w1) = Some o /\
       forall w2, env w2 = env w -> outcome_of (wait w2) = Some o)
  /\
  (forall id max_wait_minutes a,
     (forall n, answer (describe_cluster_snapshots_reply (env w) n) = a) ->
     let wait :=
       BackupLambda.wait_for_snapshot_completion id max_wait_minutes in
     exists o w1,
       outcome_of (wait w) = Some o /\
       world_of (wait w) = Some w1 /\
       outcome_of (wait w1) = Some o /\
       forall w2, env w2 = env w -> outcome_of (wait w2) = Some o).
Proof.
  split; [ | split ].
  - intros id timeout a Ha wait.
    let T := at_native @waits_constant id in
    destruct (T timeout (env w) (snapshot_verdict (env w) 0) _
                (raise_ends _)) as (o & Ho).
    { intros n. unfold snapshot_verdict, first_status. rewrite !Ha.
      reflexivity. }
    assert (Hall : forall w2, env w2 = env w -> ends_with o (env w) (wait w2)).
    { intros w2 H2. unfold wait. rewrite native_waits. apply Ho, H2. }
    destruct (Hall w eq_refl) as (Ho1 & w1 & Hw1 & He1).
    exists o, w1. repeat split; auto.
    + apply (Hall w1 He1).
    + intros w2 H2. apply (Hall w2 H2).
  - intros job timeout a Ha wait.
    let T := at_backup @waits_constant job in
    destruct (T timeout (env w) (job_verdict (env w) 0) _
                (raise_ends _)) as (o & Ho).
    { intros n. unfold job_verdict. rewrite !Ha. reflexivity. }
    assert (Hall : forall w2, env w2 = env w -> ends_with o (env w) (wait w2)).
    { intros w2 H2. unfold wait. rewrite backup_waits. apply Ho, H2. }
    destruct (Hall w eq_refl) as (Ho1 & w1 & Hw1 & He1).
    exists o, w1. repeat split; auto.
    + apply (Hall w1 He1).
    + intros w2 H2. apply (Hall w2 H2).
  - intros id minutes a Ha wait.
    let T := at_lambda @waits_constant id minutes in
    destruct (T (minutes * 60)%Z (env w) (snapshot_verdict (env w) 0)
                (Returns false)) as (o & Ho).
    { intros w0. split; [ reflexivity | ].
      eexists. split; reflexivity. }
    { intros n. unfold snapshot_verdict, first_status. rewrite !Ha.
      reflexivity. }
    assert (Hall : forall w2, env w2 = env w -> ends_with o (env w) (wait w2)).
    { intros w2 H2. unfold wait. rewrite lambda_waits. apply Ho, H2. }
    destruct (Hall w eq_refl) as (Ho1 & w1 & Hw1 & He1).
    exists o, w1. repeat split; auto.
    + apply (Hall w1 He1).
    + intros w2 H2. apply (Hall w2 H2).
Qed.

(** ** The clean-up of old snapshots *)

Lemma deleted_app (a b : list effect) :
  deleted (a ++ b) = (deleted a ++ deleted b)%list.
Proof.
  induction a as [ | e a IH ]; [ reflexivity | ].
  destruct e; simpl; rewrite ?IH; reflexivity.
Qed.

Lemma count_app p (a b : list effect) :
  count p (a ++ b) = (count p a + count p b)%nat.
Proof.
  unfold count. rewrite List.filter_app, List.length_app. reflexivity.
Qed.

Lemma count_cons p (e : effect) (t : list effect) :
  count p (e :: t) = if p e then S (count p t) else count p t.
Proof.
  unfold count. simpl. destruct (p e); reflexivity.
Qed.

Lemma count_is_delete (t : list effect) :
  count is_delete t = List.length (deleted t).
Proof.
  unfold count. induction t as [ | e t IH ]; [ reflexivity | ].
  destruct e; simpl; auto.
Qed.


Lemma succeeded_S e from n :
  succeeded e from (S n)
  = (succeeded e from n
     + match answer (delete_cluster_snapshot_reply e (from + n)) with
       | Returns _ => 1
       | Raises _ => 0
       end)%Z.
Proof.
  revert from. induction n as [ | n IH ]; intros from.
  - simpl. rewrite Nat.add_0_r. lia.
  - change (succeeded e from (S (S n)))
      with (match answer (delete_cluster_snapshot_reply e from) with
            | Returns _ => 1
            | Raises _ => 0
            end + succeeded e (S from) (S n))%Z.
    rewrite IH. simpl succeeded.
    replace (S from + n)%nat with (from + S n)%nat by lia. lia.
Qed.

(** The [for] loop asks to delete exactly the eligible snapshots, in the
    order of the listing, does nothing else to the outside but log, and
    counts the requests that succeed. *)
Lemma delete_old_spec (cutoff_time : Q) (snapshots : list snapshot) :
  forall (deleted_count : Z) (w : world),
  exists (es : list effect) (w' : world),
    BackupLambda.delete_old cutoff_time snapshots deleted_count w
      = Ok (deleted_count
            + succeeded (env w) (count is_delete (trace w))
                (count is_delete es))%Z w' /\
    env w' = env w /\
    trace w' = (es ++ trace w)%list /\
    deleted es
      = rev (map SnapshotIdentifier
               (List.filter (eligible cutoff_time) snapshots))
    /\
    Forall (fun e => is_log e || is_delete e = true) es.
Proof.
  induction snapshots as [ | s rest IH ]; intros c w.
  - exists [], w. simpl. rewrite Z.add_0_r. repeat split; auto.
  - simpl BackupLambda.delete_old. simpl List.filter. unfold eligible at 1.
    destruct (String.prefix "aca-lambda-snapshot-" (SnapshotIdentifier s))
      eqn:Hp; simpl andb.
    + destruct (Qltb (SnapshotCreateTime s) cutoff_time) eqn:Hc.
      * unfold bind at 1. unfold bind at 1. unfold logger at 1.
        unfold try_except, bind at 1, BackupLambda.delete_cluster_snapshot,
          call.
        cbn [record advance trace env clock].
        rewrite count_cons. cbn [is_delete].
        set (k := count is_delete (trace w)).
        destruct (answer (delete_cluster_snapshot_reply (env w) k))
          as [ [] | x ] eqn:Ha.
        -- cbn [ret].
           match goal with
           | |- context [ BackupLambda.delete_old _ _ ?c' ?w1 ] =>
               destruct (IH c' w1) as (es & w' & Hr & He & Ht & Hd & Hf)
           end.
           cbn [record advance trace env] in Hr, He, Ht.
           rewrite !count_cons in Hr. cbn [is_delete] in Hr. fold k in Hr.
           exists (es ++ [DeleteClusterSnapshot (SnapshotIdentifier s);
                          Log INFO ("Deleting old snapshot: "
                                    ++ SnapshotIdentifier s)])%list, w'.
           split.
           { rewrite Hr. f_equal.
             rewrite count_app, !count_cons. cbn [is_delete count].
             change (count is_delete []) with 0%nat.
             rewrite Nat.add_comm. simpl succeeded. rewrite Ha. lia. }
           split; [ exact He | ].
           split; [ rewrite Ht, <- app_assoc; reflexivity | ].
           split.
           { rewrite deleted_app, Hd. simpl. reflexivity. }
           apply Forall_app. split; [ exact Hf | ].
           repeat constructor.
        -- unfold bind at 1. unfold logger at 1. cbn [ret].
           match goal with
           | |- context [ BackupLambda.delete_old _ _ ?c' ?w1 ] =>
               destruct (IH c' w1) as (es & w' & Hr & He & Ht & Hd & Hf)
           end.
           cbn [record advance trace env] in Hr, He, Ht.
           rewrite !count_cons in Hr. cbn [is_delete] in Hr. fold k in Hr.
           exists (es ++ [Log WARNING ("Could not delete snapshot "
                                       ++ SnapshotIdentifier s ++ ": "
                                       ++ str x);
                          DeleteClusterSnapshot (SnapshotIdentifier s);
                          Log INFO ("Deleting old snapshot: "
                                    ++ SnapshotIdentifier s)])%list, w'.
           split.
           { rewrite Hr. f_equal.
             rewrite count_app, !count_cons. cbn [is_delete count].
             change (count is_delete []) with 0%nat.
             rewrite Nat.add_comm. simpl succeeded. rewrite Ha. lia. }
           split; [ exact He | ].
           split; [ rewrite Ht, <- app_assoc; reflexivity | ].
           split.
           { rewrite deleted_app, Hd. simpl. reflexivity. }
           apply Forall_app. split; [ exact Hf | ].
           repeat constructor.
      * unfold bind at 1. cbn [ret].
        destruct (IH c w) as (es & w' & Hr & He & Ht & Hd & Hf).
        exists es, w'. repeat split; auto.
    + unfold bind at 1. cbn [ret].
      destruct (IH c w) as (es & w' & Hr & He & Ht & Hd & Hf).
      exists es, w'. repeat split; auto.
Qed.

Lemma cutoff_spec (now : Q) (retention_days : json) (w : world) :
  match days retention_days with
  | Some d =>
      exists c, BackupLambda.cutoff now retention_days w = Ok c w /\
                c == now - d * 24 * 3600
  | None =>
      exists x, BackupLambda.cutoff now retention_days w = Err x w
  end.
Proof.
  destruct retention_days as [ | b | z | q | s | l | d ]; simpl;
    try (eexists; reflexivity).
  - eexists. split; [ reflexivity | ].
    destruct b; simpl; reflexivity.
  - eexists. split; [ reflexivity | ].
    rewrite !inject_Z_mult. reflexivity.
  - eexists. split; [ reflexivity | ]. reflexivity.
Qed.

Lemma eligible_spec (cutoff_time : Q) (s : snapshot) :
  eligible cutoff_time s = true ->
  String.prefix "aca-lambda-snapshot-" (SnapshotIdentifier s) = true /\
  SnapshotCreateTime s < cutoff_time.
Proof.
  unfold eligible. rewrite andb_true_iff, Qltb_true. auto.
Qed.



(** The clean-up on a listing of four snapshots, 30 days after the epoch
    with a retention of 7 days: only the old snapshot made by the Lambda is
    deleted. *)
Example cleanup_old_snapshots_run :
  let w :=
    {| env := environment_of
                (fun _ => at_once (Returns {| Snapshots := Some
                   [listing "aca-lambda-snapshot-20250101-000000" "available"
                      86400;
                    listing "manual-snapshot-of-the-team" "available" 86400;
                    listing "aca-lambda-snapshot-20250129-000000" "available"
                      (29 * 86400);
                    listing "demo-snapshot-20250101-000000" "available" 0] |}))
                (fun _ => at_once (Returns (job_in "COMPLETED")));
       clock := 30 * 86400;
       trace := [] |} in
  let r := BackupLambda.cleanup_old_snapshots (JStr "aca-redshift-cluster")
             (JInt 7) w in
  outcome_of r = Some (Returns 1%Z) /\
  option_map (fun w' => deleted (trace w')) (world_of r)
    = Some ["aca-lambda-snapshot-20250101-000000"].
Proof.
  vm_compute. split; reflexivity.
Qed.

(** ** The handler *)

Lemma lambda_wait_total id minutes w :
  exists b w',
    BackupLambda.wait_for_snapshot_completion id minutes w = Ok b w'.
Proof.
  rewrite lambda_waits.
  let T := at_lambda @waits_runs id minutes in
  destruct (T (minutes * 60)%Z w) as (k & w' & _ & _ & _ & Hr).
  destruct Hr as [ (v & Hw & _) | (Hw & _) ]; rewrite Hw.
  - exists v, w'. reflexivity.
  - eexists. eexists. reflexivity.
Qed.

Lemma share_total id target w :
  exists b w', BackupLambda.share_snapshot_with_account id target w = Ok b w'.
Proof.
  unfold BackupLambda.share_snapshot_with_account, bind, ask, logger,
    try_except, BackupLambda.authorize_snapshot_access, call.
  cbn [record advance trace env clock].
  destruct (answer _); eexists; eexists; reflexivity.
Qed.

Lemma cleanup_total cluster retention w :
  exists n w', BackupLambda.cleanup_old_snapshots cluster retention w = Ok n w'.
Proof.
  unfold BackupLambda.cleanup_old_snapshots.
  unfold bind at 1, ask. unfold bind at 1, logger at 1.
  unfold try_except. unfold bind at 1, describe_cluster_snapshots, call.
  destruct (answer _) as [ resp | x ].
  - unfold bind at 1, time_time. unfold bind at 1.
    match goal with
    | |- context [ BackupLambda.cutoff ?t retention ?w1 ] =>
        pose proof (cutoff_spec t retention w1) as Hc
    end.
    destruct (days retention) as [ d | ].
    + destruct Hc as (c & Hc & _). rewrite Hc. unfold bind at 1.
      match goal with
      | |- context [ BackupLambda.delete_old ?c ?l ?n ?w1 ] =>
          destruct (delete_old_spec c l n w1) as (es & w' & Hr & _)
      end.
      rewrite Hr. eexists. eexists. reflexivity.
    + destruct Hc as (x & Hc). rewrite Hc.
      eexists. eexists. reflexivity.
  - eexists. eexists. reflexivity.
Qed.

(** The handler on the test event of the source file, in a world where the
    snapshot is available at the first query and nothing is old enough to
    clean up. *)
Example lambda_handler_run :
  let event :=
    JDict {[ "cluster_identifier" := JStr "aca-redshift-cluster";
             "target_account_id" := JStr "058264155998";
             "retention_days" := JInt 7;
             "wait_for_completion" := JBool true ]} in
  let r := BackupLambda.lambda_handler event tt
             (steady "available" "COMPLETED") in
  option_map (fun o => match o with
                       | Returns result =>
                           (result !! "statusCode", result !! "status",
                            result !! "snapshot_id",
                            result !! "cleaned_up_snapshots")
                       | Raises _ => (None, None, None, None)
                       end) (outcome_of r)
  = Some (Some (JInt 200), Some (JStr "completed_and_shared"),
          Some (JStr "aca-lambda-snapshot-20250101-000000"),
          Some (JInt 0)).
Proof.
  vm_compute. reflexivity.
Qed.

Lemma C8_witness :
  let wait :=
    NativeSnapshotDemo._wait_for_snapshot_completion "demo-snapshot" 1800 in
  exists o w1,
    outcome_of (wait (steady "available" "COMPLETED")) = Some o /\
    world_of (wait (steady "available" "COMPLETED")) = Some w1 /\
    outcome_of (wait w1) = Some o.
Proof.
  destruct (C8_same_outcome_on_every_call (steady "available" "COMPLETED"))
    as (N & _ & _).
  destruct (N "demo-snapshot" 1800%Z (Returns (reporting "available")))
    as (o & w1 & H1 & H2 & H3 & _).
  - intros n. reflexivity.
  - exists o, w1. auto.
Defined.

(** * More properties *)

(** ** How often the status is asked *)
Section Accounting.

Context {A : Type}.
Variable interval : Z.
Variable calls : list effect -> nat.
Variable latency : environment -> nat -> duration.
Variable verdict : environment -> nat -> option A.
Variable body : M (option A).
Variable hello : effect.
Variable on_timeout : M A.

Hypothesis interval_pos : (0 < interval)%Z.
Hypothesis body_turn :
  forall w, exists w', turn_of interval calls latency verdict body w w'.
Hypothesis hello_calls : forall t, calls (hello :: t) = calls t.
Hypothesis on_timeout_calls :
  forall w w', world_of (on_timeout w) = Some w' ->
               calls (trace w') = calls (trace w).



End Accounting.

Lemma verdict_available e n v :
  snapshot_verdict e n = Some v -> v = true /\ reports_available e n.
Proof.
  unfold snapshot_verdict, reports_available.
  destruct (first_status _) as [ st | ]; [ | discriminate ].
  destruct (String.eqb st "available") eqn:E; [ | discriminate ].
  apply String.eqb_eq in E. subst st.
  intros H. injection H as <-. auto.
Qed.

Lemma verdict_not_available e n :
  snapshot_verdict e n = None -> ~ reports_available e n.
Proof.
  unfold snapshot_verdict, reports_available. intros H Ha.
  rewrite Ha in H. discriminate.
Qed.

Lemma job_verdict_completed e n arn :
  job_verdict e n = Some arn -> reports_completed e n arn.
Proof.
  unfold job_verdict, reports_completed.
  destruct (answer _) as [ j | x ]; [ | discriminate ].
  destruct (String.eqb (State j) "COMPLETED") eqn:E; [ | discriminate ].
  apply String.eqb_eq in E. intros H. exists j. auto.
Qed.

Lemma job_verdict_not_completed e n :
  job_verdict e n = None -> forall arn, ~ reports_completed e n arn.
Proof.
  unfold job_verdict, reports_completed.
  intros H arn (j & Ha & Hs & Hr). rewrite Ha, Hs in H.
  simpl in H. congruence.
Qed.

(** The lemmas of [Waiting] that give the whole course of a wait, at each of
    the three functions. *)
Lemma native_course id timeout w :
  exists (k : nat) (w0 : world),
    env w0 = env w /\
    sleeps (trace w0) = (repeat 30%Z k ++ sleeps (trace w))%list /\
    (forall m, (m < k)%nat ->
               snapshot_verdict (env w) (count is_describe (trace w) + m)%nat
               = None) /\
    ((exists v,
        NativeSnapshotDemo._wait_for_snapshot_completion id timeout w
          = Ok v w0 /\
        count is_describe (trace w0) = S (count is_describe (trace w) + k) /\
        snapshot_verdict (env w) (count is_describe (trace w) + k)%nat
          = Some v)
     \/
     (NativeSnapshotDemo._wait_for_snapshot_completion id timeout w
        = Err (Exception "Timeout waiting for snapshot completion") w0 /\
      count is_describe (trace w0) = (count is_describe (trace w) + k)%nat /\
      inject_Z timeout <= clock w0 - clock w)).
Proof.
  rewrite native_waits.
  let T := at_native @waits_runs id in exact (T timeout w).
Qed.

Lemma backup_course job timeout w :
  exists (k : nat) (w0 : world),
    env w0 = env w /\
    sleeps (trace w0) = (repeat 60%Z k ++ sleeps (trace w))%list /\
    (forall m, (m < k)%nat ->
               job_verdict (env w) (count is_describe_job (trace w) + m)%nat
               = None) /\
    ((exists v,
        AwsBackupDemo.wait_for_backup_completion job timeout w = Ok v w0 /\
        count is_describe_job (trace w0)
          = S (count is_describe_job (trace w) + k) /\
        job_verdict (env w) (count is_describe_job (trace w) + k)%nat
          = Some v)
     \/
     (AwsBackupDemo.wait_for_backup_completion job timeout w
        = Err (Exception "Timeout waiting for backup completion") w0 /\
      count is_describe_job (trace w0)
        = (count is_describe_job (trace w) + k)%nat /\
      inject_Z timeout <= clock w0 - clock w)).
Proof.
  rewrite backup_waits.
  let T := at_backup @waits_runs job in exact (T timeout w).
Qed.

Lemma lambda_course id minutes w :
  exists (k : nat) (w0 : world),
    env w0 = env w /\
    sleeps (trace w0) = (repeat 30%Z k ++ sleeps (trace w))%list /\
    (forall m, (m < k)%nat ->
               snapshot_verdict (env w) (count is_describe (trace w) + m)%nat
               = None) /\
    ((exists v,
        BackupLambda.wait_for_snapshot_completion id minutes w = Ok v w0 /\
        count is_describe (trace w0) = S (count is_describe (trace w) + k) /\
        snapshot_verdict (env w) (count is_describe (trace w) + k)%nat
          = Some v)
     \/
     (BackupLambda.wait_for_snapshot_completion id minutes w
        = Ok false
            (record (Log WARNING ("Snapshot still in progress after "
                                  ++ str_int minutes ++ " minutes")) w0) /\
      count is_describe (trace w0) = (count is_describe (trace w) + k)%nat /\
      inject_Z (minutes * 60) <= clock w0 - clock w)).
Proof.
  rewrite lambda_waits.
  let T := at_lambda @waits_runs id minutes in exact (T (minutes * 60)%Z w).
Qed.


(** X2. A wait reports completion only on the word of its last status
    query: when it returns, that query reported the success status
    ('available', or 'COMPLETED' with the ARN that is returned), no earlier
    query of the call did, and each earlier query was followed by exactly
    one sleep of the interval. *)
Theorem X2_completion_is_what_the_last_query_reported (w : world) :
  let n := count is_describe (trace w) in
  let j := count is_describe_job (trace w) in
  (forall id timeout v w',
     NativeSnapshotDemo._wait_for_snapshot_completion id timeout w = Ok v w' ->
     v = true /\
     exists k,
       count is_describe (trace w') = S (n + k) /\
       reports_available (env w) (n + k) /\
       (forall m, (m < k)%nat -> ~ reports_available (env w) (n + m)) /\
       sleeps (trace w') = (repeat 30%Z k ++ sleeps (trace w))%list)
  /\
  (forall job timeout arn w',
     AwsBackupDemo.wait_for_backup_completion job timeout w = Ok arn w' ->
     exists k,
       count is_describe_job (trace w') = S (j + k) /\
       reports_completed (env w) (j + k) arn /\
       (forall m a, (m < k)%nat -> ~ reports_completed (env w) (j + m) a) /\
       sleeps (trace w') = (repeat 60%Z k ++ sleeps (trace w))%list)
  /\
  (forall id max_wait_minutes w',
     BackupLambda.wait_for_snapshot_completion id max_wait_minutes w
       = Ok true w' ->
     exists k,
       count is_describe (trace w') = S (n + k) /\
       reports_available (env w) (n + k) /\
       (forall m, (m < k)%nat -> ~ reports_available (env w) (n + m)) /\
       sleeps (trace w') = (repeat 30%Z k ++ sleeps (trace w))%list).
Proof.
  intros n j. subst n j.
  split; [ | split ].
  - intros id timeout v w' Hrun.
    destruct (native_course id timeout w)
      as (k & w0 & _ & Hs & Hn & [ (v0 & Hw & Hc & Hv) | (Hw & _) ]);
      rewrite Hw in Hrun; [ | discriminate ].
    injection Hrun as <- <-.
    apply verdict_available in Hv. destruct Hv as [ -> Ha ].
    split; [ reflexivity | ].
    exists k. repeat split; auto.
    intros m Hm. apply verdict_not_available, Hn, Hm.
  - intros job timeout arn w' Hrun.
    destruct (backup_course job timeout w)
      as (k & w0 & _ & Hs & Hn & [ (v0 & Hw & Hc & Hv) | (Hw & _) ]);
      rewrite Hw in Hrun; [ | discriminate ].
    injection Hrun as <- <-.
    exists k. repeat split; auto.
    + apply job_verdict_completed, Hv.
    + intros m a Hm. apply job_verdict_not_completed, Hn, Hm.
  - intros id minutes w' Hrun.
    destruct (lambda_course id minutes w)
      as (k & w0 & _ & Hs & Hn & [ (v0 & Hw & Hc & Hv) | (Hw & _) ]);
      rewrite Hw in Hrun; [ | discriminate ].
    injection Hrun as -> <-.
    apply verdict_available in Hv. destruct Hv as [ _ Ha ].
    exists k. repeat split; auto.
    intros m Hm. apply verdict_not_available, Hn, Hm.
Qed.

Lemma X2_witness :
  exists k,
    reports_available (env flaky) k /\
    (forall m, (m < k)%nat -> ~ reports_available (env flaky) m).
Proof.
  destruct (X2_completion_is_what_the_last_query_reported flaky)
    as (N & _ & _).
  assert (Hrun : exists w',
             NativeSnapshotDemo._wait_for_snapshot_completion
               "demo-snapshot" 1800 flaky = Ok true w')
    by (eexists; vm_compute; reflexivity).
  destruct Hrun as (w' & Hrun).
  destruct (N "demo-snapshot" 1800%Z true w' Hrun)
    as (_ & k & _ & Ha & Hn & _).
  exists k. split; [ exact Ha | exact Hn ].
Defined.



(** ** What the functions do to the outside *)

Lemma extends_refl ok w : extends ok w w.
Proof. exists []. split; [ reflexivity | constructor ]. Qed.

Lemma extends_trans ok w1 w2 w3 :
  extends ok w1 w2 -> extends ok w2 w3 -> extends ok w1 w3.
Proof.
  intros (a & Ha & Fa) (b & Hb & Fb).
  exists (b ++ a)%list. split.
  - rewrite Hb, Ha, app_assoc. reflexivity.
  - apply Forall_app. auto.
Qed.

Lemma extends_weaken (ok ok' : effect -> Prop) w w' :
  (forall e, ok e -> ok' e) -> extends ok w w' -> extends ok' w w'.
Proof.
  intros H (es & He & F). exists es. split; [ exact He | ].
  eapply List.Forall_impl; [ exact H | exact F ].
Qed.

Lemma Forall_count_zero (ok : effect -> Prop) p es :
  Forall ok es -> (forall e, ok e -> p e = false) -> count p es = 0%nat.
Proof.
  intros F H. induction F as [ | e es He _ IH ]; [ reflexivity | ].
  rewrite count_cons, (H e He). exact IH.
Qed.

Section Frame.

Context {A : Type}.
Variable body : M (option A).
Variable ok : effect -> Prop.
Hypothesis body_frame : forall w r w', body w = Ok r w' -> extends ok w w'.

(** A loop does to the outside what its turns do. *)
Lemma loop_frame start timeout fuel :
  forall w r w',
    loop body fuel start timeout w = Ok r w' -> extends ok w w'.
Proof using body_frame.
  induction fuel as [ | fuel IH ]; intros w r w' Hrun; [ discriminate | ].
  unfold loop in Hrun. simpl in Hrun.
  unfold bind at 1 2, time_time, ret at 1 in Hrun.
  destruct (Qltb (clock w - start) (inject_Z timeout)).
  - unfold bind at 1 in Hrun.
    destruct (body w) as [ [ v | ] w1 | e w1 | ] eqn:Hb; try discriminate.
    + injection Hrun as _ <-. eapply body_frame, Hb.
    + eapply extends_trans; [ eapply body_frame, Hb | ].
      apply (IH w1 r w'). exact Hrun.
  - injection Hrun as _ <-. apply extends_refl.
Qed.

End Frame.

(** Solves [extends ok w w'] when the trace of [w'] is that of [w] with
    explicit effects put in front. *)
Ltac frame :=
  unfold extends; cbn [record advance trace];
  first
    [ refine (ex_intro _ [] (conj eq_refl _))
    | refine (ex_intro _ [_] (conj eq_refl _))
    | refine (ex_intro _ [_; _] (conj eq_refl _))
    | refine (ex_intro _ [_; _; _] (conj eq_refl _))
    | refine (ex_intro _ [_; _; _; _] (conj eq_refl _))
    | refine (ex_intro _ [_; _; _; _; _] (conj eq_refl _))
    | refine (ex_intro _ [_; _; _; _; _; _] (conj eq_refl _))
    | refine (ex_intro _ [_; _; _; _; _; _; _] (conj eq_refl _))
    | refine (ex_intro _ [_; _; _; _; _; _; _; _] (conj eq_refl _)) ];
  repeat constructor.

Lemma lambda_poll_frame id w r w' :
  BackupLambda.poll id w = Ok r w' -> extends (wait_effect id) w w'.
Proof.
  unfold BackupLambda.poll, try_except, bind, describe_cluster_snapshots,
    call, getitem_Snapshots.
  destruct (describe_cluster_snapshots_reply (env w)
              (count is_describe (trace w)))
    as [ [ [ [ [ | s l ] | ] ] | e ] d ]; simpl.
  all: try destruct (String.eqb (Status s) "available") eqn:Ea; simpl.
  all: try destruct (String.eqb (Status s) "failed") eqn:Ef; simpl.
  all: intros H; injection H as _ <-.
  all: frame.
Qed.

Lemma lambda_wait_extends id minutes w b w' :
  BackupLambda.wait_for_snapshot_completion id minutes w = Ok b w' ->
  extends (wait_effect id) w w'.
Proof.
  rewrite lambda_waits. unfold waits.
  destruct (loop _ _ _ _ _) as [ [ v' | ] w1 | | ] eqn:Hl;
    try discriminate.
  - intros H. injection H as _ <-.
    apply (loop_frame _ _ (lambda_poll_frame id)) in Hl.
    eapply extends_trans; [ | exact Hl ]. frame.
  - unfold bind, logger, ret. intros H. injection H as _ <-.
    apply (loop_frame _ _ (lambda_poll_frame id)) in Hl.
    eapply extends_trans; [ | eapply extends_trans; [ exact Hl | ] ];
      frame.
Qed.

(** The status queries of a wait are all its calls of
    [describe_cluster_snapshots]. *)
Lemma wait_queries (id : string) (es : list effect) :
  Forall (wait_effect id) es ->
  count is_status_query es = count is_describe es.
Proof.
  induction 1 as [ | e es He _ IH ]; [ reflexivity | ].
  rewrite !count_cons, IH.
  destruct e as [ | | | | | [ i | c ] | | | ]; simpl in *;
    reflexivity || contradiction.
Qed.

(** The Lambda's wait always returns; it only logs, sleeps 30 seconds at a
    time and asks for the status of its snapshot; and it returns [True] only
    when the last of its status queries reported 'available'. *)
Lemma lambda_wait_frame id minutes w :
  exists b w',
    BackupLambda.wait_for_snapshot_completion id minutes w = Ok b w' /\
    extends (wait_effect id) w w' /\
    (b = true -> exists n, reports_available (env w) n) /\
    (b = true ->
     exists k,
       count is_status_query (trace w')
         = S (count is_status_query (trace w) + k) /\
       reports_available (env w) (count is_describe (trace w) + k)).
Proof.
  destruct (lambda_course id minutes w)
    as (k & w0 & _ & _ & _ & [ (v & Hw & Hc & Hv) | (Hw & _) ]).
  - exists v, w0. split; [ exact Hw | ].
    pose proof (lambda_wait_extends _ _ _ _ _ Hw) as Hext.
    split; [ exact Hext | ].
    apply verdict_available in Hv. destruct Hv as [ _ Ha ].
    split; [ intros _; eexists; exact Ha | ].
    intros _. exists k. split; [ | exact Ha ].
    destruct Hext as (es & Ht & Hf).
    rewrite Ht, count_app in Hc |- *.
    rewrite (wait_queries id es Hf). lia.
  - eexists. eexists. split; [ exact Hw | ].
    split; [ exact (lambda_wait_extends _ _ _ _ _ Hw) | ].
    split; discriminate.
Qed.

Lemma share_frame id target w :
  exists b w',
    BackupLambda.share_snapshot_with_account id target w = Ok b w' /\
    extends (share_effect id target) w w' /\
    count is_authorize (trace w') = S (count is_authorize (trace w)) /\
    b = returned (authorize_snapshot_access_reply (env w)
                    (count is_authorize (trace w))).
Proof.
  unfold BackupLambda.share_snapshot_with_account, bind, ask, logger,
    try_except, BackupLambda.authorize_snapshot_access, call, returned.
  cbn [record advance trace env clock].
  rewrite count_cons. cbn [is_authorize].
  destruct (answer _); eexists; eexists;
    (split; [ reflexivity | ]); (split; [ frame; auto | ]);
    split; reflexivity.
Qed.

Lemma eligible_Qeq (c c' : Q) (s : snapshot) :
  c == c' -> eligible c s = eligible c' s.
Proof.
  intros E. unfold eligible. f_equal.
  destruct (Qltb (SnapshotCreateTime s) c) eqn:H1;
    destruct (Qltb (SnapshotCreateTime s) c') eqn:H2; try reflexivity.
  - apply Qltb_true in H1. apply Qltb_false in H2. lra.
  - apply Qltb_false in H1. apply Qltb_true in H2. lra.
Qed.

Lemma deleted_have_prefix (cluster : json) (es : list effect) :
  Forall (fun e => is_log e || is_delete e = true) es ->
  (forall id, In id (deleted es) ->
              String.prefix "aca-lambda-snapshot-" id = true) ->
  Forall (cleanup_effect cluster) es.
Proof.
  induction es as [ | e es IH ]; intros F H; [ constructor | ].
  inversion F as [ | ? ? He Fes ]; subst.
  constructor.
  - destruct e; try discriminate; simpl; auto.
    apply H. left. reflexivity.
  - apply IH; [ exact Fes | ].
    intros id Hin. apply H. destruct e; simpl; auto.
Qed.

(** The whole course of the clean-up: it returns, what it does to the
    outside is the listing, log lines and delete requests, and the delete
    requests are those [requested], in the order of the listing. *)
Lemma cleanup_course (cluster_identifier retention_days : json) (w : world) :
  let r := describe_cluster_snapshots_reply (env w)
             (count is_describe (trace w)) in
  let now := clock w + secs (took r) in
  exists (n : Z) (w' : world) (es : list effect),
    BackupLambda.cleanup_old_snapshots cluster_identifier retention_days w
      = Ok n w' /\
    trace w' = (es ++ trace w)%list /\
    Forall (cleanup_effect cluster_identifier) es /\
    rev (deleted es) = requested r now retention_days.
Proof.
  intros r now.
  unfold BackupLambda.cleanup_old_snapshots.
  unfold bind at 1, ask. unfold bind at 1, logger at 1.
  unfold try_except. unfold bind at 1, describe_cluster_snapshots, call.
  cbn [record advance trace env clock].
  rewrite count_cons. cbn [is_describe]. fold r.
  unfold requested.
  destruct (answer r) as [ resp | x ] eqn:Ha.
  - unfold bind at 1, time_time. unfold bind at 1.
    match goal with
    | |- context [ BackupLambda.cutoff ?t retention_days ?w1 ] =>
        change t with now;
        pose proof (cutoff_spec now retention_days w1) as Hc;
        set (w1' := w1) in *
    end.
    destruct (days retention_days) as [ d | ] eqn:Hd.
    + destruct Hc as (c & Hc & Hcd). rewrite Hc.
      unfold bind at 1.
      destruct (delete_old_spec c (default [] (Snapshots resp)) 0%Z w1')
        as (es & w' & Hr & He & Ht & Hdel & Hf).
      rewrite Hr. unfold bind at 1, logger at 1. cbn [ret].
      eexists. eexists.
      exists (Log INFO ("Cleaned up "
                        ++ str_int (0 + succeeded (env w1')
                                          (count is_delete (trace w1'))
                                          (count is_delete es))
                        ++ " old snapshots")
              :: es ++ [DescribeClusterSnapshots
                          (ManualOfCluster cluster_identifier);
                        Log INFO ("Cleaning up snapshots older than "
                                  ++ format (env w) retention_days
                                  ++ " days")])%list.
      split; [ reflexivity | ].
      split.
      { cbn [record trace]. rewrite Ht. subst w1'.
        cbn [record advance trace].
        rewrite <- app_comm_cons, <- app_assoc. reflexivity. }
      assert (Hreq : rev (deleted es)
                     = map SnapshotIdentifier
                         (List.filter (eligible (now - d * 24 * 3600))
                            (default [] (Snapshots resp)))).
      { rewrite Hdel, rev_involutive. f_equal.
        apply List.filter_ext. intros s. apply eligible_Qeq. exact Hcd. }
      split.
      { constructor; [ exact I | ].
        apply Forall_app. split.
        - apply deleted_have_prefix; [ exact Hf | ].
          intros id Hin. apply in_rev in Hin. rewrite Hreq in Hin.
          apply in_map_iff in Hin. destruct Hin as (s & <- & Hs).
          apply List.filter_In in Hs. destruct Hs as [ _ He' ].
          apply eligible_spec in He'. apply He'.
        - repeat constructor. }
      cbn [deleted]. rewrite deleted_app. cbn [deleted].
      rewrite app_nil_r. exact Hreq.
    + destruct Hc as (x & Hc). rewrite Hc.
      unfold bind, logger, ret.
      eexists. eexists.
      exists [Log ERROR ("Error during cleanup: " ++ str x);
              DescribeClusterSnapshots (ManualOfCluster cluster_identifier);
              Log INFO ("Cleaning up snapshots older than "
                        ++ format (env w) retention_days ++ " days")].
      split; [ reflexivity | ].
      split; [ reflexivity | ].
      split; [ repeat constructor | reflexivity ].
  - unfold bind, logger, ret.
    eexists. eexists.
    exists [Log ERROR ("Error during cleanup: " ++ str x);
            DescribeClusterSnapshots (ManualOfCluster cluster_identifier);
            Log INFO ("Cleaning up snapshots older than "
                      ++ format (env w) retention_days ++ " days")].
    split; [ reflexivity | ].
    split; [ reflexivity | ].
    split; [ repeat constructor | reflexivity ].
Qed.

(** ** Creating snapshots and cleaning them up *)

Lemma deleted_In (t : list effect) (id : string) :
  In id (deleted t) -> In (DeleteClusterSnapshot id) t.
Proof.
  induction t as [ | e t IH ]; [ auto | ].
  destruct e; simpl; auto.
  intros [ -> | H ]; auto.
Qed.

Lemma prefix_app (p s : string) : String.prefix p (p ++ s) = true.
Proof.
  induction p as [ | a p IH ]; [ destruct s; reflexivity | ].
  simpl. destruct (Ascii.ascii_dec a a); [ exact IH | congruence ].
Qed.




Lemma lambda_create_returns cluster target w id w1 :
  BackupLambda.create_manual_snapshot cluster target w = Ok id w1 ->
  id = "aca-lambda-snapshot-" ++ strftime (env w) (clock w) /\
  env w1 = env w /\
  trace w1 = Log INFO ("Snapshot creation initiated: " ++ id)
             :: CreateClusterSnapshot id cluster target
             :: Log INFO ("Creating manual snapshot: " ++ id)
             :: trace w.
Proof.
  unfold BackupLambda.create_manual_snapshot, bind, ask, time_time, logger,
    try_except, BackupLambda.create_cluster_snapshot, call, raise, ret.
  cbn [record advance trace env clock].
  destruct (answer _) as [ [] | x ]; intros H; [ | discriminate ].
  injection H as <- <-. repeat split.
Qed.

(** X5. What the Lambda creates, the Lambda cleans up: the identifier
    returned by [create_manual_snapshot] carries the prefix the clean-up
    looks for, so that any later clean-up with a retention of a realistic
    size whose listing shows a snapshot of that identifier, created a second
    or more before the cut-off, asks to delete it. *)
Theorem X5_created_snapshots_are_cleaned_up
    (cluster target : json) (w : world) (id : string) (w1 : world) :
  BackupLambda.create_manual_snapshot cluster target w = Ok id w1 ->
  String.prefix "aca-lambda-snapshot-" id = true /\
  forall (cluster' : json) (retention_days : Z) (w2 : world) resp s,
    let r := describe_cluster_snapshots_reply (env w2)
               (count is_describe (trace w2)) in
    realistic retention_days ->
    answer r = Returns resp ->
    In s (default [] (Snapshots resp)) ->
    SnapshotIdentifier s = id ->
    well_before (clock w2 + secs (took r)
                 - inject_Z retention_days * 24 * 3600) s ->
    exists n w' es,
      BackupLambda.cleanup_old_snapshots cluster' (JInt retention_days) w2
        = Ok n w' /\
      trace w' = (es ++ trace w2)%list /\
      In (DeleteClusterSnapshot id) es.
Proof.
  intros Hc. apply lambda_create_returns in Hc. destruct Hc as (Hid & _).
  assert (Hp : String.prefix "aca-lambda-snapshot-" id = true)
    by (rewrite Hid; apply prefix_app).
  split; [ exact Hp | ].
  intros cluster' retention_days w2 resp s r _ Ha Hin Hs Hold.
  destruct (cleanup_course cluster' (JInt retention_days) w2)
    as (n & w' & es & Hrun & Ht & _ & Hreq).
  exists n, w', es. split; [ exact Hrun | ]. split; [ exact Ht | ].
  apply deleted_In, in_rev. rewrite Hreq.
  unfold requested. fold r. rewrite Ha. cbn [days]. rewrite <- Hs.
  apply in_map, List.filter_In. split; [ exact Hin | ].
  unfold eligible. rewrite Hs, Hp. unfold well_before in Hold.
  assert (Hlt : SnapshotCreateTime s
                < clock w2 + secs (took r)
                  - inject_Z retention_days * 24 * 3600) by lra.
  apply Qltb_true in Hlt. rewrite Hlt. reflexivity.
Qed.

(** A month after the epoch, a clean-up with a retention of 7 days asks to
    delete the snapshot the Lambda made at the epoch. *)
Lemma X5_witness :
  let w2 :=
    {| env := environment_of
                (fun _ => at_once (Returns {| Snapshots := Some
                   [listing "aca-lambda-snapshot-20250101-000000" "available"
                      0] |}))
                (fun _ => at_once (Returns (job_in "COMPLETED")));
       clock := 30 * 86400;
       trace := [] |} in
  exists n w' es,
    BackupLambda.cleanup_old_snapshots (JStr "aca-redshift-cluster") (JInt 7)
      w2 = Ok n w' /\
    trace w' = (es ++ trace w2)%list /\
    In (DeleteClusterSnapshot "aca-lambda-snapshot-20250101-000000") es.
Proof.
  intros w2.
  assert (Hrun : exists w1,
             BackupLambda.create_manual_snapshot (JStr "aca-redshift-cluster")
               (JStr "058264155998") (steady "creating" "RUNNING")
             = Ok "aca-lambda-snapshot-20250101-000000" w1)
    by (eexists; vm_compute; reflexivity).
  destruct Hrun as (w1 & Hrun).
  assert (Hr : realistic 7) by (unfold realistic; lia).
  apply (proj2 (X5_created_snapshots_are_cleaned_up _ _ _ _ _ Hrun)
           (JStr "aca-redshift-cluster") 7%Z w2
           {| Snapshots := Some
                [listing "aca-lambda-snapshot-20250101-000000" "available" 0] |}
           (listing "aca-lambda-snapshot-20250101-000000" "available" 0) Hr).
  - reflexivity.
  - left. reflexivity.
  - reflexivity.
  - vm_compute. discriminate.
Defined.

(** The native script's [create_manual_snapshot], step by step: what it
    returns or raises, given the reply to its creation request. *)
Lemma native_create_course (cluster : string) (w : world) :
  let id := "demo-snapshot-" ++ strftime (env w) (clock w) in
  let c := create_cluster_snapshot_reply (env w) (count is_create (trace w)) in
  let w1 :=
    advance (secs (took c))
      (record (CreateClusterSnapshot id (JStr cluster) JNull)
         (record (Print ("Creating manual snapshot: " ++ id)) w)) in
  match answer c with
  | Raises x =>
      RedshiftSnapshotDemo.create_manual_snapshot cluster w
      = Err x (record (Print ("Error creating snapshot: " ++ str x)) w1)
  | Returns _ =>
      RedshiftSnapshotDemo.create_manual_snapshot cluster w
      = match NativeSnapshotDemo._wait_for_snapshot_completion id 1800 w1 with
        | Ok _ w2 =>
            Ok id (record (Print ("Snapshot created successfully: " ++ id))
                     w2)
        | Err x w2 =>
            Err x (record (Print ("Error creating snapshot: " ++ str x)) w2)
        | Stuck => Stuck
        end
  end.
Proof.
  intros id c w1.
  destruct (answer c) as [ [] | x ] eqn:Ha;
    unfold RedshiftSnapshotDemo.create_manual_snapshot, bind, ask, time_time,
      print, try_except, BackupLambda.create_cluster_snapshot, call, raise,
      ret;
    cbn [record advance trace env clock];
    rewrite ?count_cons; cbn [is_create]; fold id; fold c; rewrite Ha.
  - fold (record (Print ("Creating manual snapshot: " ++ id)) w).
    fold (record (CreateClusterSnapshot id (JStr cluster) JNull)
            (record (Print ("Creating manual snapshot: " ++ id)) w)).
    fold (advance (secs (took c))
            (record (CreateClusterSnapshot id (JStr cluster) JNull)
               (record (Print ("Creating manual snapshot: " ++ id)) w))).
    fold w1.
    destruct (NativeSnapshotDemo._wait_for_snapshot_completion id 1800 w1)
      as [ v w2 | x w2 | ]; reflexivity.
  - reflexivity.
Qed.





Lemma native_create_identifier cluster w id w1 :
  RedshiftSnapshotDemo.create_manual_snapshot cluster w = Ok id w1 ->
  id = "demo-snapshot-" ++ strftime (env w) (clock w).
Proof.
  intros Hrun.
  pose proof (native_create_course cluster w) as Hc. cbv zeta in Hc.
  destruct (answer _) as [ [] | x ]; rewrite Hc in Hrun;
    [ | discriminate ].
  destruct (NativeSnapshotDemo._wait_for_snapshot_completion _ _ _)
    as [ v w2 | x w2 | ]; try discriminate.
  injection Hrun as <- _. reflexivity.
Qed.

(** X7. The Lambda's clean-up never asks to delete a snapshot made by the
    native script: the identifiers [create_manual_snapshot] of the script
    returns start with 'demo-snapshot-', which the clean-up passes over. *)
Theorem X7_cleanup_leaves_the_demo_snapshots_alone
    (cluster : string) (w : world) (id : string) (w1 : world) :
  RedshiftSnapshotDemo.create_manual_snapshot cluster w = Ok id w1 ->
  forall (cluster' retention_days : json) (w2 : world),
  exists n w' es,
    BackupLambda.cleanup_old_snapshots cluster' retention_days w2 = Ok n w' /\
    trace w' = (es ++ trace w2)%list /\
    ~ In (DeleteClusterSnapshot id) es.
Proof.
  intros Hc cluster' retention_days w2.
  pose proof (native_create_identifier cluster w id w1 Hc) as Hid.
  destruct (cleanup_course cluster' retention_days w2)
    as (n & w' & es & Hrun & Ht & Hf & _).
  exists n, w', es. split; [ exact Hrun | ]. split; [ exact Ht | ].
  intros Hin. rewrite List.Forall_forall in Hf. apply Hf in Hin.
  simpl in Hin. rewrite Hid in Hin. discriminate.
Qed.

(** ** The handler, step by step *)

Lemma extends_count (ok : effect -> Prop) p w w' :
  extends ok w w' -> (forall e, ok e -> p e = false) ->
  count p (trace w') = count p (trace w).
Proof.
  intros (es & He & F) H. rewrite He, count_app.
  rewrite (Forall_count_zero ok p es F H). reflexivity.
Qed.

Lemma cleanup_frame cluster retention w :
  exists n w',
    BackupLambda.cleanup_old_snapshots cluster retention w = Ok n w' /\
    extends (cleanup_effect cluster) w w'.
Proof.
  destruct (cleanup_course cluster retention w)
    as (n & w' & es & Hrun & Ht & Hf & _).
  exists n, w'. split; [ exact Hrun | ]. exists es. auto.
Qed.

Lemma handler_course (C : Type) (event : json) (context : C) (w : world) :
  exists (result : gmap string json) (w' : world),
    BackupLambda.lambda_handler event context w = Ok result w' /\
    extends (handler_effect event w) w w' /\
    match failure_of event w with
    | Some msg =>
        result !! "statusCode" = Some (JInt 500) /\
        result !! "error" = Some (JStr msg) /\
        result !! "snapshot_id" = None /\
        result !! "status" = None /\
        count is_authorize (trace w') = count is_authorize (trace w) /\
        (count is_create (trace w') <= S (count is_create (trace w)))%nat
    | None =>
        result !! "statusCode" = Some (JInt 200) /\
        result !! "snapshot_id" = Some (JStr (snapshot_id_of w)) /\
        result !! "cluster_identifier" = Some (cluster_of event) /\
        result !! "target_account_id" = Some (target_of event) /\
        result !! "error" = None /\
        (exists n, result !! "cleaned_up_snapshots" = Some (JInt n)) /\
        count is_create (trace w') = S (count is_create (trace w)) /\
        reported event result
          (count is_authorize (trace w') - count is_authorize (trace w)) /\
        (count is_authorize (trace w') <> count is_authorize (trace w) ->
         exists q,
           count is_status_query (trace w')
             = S (count is_status_query (trace w) + q) /\
           reports_available (env w) (count is_describe (trace w) + q))
    end.
Proof.
  unfold BackupLambda.lambda_handler.
  unfold bind at 1, ask.
  unfold bind at 1, BackupLambda.dumps_event, bind at 1, ask, ret at 1.
  unfold bind at 1, logger at 1.
  cbv zeta. cbn [BackupLambda.json_of].
  unfold try_except.
  destruct event as [ | b | z | q | s | l | d ].
  1-6: (eexists; eexists; split; [ reflexivity | ];
        split; [ frame | ];
        repeat split; reflexivity || apply Nat.le_succ_diag_r).
  unfold failure_of, reported, wait_of.
  unfold bind at 1, BackupLambda.event_get at 1, ret at 1.
  unfold bind at 1, BackupLambda.event_get at 1, ret at 1.
  unfold bind at 1, BackupLambda.event_get at 1, ret at 1.
  unfold bind at 1, BackupLambda.event_get at 1, ret at 1.
  change (default JNull (d !! "target_account_id"))
    with (target_of (JDict d)).
  change (default (JStr "aca-redshift-cluster") (d !! "cluster_identifier"))
    with (cluster_of (JDict d)).
  set (event := JDict d).
  unfold bind at 1.
  destruct (truthy (target_of event)) eqn:Ht; cbn [negb].
  2: { unfold raise, bind, logger, time_time, ret.
       eexists; eexists; split; [ reflexivity | ].
       split; [ frame | ].
       repeat split; reflexivity || apply Nat.le_succ_diag_r. }
  unfold ret at 1.
  unfold bind at 1, BackupLambda.__init__. unfold bind at 1, ask.
  unfold bind at 1, call. cbn [record advance trace env clock].
  destruct (answer (identity_reply (env w))) as [ account | x ] eqn:Hi.
  2: { unfold bind, logger, time_time, ret.
       eexists; eexists; split; [ reflexivity | ].
       split; [ frame | ].
       repeat split; reflexivity || apply Nat.le_succ_diag_r. }
  unfold logger at 1.
  unfold bind at 1, BackupLambda.create_manual_snapshot.
  unfold bind at 1, ask. unfold bind at 1, time_time at 1.
  unfold bind at 1, logger at 1. unfold try_except.
  unfold bind at 1, BackupLambda.create_cluster_snapshot, call.
  cbn [record advance trace env clock].
  rewrite !count_cons. cbn [is_create].
  change ("aca-lambda-snapshot-"
          ++ strftime (env w) (clock w + secs (took (identity_reply (env w)))))
    with (snapshot_id_of w).
  destruct (answer (create_cluster_snapshot_reply (env w)
                      (count is_create (trace w)))) as [ [] | x ] eqn:Hcr.
  2: { unfold bind, logger, raise, time_time, ret.
       eexists; eexists; split; [ reflexivity | ].
       split; [ frame; auto | ].
       repeat split; reflexivity. }
  unfold bind at 1, logger at 1, ret at 1.
  unfold bind at 1, time_time at 1.
  unfold bind at 1.
  assert (Hwait_ok : forall e,
             truthy (wait_of event) = true ->
             wait_effect (snapshot_id_of w) e -> handler_effect event w e).
  { intros e Hy He. destruct e as [ | | | | | [ i | c ] | | | ];
      simpl in *; auto; contradiction. }
  assert (Hshare_ok : forall e,
             truthy (wait_of event) = true ->
             (exists n, reports_available (env w) n) ->
             share_effect (snapshot_id_of w) (target_of event) e ->
             handler_effect event w e).
  { intros e Hy Ha He. destruct e; simpl in *; tauto. }
  assert (Hclean_ok : forall e,
             cleanup_effect (cluster_of event) e -> handler_effect event w e).
  { intros e He. destruct e as [ | | | | | [ i | c ] | | | ];
      simpl in *; auto; contradiction. }
  destruct (truthy (default (JBool false) (d !! "wait_for_completion")))
    eqn:Hy.
  - unfold bind at 1.
    match goal with
    | |- context [ BackupLambda.wait_for_snapshot_completion _ _ ?wx ] =>
        set (w1 := wx)
    end.
    assert (F1 : extends (handler_effect event w) w w1)
      by (subst w1; frame; auto).
    assert (C1 : count is_create (trace w1) = S (count is_create (trace w)))
      by reflexivity.
    assert (A1 : count is_authorize (trace w1)
                 = count is_authorize (trace w)) by reflexivity.
    assert (S1 : count is_status_query (trace w1)
                 = count is_status_query (trace w)) by reflexivity.
    assert (D1 : count is_describe (trace w1)
                 = count is_describe (trace w)) by reflexivity.
    destruct (lambda_wait_frame (snapshot_id_of w) 10 w1)
      as (b & w2 & Hw & Fw & Hav & Hlast).
    rewrite S1, D1 in Hlast. change (env w1) with (env w) in Hlast.
    rewrite Hw.
    pose proof (extends_count _ is_create _ _ Fw
                  ltac:(intros [ | | | | | [ | ] | | | ]; simpl; tauto))
      as C2.
    pose proof (extends_count _ is_authorize _ _ Fw
                  ltac:(intros [ | | | | | [ | ] | | | ]; simpl; tauto))
      as A2.
    apply (extends_weaken _ (handler_effect event w)) in Fw;
      [ | intros e; apply Hwait_ok; exact Hy ].
    destruct b.
    + unfold bind at 1.
      destruct (share_frame (snapshot_id_of w) (target_of event) w2)
        as (sh & w3 & Hs & Fs & A3 & _).
      rewrite Hs. unfold ret at 1. unfold bind at 1.
      pose proof (extends_count _ is_create _ _ Fs
                    ltac:(intros [ | | | | | | | | ]; simpl; tauto)) as C3.
      pose proof (extends_count _ is_status_query _ _ Fs
                    ltac:(intros [ | | | | | | | | ]; simpl; tauto)) as S3.
      apply (extends_weaken _ (handler_effect event w)) in Fs;
        [ | intros e; apply Hshare_ok; [ exact Hy | exact (Hav eq_refl) ] ].
      destruct (cleanup_frame (cluster_of event)
                  (default (JInt 7) (d !! "retention_days")) w3)
        as (n & w4 & Hc & Fc).
      rewrite Hc.
      pose proof (extends_count _ is_create _ _ Fc
                    ltac:(intros [ | | | | | [ | ] | | | ]; simpl;
                          tauto || discriminate || auto)) as C4.
      pose proof (extends_count _ is_authorize _ _ Fc
                    ltac:(intros [ | | | | | [ | ] | | | ]; simpl;
                          tauto || discriminate || auto)) as A4.
      pose proof (extends_count _ is_status_query _ _ Fc
                    ltac:(intros [ | | | | | [ | ] | | | ]; simpl;
                          tauto || discriminate || auto)) as S4.
      apply (extends_weaken _ (handler_effect event w)) in Fc;
        [ | exact Hclean_ok ].
      unfold bind, logger, ret.
      eexists; eexists; split; [ reflexivity | ].
      split.
      { eapply extends_trans; [ exact F1 | ].
        eapply extends_trans; [ exact Fw | ].
        eapply extends_trans; [ exact Fs | ].
        eapply extends_trans; [ exact Fc | ]. frame. }
      cbn [record trace]. rewrite !count_cons.
      cbn [is_create is_authorize is_status_query].
      rewrite C4, C3, C2, C1, A4, A3, A2, A1, S4, S3.
      replace (S (count is_authorize (trace w))
               - count is_authorize (trace w))%nat with 1%nat by lia.
      destruct sh;
        (split; [ reflexivity | ]); (split; [ reflexivity | ]);
        (split; [ reflexivity | ]); (split; [ reflexivity | ]);
        (split; [ reflexivity | ]); (split; [ eexists; reflexivity | ]);
        (split; [ reflexivity | ]);
        (split; [ | intros _; exact (Hlast eq_refl) ]).
      * left. repeat split.
      * right. left. repeat split.
    + unfold ret at 1. unfold bind at 1.
      destruct (cleanup_frame (cluster_of event)
                  (default (JInt 7) (d !! "retention_days")) w2)
        as (n & w4 & Hc & Fc).
      rewrite Hc.
      pose proof (extends_count _ is_create _ _ Fc
                    ltac:(intros [ | | | | | [ | ] | | | ]; simpl;
                          tauto || discriminate || auto)) as C4.
      pose proof (extends_count _ is_authorize _ _ Fc
                    ltac:(intros [ | | | | | [ | ] | | | ]; simpl;
                          tauto || discriminate || auto)) as A4.
      pose proof (extends_count _ is_status_query _ _ Fc
                    ltac:(intros [ | | | | | [ | ] | | | ]; simpl;
                          tauto || discriminate || auto)) as S4.
      apply (extends_weaken _ (handler_effect event w)) in Fc;
        [ | exact Hclean_ok ].
      unfold bind, logger, ret.
      eexists; eexists; split; [ reflexivity | ].
      split.
      { eapply extends_trans; [ exact F1 | ].
        eapply extends_trans; [ exact Fw | ].
        eapply extends_trans; [ exact Fc | ]. frame. }
      cbn [record trace]. rewrite !count_cons. cbn [is_create is_authorize].
      rewrite C4, C2, C1, A4, A2, A1. rewrite Nat.sub_diag.
      (split; [ reflexivity | ]); (split; [ reflexivity | ]);
        (split; [ reflexivity | ]); (split; [ reflexivity | ]);
        (split; [ reflexivity | ]); (split; [ eexists; reflexivity | ]);
        (split; [ reflexivity | ]);
        (split; [ | intros Hne; contradiction Hne; reflexivity ]).
      right. right. repeat split.
  - unfold ret at 1. unfold bind at 1.
    match goal with
    | |- context [ BackupLambda.cleanup_old_snapshots _ _ ?wx ] =>
        set (w1 := wx)
    end.
    assert (F1 : extends (handler_effect event w) w w1)
      by (subst w1; frame; auto).
    assert (C1 : count is_create (trace w1) = S (count is_create (trace w)))
      by reflexivity.
    assert (A1 : count is_authorize (trace w1)
                 = count is_authorize (trace w)) by reflexivity.
    destruct (cleanup_frame (cluster_of event)
                (default (JInt 7) (d !! "retention_days")) w1)
      as (n & w4 & Hc & Fc).
    rewrite Hc.
    pose proof (extends_count _ is_create _ _ Fc
                  ltac:(intros [ | | | | | [ | ] | | | ]; simpl;
                        tauto || discriminate || auto)) as C4.
    pose proof (extends_count _ is_authorize _ _ Fc
                  ltac:(intros [ | | | | | [ | ] | | | ]; simpl;
                        tauto || discriminate || auto)) as A4.
    apply (extends_weaken _ (handler_effect event w)) in Fc;
      [ | exact Hclean_ok ].
    unfold bind, logger, ret.
    eexists; eexists; split; [ reflexivity | ].
    split.
    { eapply extends_trans; [ exact F1 | ].
      eapply extends_trans; [ exact Fc | ]. frame. }
    cbn [record trace]. rewrite !count_cons. cbn [is_create is_authorize].
    rewrite C4, C1, A4, A1. rewrite Nat.sub_diag.
    (split; [ reflexivity | ]); (split; [ reflexivity | ]);
      (split; [ reflexivity | ]); (split; [ reflexivity | ]);
      (split; [ reflexivity | ]); (split; [ eexists; reflexivity | ]);
      (split; [ reflexivity | ]);
      (split; [ | intros Hne; contradiction Hne; reflexivity ]).
    repeat split.
Qed.

Lemma count_In p (es : list effect) :
  (0 < count p es)%nat -> exists e, In e es /\ p e = true.
Proof.
  induction es as [ | e es IH ];
    [ intros H; exfalso; revert H; unfold count; simpl; lia | ].
  rewrite count_cons. destruct (p e) eqn:He.
  - intros _. exists e. split; [ left; reflexivity | exact He ].
  - intros H. destruct (IH H) as (e' & Hin & Hp).
    exists e'. split; [ right; exact Hin | exact Hp ].
Qed.

(** An event that [json.dumps] cannot write makes the handler raise: the
    [TypeError] of [json.dumps] leaves it, and nothing is returned. *)
Lemma C9_unwritable_event_is_not_caught :
  outcome_of
    (BackupLambda.lambda_handler unwritable_event tt
       (steady "available" "COMPLETED"))
  = Some (Raises (TypeError "Object of type set is not JSON serializable")) /\
  ~ returns_a_value
      (BackupLambda.lambda_handler unwritable_event tt
         (steady "available" "COMPLETED")).
Proof.
  split; [ reflexivity | ].
  intros (v & w' & H). discriminate H.
Qed.

(** C9, as the code has it. For every event that [json.dumps] can write
    (every event the Lambda service delivers is one), every context and
    whatever the AWS calls answer, [lambda_handler] returns a dictionary and
    lets no exception through.
    - When the snapshot creation succeeds (the event names a truthy target
      account, the clients can be built and the creation request returns)
      the handler has asked exactly once for a snapshot, of the cluster and
      for the target account of the event, and the dictionary has statusCode
      200, the identifier of that request as snapshot_id, and a status.
    - In every other case the dictionary has statusCode 500, an error
      message and no snapshot_id.
    - When the event has no truthy target_account_id, and it is a dict, the
      message is 'target_account_id is required'; dict or not, no snapshot
      creation is asked for.
    For an event that [json.dumps] cannot write, the exception that
    [json.dumps] raises leaves the handler, which has done nothing by then:
    the line that logs the event stands before the [try]. *)
Theorem C9_lambda_handler_always_returns_a_status
    (C : Type) (context : C) (w : world) :
  (forall event : json,
     exists (result : gmap string json) (w' : world) (es : list effect),
       BackupLambda.lambda_handler event context w = Ok result w' /\
       trace w' = (es ++ trace w)%list /\
       (if creation_succeeds event w
        then result !! "statusCode" = Some (JInt 200) /\
             result !! "snapshot_id" = Some (JStr (snapshot_id_of w)) /\
             (exists st, result !! "status" = Some (JStr st)) /\
             count is_create es = 1%nat /\
             In (CreateClusterSnapshot (snapshot_id_of w) (cluster_of event)
                   (target_of event)) es
        else result !! "statusCode" = Some (JInt 500) /\
             (exists msg, result !! "error" = Some (JStr msg)) /\
             result !! "snapshot_id" = None) /\
       (truthy (target_of event) = false ->
        result !! "statusCode" = Some (JInt 500) /\
        count is_create es = 0%nat /\
        forall d, event = JDict d ->
          result !! "error" = Some (JStr "target_account_id is required")))
  /\
  (forall x,
     BackupLambda.lambda_handler (Unserialisable x) context w = Err x w).
Proof.
  split; [ | intros x; reflexivity ].
  intros event.
  destruct (handler_course C event context w)
    as (result & w' & Hrun & (es & Ht & Hf) & Hres).
  exists result, w', es. split; [ exact Hrun | ]. split; [ exact Ht | ].
  assert (Hc : count is_create (trace w')
               = (count is_create es + count is_create (trace w))%nat)
    by (rewrite Ht; apply count_app).
  assert (Hfail : failure_of event w = None <-> creation_succeeds event w = true).
  { unfold failure_of, creation_succeeds, returned.
    destruct event as [ | b | z | q | s | l | d ];
      try (split; discriminate).
    destruct (truthy (target_of (JDict d))); [ | split; discriminate ].
    destruct (answer (identity_reply (env w))); [ | split; discriminate ].
    destruct (answer (create_cluster_snapshot_reply (env w)
                        (count is_create (trace w))));
      split; reflexivity || discriminate. }
  split.
  - destruct (creation_succeeds event w) eqn:Hs.
    + rewrite (proj2 Hfail eq_refl) in Hres.
      destruct Hres as (H200 & Hid & _ & _ & _ & _ & Hone & Hrep & _).
      split; [ exact H200 | ]. split; [ exact Hid | ].
      split.
      { unfold reported in Hrep.
        destruct (truthy (wait_of event));
          [ destruct Hrep as [ (H & _) | [ (H & _) | (H & _) ] ]
          | destruct Hrep as (H & _) ]; eexists; exact H. }
      assert (H1 : count is_create es = 1%nat) by lia.
      split; [ exact H1 | ].
      destruct (count_In is_create es ltac:(lia)) as (e & He & Hp).
      destruct e; try discriminate.
      rewrite List.Forall_forall in Hf. pose proof (Hf _ He) as Hcre.
      simpl in Hcre. destruct Hcre as (-> & -> & -> & _). exact He.
    + destruct (failure_of event w) as [ msg | ] eqn:Hmsg.
      * destruct Hres as (H500 & He & Hid & _).
        split; [ exact H500 | ]. split; [ eexists; exact He | exact Hid ].
      * pose proof (proj1 Hfail eq_refl) as Habs. discriminate Habs.
  - intros Hno.
    assert (Hzero : count is_create es = 0%nat).
    { apply (Forall_count_zero _ _ _ Hf).
      intros [ | | | | | | | | ]; simpl; try reflexivity.
      intros (_ & _ & -> & Hy). congruence. }
    assert (Hmsg : exists msg, failure_of event w = Some msg /\
                     forall d, event = JDict d ->
                               msg = "target_account_id is required").
    { unfold failure_of. destruct event as [ | b | z | q | s | l | d ];
        try (eexists; split; [ reflexivity | intros d' H; discriminate ]).
      rewrite Hno. eexists. split; reflexivity. }
    destruct Hmsg as (msg & Hmsg & Hreq). rewrite Hmsg in Hres.
    destruct Hres as (H500 & He & _).
    split; [ exact H500 | ]. split; [ exact Hzero | ].
    intros d Hd. rewrite He, (Hreq d Hd). reflexivity.
Qed.

Lemma C9_witness :
  exists result w',
    BackupLambda.lambda_handler waiting_event tt
      (steady "available" "COMPLETED") = Ok result w' /\
    result !! "statusCode" = Some (JInt 200) /\
    count is_create (trace w') = 1%nat.
Proof.
  destruct (C9_lambda_handler_always_returns_a_status unit tt
              (steady "available" "COMPLETED")) as (Hjson & _).
  destruct (Hjson waiting_event) as (result & w' & es & Hr & Ht & Hres & _).
  assert (Hs : creation_succeeds waiting_event (steady "available" "COMPLETED")
               = true) by (vm_compute; reflexivity).
  rewrite Hs in Hres. destruct Hres as (H200 & _ & _ & Hone & _).
  exists result, w'. split; [ exact Hr | ]. split; [ exact H200 | ].
  rewrite Ht, count_app, Hone. reflexivity.
Defined.

(** X8. One invocation of the handler asks for at most one snapshot to be
    created. The request is for the cluster of the event (or
    'aca-redshift-cluster'), tagged with the event's target account, which
    is truthy, under an identifier made of 'aca-lambda-snapshot-' and the
    time stamp; and a result with statusCode 200 means that exactly one
    request was made and carries that identifier as snapshot_id. *)
Theorem X8_handler_creates_at_most_one_snapshot
    (C : Type) (event : json) (context : C) (w : world) :
  exists (result : gmap string json) (w' : world) (es : list effect),
    BackupLambda.lambda_handler event context w = Ok result w' /\
    trace w' = (es ++ trace w)%list /\
    (count is_create es <= 1)%nat /\
    (forall i c t,
       In (CreateClusterSnapshot i c t) es ->
       i = snapshot_id_of w /\
       String.prefix "aca-lambda-snapshot-" i = true /\
       c = cluster_of event /\ t = target_of event /\ truthy t = true) /\
    (result !! "statusCode" = Some (JInt 200) ->
     count is_create es = 1%nat /\
     result !! "snapshot_id" = Some (JStr (snapshot_id_of w))).
Proof.
  destruct (handler_course C event context w)
    as (result & w' & Hrun & (es & Ht & Hf) & Hres).
  exists result, w', es. split; [ exact Hrun | ]. split; [ exact Ht | ].
  assert (Hc : count is_create (trace w')
               = (count is_create es + count is_create (trace w))%nat)
    by (rewrite Ht; apply count_app).
  split; [ | split ].
  - destruct (failure_of event w);
      [ destruct Hres as (_ & _ & _ & _ & _ & Hle)
      | destruct Hres as (_ & _ & _ & _ & _ & _ & Heq & _) ]; lia.
  - intros i c t Hin. rewrite List.Forall_forall in Hf.
    apply Hf in Hin. simpl in Hin. destruct Hin as (-> & -> & -> & Hy).
    repeat split; auto. apply prefix_app.
  - intros H200.
    destruct (failure_of event w);
      [ destruct Hres as (H500 & _); congruence | ].
    destruct Hres as (_ & Hid & _ & _ & _ & _ & Heq & _).
    split; [ lia | exact Hid ].
Qed.

(** X9. The handler asks at most once to authorize access to a snapshot,
    and only for the snapshot it has just created, for the target account
    of the event, when the event asked to wait for completion and the last
    of the status queries of this invocation, which are all for that
    snapshot, was answered 'available': with [q + 1] status queries made,
    that is the reply number [q] after those that earlier calls of
    [describe_cluster_snapshots] had used. *)
Theorem X9_handler_shares_only_its_available_snapshot
    (C : Type) (event : json) (context : C) (w : world) :
  exists (result : gmap string json) (w' : world) (es : list effect),
    BackupLambda.lambda_handler event context w = Ok result w' /\
    trace w' = (es ++ trace w)%list /\
    (count is_authorize es <= 1)%nat /\
    (forall j,
       In (DescribeClusterSnapshots (BySnapshotIdentifier j)) es ->
       j = snapshot_id_of w) /\
    (forall i a,
       In (AuthorizeSnapshotAccess i a) es ->
       i = snapshot_id_of w /\
       a = target_of event /\
       truthy (wait_of event) = true /\
       (exists q,
          count is_status_query es = S q /\
          reports_available (env w) (count is_describe (trace w) + q)) /\
       In (CreateClusterSnapshot i (cluster_of event) a) es /\
       result !! "snapshot_id" = Some (JStr i)).
Proof.
  destruct (handler_course C event context w)
    as (result & w' & Hrun & (es & Ht & Hf) & Hres).
  exists result, w', es. split; [ exact Hrun | ]. split; [ exact Ht | ].
  assert (Ha : count is_authorize (trace w')
               = (count is_authorize es + count is_authorize (trace w))%nat)
    by (rewrite Ht; apply count_app).
  assert (Hc : count is_create (trace w')
               = (count is_create es + count is_create (trace w))%nat)
    by (rewrite Ht; apply count_app).
  assert (Hs : count is_status_query (trace w')
               = (count is_status_query es
                  + count is_status_query (trace w))%nat)
    by (rewrite Ht; apply count_app).
  assert (Hle : (count is_authorize es <= 1)%nat
                /\ ((0 < count is_authorize es)%nat ->
                    count is_create es = 1%nat /\
                    result !! "snapshot_id" = Some (JStr (snapshot_id_of w)) /\
                    exists q,
                      count is_status_query es = S q /\
                      reports_available (env w)
                        (count is_describe (trace w) + q))).
  { destruct (failure_of event w).
    - destruct Hres as (_ & _ & _ & _ & Heq & _). split; lia.
    - destruct Hres as (_ & Hid & _ & _ & _ & _ & Hcr & Hrep & Hlast).
      split.
      + unfold reported in Hrep.
        destruct (truthy (wait_of event));
          [ destruct Hrep as [ (_ & _ & H) | [ (_ & _ & H) | (_ & _ & H) ] ]
          | destruct Hrep as (_ & _ & H) ]; lia.
      + intros Hpos. split; [ lia | ]. split; [ exact Hid | ].
        destruct Hlast as (q & Hq & Hr); [ lia | ].
        exists q. split; [ lia | exact Hr ]. }
  pose proof Hf as Hf'. rewrite List.Forall_forall in Hf'.
  split; [ apply Hle | ]. split.
  { intros j Hin. apply Hf' in Hin. simpl in Hin. apply Hin. }
  intros i a Hin.
  assert (Hpos : (0 < count is_authorize es)%nat).
  { clear - Hin. induction es as [ | e es IH ]; [ contradiction | ].
    rewrite count_cons. destruct Hin as [ -> | Hin ]; simpl; [ lia | ].
    specialize (IH Hin). destruct (is_authorize e); lia. }
  destruct (proj2 Hle Hpos) as (Hone & Hid & Hq).
  pose proof (Hf' _ Hin) as Hauth. simpl in Hauth.
  destruct Hauth as (-> & -> & Hy & Hav).
  repeat split; auto.
  destruct (count_In is_create es ltac:(lia)) as (e & He & Hp).
  destruct e; try discriminate.
  pose proof (Hf' _ He) as Hcre. simpl in Hcre.
  destruct Hcre as (-> & -> & -> & _). exact He.
Qed.

(** The handler on an event that asks to wait, in a world where the first
    status query reports 'available': it authorizes access once. *)
Lemma X9_witness :
  exists result w' es,
    BackupLambda.lambda_handler waiting_event tt
      (steady "available" "COMPLETED") = Ok result w' /\
    trace w' = (es ++ trace (steady "available" "COMPLETED"))%list /\
    (count is_authorize es <= 1)%nat.
Proof.
  destruct (X9_handler_shares_only_its_available_snapshot unit waiting_event
              tt (steady "available" "COMPLETED"))
    as (result & w' & es & Hrun & Ht & Hle & _).
  exists result, w', es. auto.
Defined.

(** X10. An event that does not ask to wait for completion makes the handler
    neither sleep, nor ask for the status of the snapshot, nor authorize
    access; when the snapshot was created the status it reports is
    'snapshot_initiated_async'. *)
Theorem X10_handler_does_not_wait_unless_asked
    (C : Type) (event : json) (context : C) (w : world) :
  truthy (wait_of event) = false ->
  exists (result : gmap string json) (w' : world) (es : list effect),
    BackupLambda.lambda_handler event context w = Ok result w' /\
    trace w' = (es ++ trace w)%list /\
    sleeps es = [] /\
    count is_status_query es = 0%nat /\
    count is_authorize es = 0%nat /\
    (result !! "statusCode" = Some (JInt 200) ->
     result !! "status" = Some (JStr "snapshot_initiated_async") /\
     result !! "shared" = None).
Proof.
  intros Hy.
  destruct (handler_course C event context w)
    as (result & w' & Hrun & (es & Ht & Hf) & Hres).
  exists result, w', es. split; [ exact Hrun | ]. split; [ exact Ht | ].
  split; [ | split; [ | split ] ].
  - assert (Hz : count is_sleep es = 0%nat).
    { apply (Forall_count_zero _ _ _ Hf).
      intros [ | | | | | | | | ]; simpl; try reflexivity.
      intros (_ & Hy'). congruence. }
    rewrite count_is_sleep in Hz.
    destruct (sleeps es); [ reflexivity | discriminate ].
  - apply (Forall_count_zero _ _ _ Hf).
    intros [ | | | | | [ | ] | | | ]; simpl; try reflexivity.
    intros (_ & Hy'). congruence.
  - apply (Forall_count_zero _ _ _ Hf).
    intros [ | | | | | | | | ]; simpl; try reflexivity.
    intros (_ & _ & Hy' & _). congruence.
  - intros H200.
    destruct (failure_of event w);
      [ destruct Hres as (H500 & _); congruence | ].
    destruct Hres as (_ & _ & _ & _ & _ & _ & _ & Hrep & _).
    unfold reported in Hrep. rewrite Hy in Hrep. tauto.
Qed.

Lemma X10_witness :
  exists result w',
    BackupLambda.lambda_handler async_event tt (steady "creating" "RUNNING")
      = Ok result w' /\
    sleeps (trace w') = [] /\
    count is_status_query (trace w') = 0%nat.
Proof.
  assert (Hy : truthy (wait_of async_event) = false)
    by (vm_compute; reflexivity).
  destruct (X10_handler_does_not_wait_unless_asked unit async_event tt
              (steady "creating" "RUNNING") Hy)
    as (result & w' & es & Hrun & Ht & Hs & Hq & _).
  exists result, w'. split; [ exact Hrun | ].
  rewrite Ht. simpl. rewrite app_nil_r. split; [ exact Hs | exact Hq ].
Defined.

(** X11. When the snapshot is created the result echoes the event: its
    cluster_identifier and target_account_id are those the handler read
    (with the default cluster), it counts the cleaned up snapshots, and its
    status tells what happened: 'completed_and_shared' or
    'completed_not_shared' with the entry 'shared' and exactly one request
    to authorize access, 'snapshot_in_progress' or
    'snapshot_initiated_async' with no such entry and no such request. *)
Theorem X11_handler_reports_what_it_did
    (C : Type) (event : json) (context : C) (w : world) :
  failure_of event w = None ->
  exists (result : gmap string json) (w' : world),
    BackupLambda.lambda_handler event context w = Ok result w' /\
    result !! "statusCode" = Some (JInt 200) /\
    result !! "cluster_identifier" = Some (cluster_of event) /\
    result !! "target_account_id" = Some (target_of event) /\
    (exists n, result !! "cleaned_up_snapshots" = Some (JInt n)) /\
    result !! "error" = None /\
    reported event result
      (count is_authorize (trace w') - count is_authorize (trace w)).
Proof.
  intros Hnone.
  destruct (handler_course C event context w)
    as (result & w' & Hrun & _ & Hres).
  rewrite Hnone in Hres.
  destruct Hres as (H200 & _ & Hc & Htg & He & Hn & _ & Hrep & _).
  exists result, w'. repeat split; auto.
Qed.

Lemma X11_witness :
  exists result w',
    BackupLambda.lambda_handler waiting_event tt
      (steady "available" "COMPLETED") = Ok result w' /\
    result !! "cluster_identifier" = Some (JStr "aca-redshift-cluster").
Proof.
  assert (Hn : failure_of waiting_event (steady "available" "COMPLETED")
               = None) by (vm_compute; reflexivity).
  destruct (X11_handler_reports_what_it_did unit waiting_event tt
              (steady "available" "COMPLETED") Hn)
    as (result & w' & Hrun & _ & Hc & _).
  exists result, w'. split; [ exact Hrun | ].
  rewrite Hc. vm_compute. reflexivity.
Defined.

(** X12. For an event that [json.dumps] can write: when no snapshot is
    created the result carries, as 'error', the message of what went wrong:
    that the event has no 'get' when it is a JSON value other than a dict,
    'target_account_id is required' when the event names no target account,
    and the message of the exception when the clients cannot be built or the
    creation request fails. Such a result has statusCode 500, no snapshot_id
    and no status, and no access was authorized. An event that [json.dumps]
    cannot write gets no result at all: the exception of [json.dumps] leaves
    the handler, and nothing has been logged, asked or created. *)
Theorem X12_handler_reports_the_error
    (C : Type) (event : json) (context : C) (w : world) (msg : string) :
  failure_of event w = Some msg ->
  (exists (result : gmap string json) (w' : world),
     BackupLambda.lambda_handler event context w = Ok result w' /\
     result !! "statusCode" = Some (JInt 500) /\
     result !! "error" = Some (JStr msg) /\
     result !! "snapshot_id" = None /\
     result !! "status" = None /\
     count is_authorize (trace w') = count is_authorize (trace w)) /\
  (forall x,
     outcome_of (BackupLambda.lambda_handler (Unserialisable x) context w)
       = Some (Raises x) /\
     world_of (BackupLambda.lambda_handler (Unserialisable x) context w)
       = Some w).
Proof.
  intros Hsome.
  split; [ | intros x; split; reflexivity ].
  destruct (handler_course C event context w)
    as (result & w' & Hrun & _ & Hres).
  rewrite Hsome in Hres.
  destruct Hres as (H500 & He & Hid & Hst & Ha & _).
  exists result, w'. repeat split; auto.
Qed.

Lemma X12_witness :
  exists result w',
    BackupLambda.lambda_handler (JStr "backup now") tt
      (steady "available" "COMPLETED") = Ok result w' /\
    result !! "error" = Some (JStr "'str' object has no attribute 'get'").
Proof.
  destruct (X12_handler_reports_the_error unit (JStr "backup now") tt
              (steady "available" "COMPLETED")
              "'str' object has no attribute 'get'"
              ltac:(vm_compute; reflexivity))
    as ((result & w' & Hrun & _ & He & _) & _).
  exists result, w'. split; [ exact Hrun | exact He ].
Defined.

Lemma X7_witness :
  exists n w' es,
    BackupLambda.cleanup_old_snapshots (JStr "aca-redshift-cluster") (JInt 7)
      (steady "available" "COMPLETED") = Ok n w' /\
    trace w' = (es ++ trace (steady "available" "COMPLETED"))%list /\
    ~ In (DeleteClusterSnapshot "demo-snapshot-20250101-000000") es.
Proof.
  assert (Hrun : exists w1,
             RedshiftSnapshotDemo.create_manual_snapshot
               "aca-redshift-cluster" (steady "available" "COMPLETED")
             = Ok "demo-snapshot-20250101-000000" w1)
    by (eexists; vm_compute; reflexivity).
  destruct Hrun as (w1 & Hrun).
  exact (X7_cleanup_leaves_the_demo_snapshots_alone _ _ _ _ Hrun
           (JStr "aca-redshift-cluster") (JInt 7)
           (steady "available" "COMPLETED")).
Defined.

(** * Properties of the other methods of the two scripts *)

Import Sdk.

Lemma calls_printed (line : string) (t : list action) :
  calls (Printed line :: t) = calls t.
Proof. reflexivity. Qed.

Lemma calls_called (c o : string) (kw : gmap string json) (t : list action) :
  calls (Called c o kw :: t) = Called c o kw :: calls t.
Proof. reflexivity. Qed.

Lemma called_nothing (s s' : state) :
  calls (done s') = calls (done s) -> called s s' [].
Proof. intros H; unfold called; rewrite H; reflexivity. Qed.

(** The loop that prints the entries ends well exactly when every entry has
    both keys; it calls nothing. *)
Lemma print_each_spec (key1 key2 : string) (entries : list item) (s : state) :
  exists s',
    calls (done s') = calls (done s) /\
    if forallb (has_keys key1 key2) entries
    then AWSBackupDemo.print_each key1 key2 entries s = Done tt s'
    else exists e, AWSBackupDemo.print_each key1 key2 entries s = Thrown e s'.
Proof.
  revert s; induction entries as [|d rest IH]; intros s.
  - exists s; split; reflexivity.
  - simpl. unfold bind, field, has_keys.
    destruct (d !! key1) as [v1|] eqn:E1; simpl.
    + destruct (d !! key2) as [v2|] eqn:E2; simpl.
      * destruct (IH (note (Printed ("  - " ++ v1 ++ " (" ++ v2 ++ ")")) s))
          as (s' & Hc & Hr).
        exists s'; split; [exact Hc|].
        unfold print. fold (has_keys key1 key2).
        destruct (forallb (has_keys key1 key2) rest).
        -- rewrite Hr; reflexivity.
        -- destruct Hr as (e & Hr); exists e; rewrite Hr; reflexivity.
      * exists s; split; [reflexivity|eexists; reflexivity].
    + exists s; split; [reflexivity|eexists; reflexivity].
Qed.

(** The search ends with the identifier of the first entry of that name
    when every entry has both keys; it calls nothing. *)
Lemma find_existing_spec (name_key id_key line name : string)
    (entries : list item) (s : state) :
  forallb (has_keys name_key id_key) entries = true ->
  exists s',
    calls (done s') = calls (done s) /\
    (forall l, In (Printed l) (done s') ->
       In (Printed l) (done s) \/ String.prefix line l = true) /\
    AWSBackupDemo.find_existing name_key id_key line name entries s =
      Done (existing name_key id_key name entries) s'.
Proof.
  revert s; induction entries as [|d rest IH]; intros s Hwf.
  - exists s; repeat split; auto.
  - simpl in Hwf. apply andb_true_iff in Hwf as [Hd Hrest].
    unfold has_keys in Hd.
    destruct (d !! name_key) as [n|] eqn:E1; [|discriminate].
    destruct (d !! id_key) as [i|] eqn:E2; [|discriminate].
    simpl. unfold bind, field, existing. simpl. unfold named at 1.
    rewrite E1, E2. simpl.
    destruct (String.eqb n name) eqn:En.
    + exists (note (Printed (line ++ i)) s).
      split; [reflexivity|]. split; [|rewrite E2; reflexivity].
      simpl. intros l [Hl|Hl]; [right|left; exact Hl].
      injection Hl as <-. apply prefix_app.
    + destruct (IH s Hrest) as (s' & Hc & Hp & Hr).
      exists s'; repeat split; auto.
Qed.

(** Two strings that start with different characters are not prefixes of
    the same line. *)
Lemma prefix_clash (a b : Ascii.ascii) (p q l : string) :
  String.prefix (String a p) l = true ->
  String.prefix (String b q) l = true ->
  a <> b -> False.
Proof.
  destruct l as [|c l]; simpl; [discriminate|].
  destruct (Ascii.ascii_dec a c); [|discriminate].
  destruct (Ascii.ascii_dec b c); [|discriminate].
  congruence.
Qed.

(** The next call of a run, answered as [H] says. *)
Ltac sdk_call H :=
  unfold bind at 1; unfold call at 1;
  cbn [on done note later time];
  repeat (rewrite calls_printed || rewrite calls_called);
  cbn [List.length]; rewrite H.

(** X13. When the service answers that the backup plan already exists,
    [create_backup_plan] lists the plans and returns the identifier of the
    first listed plan of that name; when no listed plan has the name it
    raises [Exception("Could not find existing backup plan")], which its own
    [except Exception] clause does not get to report. Two calls are made,
    the creation and the listing. [create_backup_selection] does the same
    with the selections of the plan and the name it gives to every
    selection. Here every listed entry has its name and its identifier. *)
Theorem X13_existing_plan_is_found_by_its_name
    (plan_name vault_name role_arn plan_id cluster_arn : string) (s : state)
    (msg : string) (listed : response) (entries : list item) :
  answer s 0 = inl (AlreadyExistsException msg) ->
  answer s 1 = inr listed ->
  (lists listed !! "BackupPlansList" = Some entries ->
   forallb (has_keys "BackupPlanName" "BackupPlanId") entries = true ->
   let r := AWSBackupDemo.create_backup_plan plan_name vault_name role_arn s in
   outcome r =
     match existing "BackupPlanName" "BackupPlanId" plan_name entries with
     | Some found => inr found
     | None => inl (Std (Exception "Could not find existing backup plan"))
     end /\
   called s (after r)
     [Called "source_backup" "list_backup_plans" ∅;
      Called "source_backup" "create_backup_plan"
        {[ "BackupPlan" := AWSBackupDemo.backup_plan plan_name vault_name;
           "BackupPlanTags" :=
             JDict {[ "Purpose" := JStr "RedshiftCrossAccountDemo" ]} ]}] /\
   forall l, String.prefix "Error creating backup plan" l = true ->
     printed l (after r) -> printed l s) /\
  (lists listed !! "BackupSelectionsList" = Some entries ->
   forallb (has_keys "SelectionName" "SelectionId") entries = true ->
   let r :=
     AWSBackupDemo.create_backup_selection plan_id cluster_arn role_arn s in
   outcome r =
     match existing "SelectionName" "SelectionId" "RedshiftClusterSelection"
             entries with
     | Some found => inr found
     | None => inl (Std (Exception "Could not find existing backup selection"))
     end /\
   called s (after r)
     [Called "source_backup" "list_backup_selections"
        {[ "BackupPlanId" := JStr plan_id ]};
      Called "source_backup" "create_backup_selection"
        {[ "BackupPlanId" := JStr plan_id;
           "BackupSelection" :=
             JDict {[ "SelectionName" := JStr "RedshiftClusterSelection";
                      "IamRoleArn" := JStr role_arn;
                      "Resources" := JList [JStr cluster_arn] ]} ]}] /\
   forall l, String.prefix "Error creating backup selection" l = true ->
     printed l (after r) -> printed l s).
Proof.
  intros H0 H1. unfold answer in H0, H1. simpl in H0, H1.
  split; intros Hl Hwf r; subst r.
  - assert (Hrun : exists s',
      AWSBackupDemo.create_backup_plan plan_name vault_name role_arn s =
        match existing "BackupPlanName" "BackupPlanId" plan_name entries with
        | Some found => Done found s'
        | None =>
            Thrown (Std (Exception "Could not find existing backup plan")) s'
        end /\
      called s s'
        [Called "source_backup" "list_backup_plans" ∅;
         Called "source_backup" "create_backup_plan"
           {[ "BackupPlan" := AWSBackupDemo.backup_plan plan_name vault_name;
              "BackupPlanTags" :=
                JDict {[ "Purpose" := JStr "RedshiftCrossAccountDemo" ]} ]}] /\
      forall l, In (Printed l) (done s') ->
        In (Printed l) (done s) \/
        String.prefix "Using existing backup plan: " l = true \/
        l = "Backup plan " ++ plan_name
              ++ " already exists, finding existing plan..." \/
        l = "Creating backup plan: " ++ plan_name).
    { unfold AWSBackupDemo.create_backup_plan.
      unfold bind at 1. unfold print at 1.
      unfold try_except. sdk_call H0.
      cbn [any is_already_exists].
      unfold bind at 1. unfold print at 1. sdk_call H1.
      unfold bind at 1. unfold getlist. rewrite Hl. unfold ret at 1.
      unfold bind at 1.
      match goal with
      | |- context [AWSBackupDemo.find_existing ?a ?b ?c ?d ?e ?st] =>
          destruct (find_existing_spec a b c d e st Hwf) as (s' & Hc & Hp & Hr)
      end.
      exists s'. rewrite Hr.
      split; [destruct (existing _ _ _ _); reflexivity|].
      split; [unfold called; rewrite Hc; reflexivity|].
      intros l Hin. destruct (Hp l Hin) as [Hold|Hnew]; [|auto].
      cbn [done later note] in Hold.
      destruct Hold as [E|[E|[E|[E|Hold]]]]; try discriminate E; auto;
        injection E as <-; auto. }
    destruct Hrun as (s' & Hr & Hc & Hp). rewrite Hr.
    split; [destruct (existing _ _ _ _); reflexivity|].
    split; [destruct (existing _ _ _ _); exact Hc|].
    intros l Hpre Hin. unfold printed in *.
    assert (Hin' : In (Printed l) (done s'))
      by (destruct (existing _ _ _ _); exact Hin).
    destruct (Hp l Hin') as [Hold|[Hnew|[->| ->]]]; auto;
      try (simpl in Hpre; discriminate Hpre).
    exfalso; eapply (prefix_clash _ _ _ _ l Hpre Hnew); discriminate.
  - assert (Hrun : exists s',
      AWSBackupDemo.create_backup_selection plan_id cluster_arn role_arn s =
        match existing "SelectionName" "SelectionId"
                "RedshiftClusterSelection" entries with
        | Some found => Done found s'
        | None =>
            Thrown (Std (Exception "Could not find existing backup selection"))
              s'
        end /\
      called s s'
        [Called "source_backup" "list_backup_selections"
           {[ "BackupPlanId" := JStr plan_id ]};
         Called "source_backup" "create_backup_selection"
           {[ "BackupPlanId" := JStr plan_id;
              "BackupSelection" :=
                JDict {[ "SelectionName" := JStr "RedshiftClusterSelection";
                         "IamRoleArn" := JStr role_arn;
                         "Resources" := JList [JStr cluster_arn] ]} ]}] /\
      forall l, In (Printed l) (done s') ->
        In (Printed l) (done s) \/
        String.prefix "Using existing backup selection: " l = true \/
        l = "Backup selection RedshiftClusterSelection already exists, finding existing selection..." \/
        l = "Creating backup selection: RedshiftClusterSelection").
    { unfold AWSBackupDemo.create_backup_selection.
      unfold bind at 1. unfold print at 1.
      unfold try_except. sdk_call H0.
      cbn [any is_already_exists].
      unfold bind at 1. unfold print at 1. sdk_call H1.
      unfold bind at 1. unfold getlist. rewrite Hl. unfold ret at 1.
      unfold bind at 1.
      match goal with
      | |- context [AWSBackupDemo.find_existing ?a ?b ?c ?d ?e ?st] =>
          destruct (find_existing_spec a b c d e st Hwf) as (s' & Hc & Hp & Hr)
      end.
      exists s'. rewrite Hr.
      split; [destruct (existing _ _ _ _); reflexivity|].
      split; [unfold called; rewrite Hc; reflexivity|].
      intros l Hin. destruct (Hp l Hin) as [Hold|Hnew]; [|auto].
      cbn [done later note] in Hold.
      destruct Hold as [E|[E|[E|[E|Hold]]]]; try discriminate E; auto;
        injection E as <-; auto. }
    destruct Hrun as (s' & Hr & Hc & Hp). rewrite Hr.
    split; [destruct (existing _ _ _ _); reflexivity|].
    split; [destruct (existing _ _ _ _); exact Hc|].
    intros l Hpre Hin. unfold printed in *.
    assert (Hin' : In (Printed l) (done s'))
      by (destruct (existing _ _ _ _); exact Hin).
    destruct (Hp l Hin') as [Hold|[Hnew|[->| ->]]]; auto;
      try (simpl in Hpre; discriminate Hpre).
    exfalso; eapply (prefix_clash _ _ _ _ l Hpre Hnew); discriminate.
Qed.

(** X14. The ARN that [create_backup_vault] returns is the one the service
    reported for a vault of that name: in its answer to the creation, or,
    when the creation was refused because the vault exists, in its answer to
    [describe_backup_vault] for the same name. No other call is made. *)
Theorem X14_vault_arn_is_the_one_the_service_reported
    (vault_name : string) (s s' : state) (arn : string) :
  AWSBackupDemo.create_backup_vault vault_name s = Done arn s' ->
  let create :=
    Called "source_backup" "create_backup_vault"
      {[ "BackupVaultName" := JStr vault_name;
         "BackupVaultTags" :=
           JDict {[ "Purpose" := JStr "RedshiftCrossAccountDemo";
                    "CreatedBy" := JStr "AWSBackupDemo" ]} ]} in
  let describe :=
    Called "source_backup" "describe_backup_vault"
      {[ "BackupVaultName" := JStr vault_name ]} in
  exists r,
    strings r !! "BackupVaultArn" = Some arn /\
    ((answer s 0 = inr r /\ called s s' [create]) \/
     (exists msg,
        answer s 0 = inl (AlreadyExistsException msg) /\
        answer s 1 = inr r /\ called s s' [describe; create])).
Proof.
  intros Hrun create describe; subst create describe.
  unfold AWSBackupDemo.create_backup_vault in Hrun.
  unfold bind at 1 in Hrun. unfold print at 1 in Hrun.
  unfold try_except in Hrun. unfold bind at 1 in Hrun.
  unfold call at 1 in Hrun. cbn [on done note later time] in Hrun.
  rewrite calls_printed in Hrun. unfold answer, called. cbn [Nat.add].
  destruct (result (service (on s) (List.length (calls (done s)))))
    as [e|r] eqn:E0.
  - destruct e; cbn [is_already_exists] in Hrun; try discriminate Hrun.
    unfold bind at 1 in Hrun. unfold print at 1 in Hrun.
    unfold bind at 1 in Hrun. unfold call at 1 in Hrun.
    cbn [on done note later time] in Hrun.
    repeat (rewrite calls_printed in Hrun || rewrite calls_called in Hrun).
    cbn [List.length] in Hrun.
    destruct (result (service (on s) (S (List.length (calls (done s))))))
      as [e1|r1] eqn:E1; [discriminate Hrun|].
    unfold getitem in Hrun.
    destruct (strings r1 !! "BackupVaultArn") as [a|] eqn:Ea;
      [|discriminate Hrun].
    unfold ret in Hrun. injection Hrun as <- <-.
    exists r1; split; [exact Ea|]. right. exists msg.
    split; [reflexivity|]. split; reflexivity.
  - unfold bind at 1 in Hrun. unfold getitem in Hrun.
    destruct (strings r !! "BackupVaultArn") as [a|] eqn:Ea;
      [|discriminate Hrun].
    unfold ret, bind, print in Hrun. injection Hrun as <- <-.
    exists r; split; [exact Ea|]. left. split; reflexivity.
Qed.

(** X15. [create_backup_role] creates the role only when IAM answers that
    there is none: when [get_role] is answered it makes no other call and
    does not sleep; when [get_role] raises [NoSuchEntityException] it creates
    the role, attaches the managed policy to it and sleeps ten seconds, once.
    Any other error of [get_role] goes up, so the method does not return.
    What it returns is the ARN of the role in the source account. *)
Theorem X15_role_is_created_only_when_it_is_missing
    (me : self) (s s' : state) (arn : string) :
  AWSBackupDemo.create_backup_role me s = Done arn s' ->
  let get_role :=
    Called "source_iam" "get_role"
      {[ "RoleName" := JStr AWSBackupDemo.role_name ]} in
  let create_role :=
    Called "source_iam" "create_role"
      {[ "RoleName" := JStr AWSBackupDemo.role_name;
         "AssumeRolePolicyDocument" :=
           JStr (dumps (on s) AWSBackupDemo.trust_policy);
         "Description" :=
           JStr "Service role for AWS Backup to access Redshift" ]} in
  let attach :=
    Called "source_iam" "attach_role_policy"
      {[ "RoleName" := JStr AWSBackupDemo.role_name;
         "PolicyArn" :=
           JStr "arn:aws:iam::aws:policy/service-role/AWSBackupServiceRolePolicyForBackup" ]} in
  arn = "arn:aws:iam::" ++ source_account_id me
          ++ ":role/AWSBackupServiceRole-RedshiftDemo" /\
  (((exists r, answer s 0 = inr r) /\
    called s s' [get_role] /\
    List.filter is_slept (done s') = List.filter is_slept (done s)) \/
   ((exists msg, answer s 0 = inl (NoSuchEntityException msg)) /\
    called s s' [attach; create_role; get_role] /\
    List.filter is_slept (done s') =
      Slept 10 :: List.filter is_slept (done s) /\
    (time s + 10 <= time s')%Q)).
Proof.
  intros Hrun get_role create_role attach; subst get_role create_role attach.
  unfold AWSBackupDemo.create_backup_role in Hrun.
  unfold bind at 1 in Hrun. unfold try_except in Hrun.
  unfold bind at 1 in Hrun. unfold call at 1 in Hrun.
  cbn [on done note later time] in Hrun.
  unfold answer, called. cbn [Nat.add].
  destruct (result (service (on s) (List.length (calls (done s)))))
    as [e|r] eqn:E0.
  - destruct e; cbn [is_no_such_entity] in Hrun; try discriminate Hrun.
    unfold bind at 1 in Hrun. unfold print at 1 in Hrun.
    unfold bind at 1 in Hrun. unfold json_dumps in Hrun.
    unfold bind at 1 in Hrun. unfold call at 1 in Hrun.
    cbn [on done note later time] in Hrun.
    repeat (rewrite calls_printed in Hrun || rewrite calls_called in Hrun).
    cbn [List.length] in Hrun.
    destruct (result (service (on s) (S (List.length (calls (done s))))))
      as [e1|r1] eqn:E1; [discriminate Hrun|].
    unfold bind at 1 in Hrun. unfold call at 1 in Hrun.
    cbn [on done note later time] in Hrun.
    repeat (rewrite calls_printed in Hrun || rewrite calls_called in Hrun).
    cbn [List.length] in Hrun.
    destruct (result (service (on s) (S (S (List.length (calls (done s)))))))
      as [e2|r2] eqn:E2; [discriminate Hrun|].
    unfold time_sleep, bind, print, ret in Hrun.
    cbn [on done note later time] in Hrun.
    injection Hrun as <- <-.
    split; [reflexivity|]. right.
    split; [exists msg; reflexivity|].
    split; [reflexivity|]. split; [reflexivity|].
    cbn [on done note later time].
    repeat match goal with |- context [secs ?d] =>
      let H := fresh "Hd" in
      pose proof (secs_nonneg d) as H; revert H;
      generalize (secs d); intros ? ?
    end.
    change (inject_Z 10) with 10%Q. lra.
  - unfold bind, print, ret in Hrun. injection Hrun as <- <-.
    split; [reflexivity|]. left.
    split; [exists r; reflexivity|]. split; reflexivity.
Qed.

(** [split] never gives the empty list. *)
Lemma split_cons (sep : Ascii.ascii) (s : string) :
  exists h t, split sep s = h :: t.
Proof.
  induction s as [|c s IH]; simpl; [eauto|].
  destruct (Ascii.eqb c sep); [eauto|].
  destruct IH as (h & t & ->); eauto.
Qed.

(** A string without the separator is its only component. *)
Lemma split_none (s : string) : no_slash s = true -> split slash s = [s].
Proof.
  unfold no_slash.
  induction s as [|c s IH]; simpl; [reflexivity|].
  intros H. apply andb_true_iff in H as [Hc Hs].
  apply negb_true_iff in Hc. rewrite Hc, (IH Hs). reflexivity.
Qed.

(** The components of [a/b] are those of [a] followed by those of [b]. *)
Lemma split_app (sep : Ascii.ascii) (a b : string) :
  split sep (a ++ String sep b) = (split sep a ++ split sep b)%list.
Proof.
  induction a as [|c a IH]; simpl.
  - rewrite Ascii.eqb_refl. reflexivity.
  - destruct (Ascii.eqb c sep); [rewrite IH; reflexivity|].
    rewrite IH. destruct (split_cons sep a) as (h & t & ->). reflexivity.
Qed.

(** The last component but one of [p/v/r]. *)
Lemma last_but_one_of_arn (p v r : string) (s : state) :
  no_slash v = true -> no_slash r = true ->
  last_but_one (split slash (p ++ "/" ++ v ++ "/" ++ r)) s = Done v s.
Proof.
  intros Hv Hr.
  change (p ++ "/" ++ v ++ "/" ++ r)
    with (p ++ String slash (v ++ String slash r)).
  rewrite !split_app, (split_none v Hv), (split_none r Hr).
  unfold last_but_one. rewrite !rev_app_distr. reflexivity.
Qed.

Lemma called_none (t l : list action) : t = (l ++ t)%list -> l = [].
Proof.
  intros H. change t with ([] ++ t)%list in H at 1.
  apply app_inv_tail in H. symmetry; exact H.
Qed.

Lemma called_one (a : action) (t l : list action) :
  a :: t = (l ++ t)%list -> l = [a].
Proof.
  intros H. change (a :: t) with ([a] ++ t)%list in H.
  apply app_inv_tail in H. symmetry; exact H.
Qed.

(** X16. The role that the copy job is started with is the role that
    [create_backup_role] returns: whenever [copy_backup_to_target_account]
    calls the service, the [IamRoleArn] of the call is the ARN that
    [create_backup_role] of the same object gave, whichever way it went. *)
Theorem X16_copy_job_runs_as_the_backup_role
    (me : self) (s s1 : state) (arn : string)
    (recovery_point target_vault : string) (s2 : state)
    (l : list action) (c o : string) (kw : gmap string json) :
  AWSBackupDemo.create_backup_role me s = Done arn s1 ->
  called s2
    (after (AWSBackupDemo.copy_backup_to_target_account me recovery_point
              target_vault s2)) l ->
  In (Called c o kw) l ->
  kw !! "IamRoleArn" = Some (JStr arn).
Proof.
  intros Hrole Hcalled Hin.
  assert (Harn : arn = "arn:aws:iam::" ++ source_account_id me
                         ++ ":role/AWSBackupServiceRole-RedshiftDemo").
  { unfold AWSBackupDemo.create_backup_role in Hrole.
    unfold bind at 1 in Hrole.
    destruct (try_except _ _ _ s) as [u s0|e s0]; [|discriminate Hrole].
    unfold bind, print, ret in Hrole. injection Hrole as <- _. reflexivity. }
  subst arn. unfold called in Hcalled.
  unfold AWSBackupDemo.copy_backup_to_target_account in Hcalled.
  unfold bind at 1 in Hcalled. unfold print at 1 in Hcalled.
  unfold try_except in Hcalled. unfold bind at 1 in Hcalled.
  unfold last_but_one in Hcalled.
  destruct (rev (split slash recovery_point)) as [|x0 [|x1 rest]].
  1, 2: unfold raise, any, bind, print in Hcalled;
    cbn [after done note] in Hcalled; rewrite !calls_printed in Hcalled;
    apply called_none in Hcalled; subst l; destruct Hin.
  unfold ret at 1 in Hcalled. unfold bind at 1 in Hcalled.
  unfold call at 1 in Hcalled. cbn [on done note later time] in Hcalled.
  assert (Hl : l = [Called "source_backup" "start_copy_job"
      {[ "RecoveryPointArn" := JStr recovery_point;
         "SourceBackupVaultName" := JStr x1;
         "DestinationBackupVaultArn" :=
           JStr ("arn:aws:backup:us-east-1:" ++ target_account_id me
                 ++ ":backup-vault:" ++ target_vault);
         "IamRoleArn" :=
           JStr ("arn:aws:iam::" ++ source_account_id me
                 ++ ":role/AWSBackupServiceRole-RedshiftDemo") ]}]).
  { destruct (result _) as [e|r].
    - unfold any, bind, print, raise in Hcalled.
      cbn [after done note later] in Hcalled.
      rewrite !calls_printed, calls_called, calls_printed in Hcalled.
      apply called_one in Hcalled. exact Hcalled.
    - unfold bind at 1 in Hcalled. unfold getitem in Hcalled.
      destruct (strings r !! "CopyJobId") as [j|].
      + unfold ret, bind, print in Hcalled.
        cbn [after done note later] in Hcalled.
        rewrite !calls_printed, calls_called, calls_printed in Hcalled.
        apply called_one in Hcalled. exact Hcalled.
      + unfold any, bind, print, raise in Hcalled.
        cbn [after done note later] in Hcalled.
        rewrite !calls_printed, calls_called, calls_printed in Hcalled.
        apply called_one in Hcalled. exact Hcalled. }
  subst l. destruct Hin as [Hin|[]]. injection Hin as <- <- <-.
  reflexivity.
Qed.

(** X17. The vault that [copy_backup_to_target_account] names as the source
    of the copy is the last component but one of the recovery point's ARN,
    cut at the slashes: for an ARN [p/v/r] whose [v] and [r] have no slash,
    the one call made is [start_copy_job] for that ARN with
    [SourceBackupVaultName] [v], whatever [p] is. *)
Theorem X17_source_vault_is_the_last_component_but_one
    (me : self) (p v r target_vault : string) (s : state) :
  no_slash v = true -> no_slash r = true ->
  let recovery_point := p ++ "/" ++ v ++ "/" ++ r in
  exists kw,
    called s
      (after (AWSBackupDemo.copy_backup_to_target_account me recovery_point
                target_vault s))
      [Called "source_backup" "start_copy_job" kw] /\
    kw !! "RecoveryPointArn" = Some (JStr recovery_point) /\
    kw !! "SourceBackupVaultName" = Some (JStr v).
Proof.
  intros Hv Hr recovery_point; subst recovery_point.
  eexists. split; [|split].
  - unfold called, AWSBackupDemo.copy_backup_to_target_account.
    unfold bind at 1. unfold print at 1.
    unfold try_except. unfold bind at 1.
    rewrite (last_but_one_of_arn p v r _ Hv Hr).
    unfold bind at 1. unfold call at 1. cbn [on done note later time].
    destruct (result _) as [e|resp].
    + unfold any, bind, print, raise. cbn [after done note later].
      rewrite !calls_printed, calls_called, calls_printed. reflexivity.
    + unfold bind at 1. unfold getitem.
      destruct (strings resp !! "CopyJobId") as [j|].
      * unfold ret, bind, print. cbn [after done note later].
        rewrite !calls_printed, calls_called, calls_printed. reflexivity.
      * unfold any, bind, print, raise. cbn [after done note later].
        rewrite !calls_printed, calls_called, calls_printed. reflexivity.
  - reflexivity.
  - reflexivity.
Qed.

(** X18. For a recovery point ARN without a slash,
    [copy_backup_to_target_account] raises [IndexError] while it builds the
    arguments: the service is not called, the error is printed and goes up. *)
Theorem X18_arn_without_slash_is_an_index_error
    (me : self) (recovery_point target_vault : string) (s : state) :
  no_slash recovery_point = true ->
  let r :=
    AWSBackupDemo.copy_backup_to_target_account me recovery_point
      target_vault s in
  outcome r = inl (IndexError "list index out of range") /\
  called s (after r) [] /\
  printed "Error copying backup: list index out of range" (after r).
Proof.
  intros Hno r; subst r.
  unfold AWSBackupDemo.copy_backup_to_target_account.
  unfold bind, print, try_except, last_but_one.
  rewrite (split_none _ Hno). cbn [rev app raise any message].
  cbn [outcome after]. split; [reflexivity|].
  split; [apply called_nothing; reflexivity|].
  unfold printed. cbn [done note]. left; reflexivity.
Qed.

(** X19. [list_recovery_points] and [list_shared_snapshots] never raise.
    Each makes one call and returns the list of the response as it is when
    every entry has the two keys that are printed; it returns the empty list
    when the call fails, when the response has no list, and also when one of
    the listed entries lacks a key, however many entries were listed. *)
Theorem X19_listings_come_back_whole_or_empty
    (me : self) (vault_name : string) (s : state) :
  (let r := AWSBackupDemo.list_recovery_points vault_name s in
   outcome r =
     inr (match answer s 0 with
          | inr response =>
              let listed := default [] (lists response !! "RecoveryPoints") in
              if forallb (has_keys "RecoveryPointArn" "Status") listed
              then listed else []
          | inl _ => []
          end) /\
   called s (after r)
     [Called "source_backup" "list_recovery_points_by_backup_vault"
        {[ "BackupVaultName" := JStr vault_name ]}]) /\
  (let r := RedshiftSnapshotDemo.list_shared_snapshots me s in
   outcome r =
     inr (match answer s 0 with
          | inr response =>
              let listed := default [] (lists response !! "Snapshots") in
              if forallb (has_keys "SnapshotIdentifier" "Status") listed
              then listed else []
          | inl _ => []
          end) /\
   called s (after r)
     [Called "target_redshift" "describe_cluster_snapshots"
        {[ "SnapshotType" := JStr "manual";
           "OwnerAccount" := JStr (source_account_id me) ]}]).
Proof.
  split; intros r; subst r.
  - assert (Hrun : exists s',
      AWSBackupDemo.list_recovery_points vault_name s =
        Done (match answer s 0 with
              | inr response =>
                  let listed :=
                    default [] (lists response !! "RecoveryPoints") in
                  if forallb (has_keys "RecoveryPointArn" "Status") listed
                  then listed else []
              | inl _ => []
              end) s' /\
      called s s'
        [Called "source_backup" "list_recovery_points_by_backup_vault"
           {[ "BackupVaultName" := JStr vault_name ]}]).
    { unfold answer, called. cbn [Nat.add].
      unfold AWSBackupDemo.list_recovery_points.
      unfold bind at 1. unfold print at 1. unfold try_except.
      unfold bind at 1. unfold call at 1. cbn [on done note later time].
      rewrite calls_printed.
      destruct (result _) as [e|response].
      - unfold any, bind, print, ret. eexists; split; [reflexivity|].
        cbn [done note later].
        rewrite !calls_printed, calls_called, calls_printed. reflexivity.
      - unfold bind at 1. unfold print at 1. unfold bind at 1.
        match goal with
        | |- context [AWSBackupDemo.print_each ?a ?b ?l ?st] =>
            destruct (print_each_spec a b l st) as (s' & Hc & Hr)
        end.
        cbn [done note later] in Hc.
        rewrite calls_printed, calls_called, calls_printed in Hc.
        cbv zeta. destruct (forallb _ _).
        + rewrite Hr. unfold ret. exists s'; split; [reflexivity|exact Hc].
        + destruct Hr as (e & Hr). rewrite Hr.
          unfold any, bind, print, ret. eexists; split; [reflexivity|].
          cbn [done note]. rewrite calls_printed. exact Hc. }
    destruct Hrun as (s' & -> & Hc). split; [reflexivity|exact Hc].
  - assert (Hrun : exists s',
      RedshiftSnapshotDemo.list_shared_snapshots me s =
        Done (match answer s 0 with
              | inr response =>
                  let listed := default [] (lists response !! "Snapshots") in
                  if forallb (has_keys "SnapshotIdentifier" "Status") listed
                  then listed else []
              | inl _ => []
              end) s' /\
      called s s'
        [Called "target_redshift" "describe_cluster_snapshots"
           {[ "SnapshotType" := JStr "manual";
              "OwnerAccount" := JStr (source_account_id me) ]}]).
    { unfold answer, called. cbn [Nat.add].
      unfold RedshiftSnapshotDemo.list_shared_snapshots.
      unfold bind at 1. unfold print at 1. unfold try_except.
      unfold bind at 1. unfold call at 1. cbn [on done note later time].
      rewrite calls_printed.
      destruct (result _) as [e|response].
      - unfold any, bind, print, ret. eexists; split; [reflexivity|].
        cbn [done note later].
        rewrite !calls_printed, calls_called, calls_printed. reflexivity.
      - unfold bind at 1. unfold print at 1. unfold bind at 1.
        match goal with
        | |- context [AWSBackupDemo.print_each ?a ?b ?l ?st] =>
            destruct (print_each_spec a b l st) as (s' & Hc & Hr)
        end.
        cbn [done note later] in Hc.
        rewrite calls_printed, calls_called, calls_printed in Hc.
        cbv zeta. destruct (forallb _ _).
        + rewrite Hr. unfold ret. exists s'; split; [reflexivity|exact Hc].
        + destruct Hr as (e & Hr). rewrite Hr.
          unfold any, bind, print, ret. eexists; split; [reflexivity|].
          cbn [done note]. rewrite calls_printed. exact Hc. }
    destruct Hrun as (s' & -> & Hc). split; [reflexivity|exact Hc].
Qed.

(** One turn of the loop of [cleanup_snapshots]: the source account is asked;
    the target account is asked when, and only when, that failed. *)
Lemma cleanup_turn (snapshot_id : string) (rest : list string) (s : state) :
  exists s1,
    RedshiftSnapshotDemo.cleanup_snapshots_loop (snapshot_id :: rest) s =
      RedshiftSnapshotDemo.cleanup_snapshots_loop rest s1 /\
    on s1 = on s /\
    calls (done s1) =
      match answer s 0 with
      | inr _ => delete_request "source_redshift" snapshot_id
                   :: calls (done s)
      | inl _ => delete_request "target_redshift" snapshot_id
                   :: delete_request "source_redshift" snapshot_id
                   :: calls (done s)
      end.
Proof.
  unfold answer. cbn [Nat.add].
  cbn [RedshiftSnapshotDemo.cleanup_snapshots_loop].
  unfold bind at 1. unfold try_except at 1.
  unfold bind at 1. unfold call at 1. cbn [on done note later time].
  destruct (result _) as [e|r].
  - cbn [any]. unfold try_except. unfold bind at 1. unfold call at 1.
    cbn [on done note later time].
    destruct (result _) as [e1|r1].
    + cbn [any]. unfold print. eexists; split; [reflexivity|].
      split; reflexivity.
    + unfold print. eexists; split; [reflexivity|]. split; reflexivity.
  - unfold print. eexists; split; [reflexivity|]. split; reflexivity.
Qed.

(** X20. [cleanup_snapshots] never raises, whatever the two accounts answer.
    It asks the source account to delete every identifier of the list, once
    each and in the order of the list; every other call it makes asks the
    target account to delete one of these identifiers; and it makes at most
    two calls for an identifier. *)
Theorem X20_cleanup_asks_the_source_account_for_every_snapshot
    (snapshot_identifiers : list string) (s : state) :
  exists s' l,
    RedshiftSnapshotDemo.cleanup_snapshots snapshot_identifiers s =
      Done tt s' /\
    called s s' l /\
    List.filter (to_client "source_redshift") (rev l) =
      List.map (delete_request "source_redshift") snapshot_identifiers /\
    (forall a, In a l ->
       exists snapshot_id,
         In snapshot_id snapshot_identifiers /\
         (a = delete_request "source_redshift" snapshot_id \/
          a = delete_request "target_redshift" snapshot_id)) /\
    (List.length l <= 2 * List.length snapshot_identifiers)%nat.
Proof.
  assert (Hloop : forall ids s0, exists s' l,
    RedshiftSnapshotDemo.cleanup_snapshots_loop ids s0 = Done tt s' /\
    calls (done s') = (l ++ calls (done s0))%list /\
    List.filter (to_client "source_redshift") (rev l) =
      List.map (delete_request "source_redshift") ids /\
    (forall a, In a l ->
       exists snapshot_id,
         In snapshot_id ids /\
         (a = delete_request "source_redshift" snapshot_id \/
          a = delete_request "target_redshift" snapshot_id)) /\
    (List.length l <= 2 * List.length ids)%nat).
  { induction ids as [|id rest IH]; intros s0.
    - exists s0, []. repeat split; auto. intros a [].
    - destruct (cleanup_turn id rest s0) as (s1 & Hturn & _ & Hcalls).
      destruct (IH s1) as (s' & l & Hrun & Hc & Hsrc & Hall & Hlen).
      rewrite Hturn, Hrun.
      destruct (answer s0 0) as [e|r].
      + exists s', (l ++ [delete_request "target_redshift" id;
                          delete_request "source_redshift" id])%list.
        split; [reflexivity|].
        split; [rewrite Hc, Hcalls, <- app_assoc; reflexivity|].
        split; [rewrite rev_app_distr, List.filter_app, Hsrc; reflexivity|].
        split.
        * intros a Ha. apply in_app_or in Ha as [Ha|[Ha|[Ha|[]]]].
          -- destruct (Hall a Ha) as (i & Hi & Hor).
             exists i; split; [right; exact Hi|exact Hor].
          -- exists id; split; [left; reflexivity|right; auto].
          -- exists id; split; [left; reflexivity|left; auto].
        * rewrite length_app. cbn [List.length]. lia.
      + exists s', (l ++ [delete_request "source_redshift" id])%list.
        split; [reflexivity|].
        split; [rewrite Hc, Hcalls, <- app_assoc; reflexivity|].
        split; [rewrite rev_app_distr, List.filter_app, Hsrc; reflexivity|].
        split.
        * intros a Ha. apply in_app_or in Ha as [Ha|[Ha|[]]].
          -- destruct (Hall a Ha) as (i & Hi & Hor).
             exists i; split; [right; exact Hi|exact Hor].
          -- exists id; split; [left; reflexivity|left; auto].
        * rewrite length_app. cbn [List.length]. lia. }
  unfold RedshiftSnapshotDemo.cleanup_snapshots, bind, print.
  destruct (Hloop snapshot_identifiers (note (Printed "Cleaning up snapshots...") s))
    as (s' & l & Hrun & Hc & Hrest).
  exists s', l. split; [exact Hrun|]. split; [exact Hc|exact Hrest].
Qed.

(** X21. When the source account deletes every snapshot it is asked for,
    [cleanup_snapshots] does not turn to the target account: its calls are
    the requests to the source account, one for each identifier, in the
    order of the list. *)
Theorem X21_cleanup_leaves_the_target_account_alone
    (snapshot_identifiers : list string) (s : state) :
  obliging (on s) ->
  called s
    (after (RedshiftSnapshotDemo.cleanup_snapshots snapshot_identifiers s))
    (rev (List.map (delete_request "source_redshift") snapshot_identifiers)).
Proof.
  intros Hob.
  assert (Hloop : forall ids s0, on s0 = on s ->
    calls (done (after (RedshiftSnapshotDemo.cleanup_snapshots_loop ids s0))) =
      (rev (List.map (delete_request "source_redshift") ids)
       ++ calls (done s0))%list).
  { induction ids as [|id rest IH]; intros s0 Hon.
    - reflexivity.
    - destruct (cleanup_turn id rest s0) as (s1 & Hturn & Hon1 & Hcalls).
      rewrite Hturn, (IH s1) by congruence.
      unfold answer in Hcalls. rewrite Hon in Hcalls.
      destruct (Hob (0 + List.length (calls (done s0)))%nat) as (r & Hr).
      rewrite Hr in Hcalls. rewrite Hcalls.
      cbn [List.map rev]. rewrite <- app_assoc. reflexivity. }
  unfold called, RedshiftSnapshotDemo.cleanup_snapshots, bind, print.
  rewrite Hloop by reflexivity. reflexivity.
Qed.

(** ** The properties at work *)

Lemma X13_witness :
  outcome
    (AWSBackupDemo.create_backup_plan "daily" "demo-vault" "role"
       (start (exists_already (listing_of "BackupPlansList" listed_plans))))
  = inr "plan-2".
Proof.
  pose (s := start (exists_already (listing_of "BackupPlansList" listed_plans))).
  assert (H0 : answer s 0 = inl (AlreadyExistsException "already exists"))
    by reflexivity.
  assert (H1 : answer s 1 = inr (listing_of "BackupPlansList" listed_plans))
    by reflexivity.
  assert (Hl : lists (listing_of "BackupPlansList" listed_plans)
                 !! "BackupPlansList" = Some listed_plans)
    by (vm_compute; reflexivity).
  assert (Hwf : forallb (has_keys "BackupPlanName" "BackupPlanId")
                  listed_plans = true)
    by (vm_compute; reflexivity).
  destruct (X13_existing_plan_is_found_by_its_name
              "daily" "demo-vault" "role" "plan-2" "cluster" s
              "already exists" _ listed_plans H0 H1) as [Hplan _].
  destruct (Hplan Hl Hwf) as [Hout _].
  subst s. rewrite Hout. vm_compute. reflexivity.
Defined.

Lemma X14_witness :
  exists r, strings r !! "BackupVaultArn" = Some "arn:aws:backup:demo-vault".
Proof.
  pose (s := start (exists_already
                      (only "BackupVaultArn" "arn:aws:backup:demo-vault"))).
  assert (Hrun : exists s',
            AWSBackupDemo.create_backup_vault "demo-vault" s =
              Done "arn:aws:backup:demo-vault" s')
    by (eexists; vm_compute; reflexivity).
  destruct Hrun as (s' & Hrun).
  destruct (X14_vault_arn_is_the_one_the_service_reported
              "demo-vault" s s' _ Hrun) as (r & Hr & _).
  exists r. exact Hr.
Defined.

Lemma X15_witness :
  exists arn,
    arn = "arn:aws:iam::111111111111:role/AWSBackupServiceRole-RedshiftDemo".
Proof.
  assert (Hrun : exists arn s',
            AWSBackupDemo.create_backup_role demo (start role_missing) =
              Done arn s')
    by (eexists; eexists; vm_compute; reflexivity).
  destruct Hrun as (arn & s' & Hrun).
  destruct (X15_role_is_created_only_when_it_is_missing
              demo (start role_missing) s' arn Hrun) as [Harn _].
  exists arn. exact Harn.
Defined.

Lemma X16_witness :
  exists kw : gmap string json,
    kw !! "IamRoleArn" =
      Some (JStr "arn:aws:iam::111111111111:role/AWSBackupServiceRole-RedshiftDemo").
Proof.
  assert (Hrole : exists s1,
            AWSBackupDemo.create_backup_role demo (start agreeable) =
              Done "arn:aws:iam::111111111111:role/AWSBackupServiceRole-RedshiftDemo" s1)
    by (eexists; vm_compute; reflexivity).
  destruct Hrole as (s1 & Hrole).
  assert (Hcalled : exists kw,
            called (start agreeable)
              (after (AWSBackupDemo.copy_backup_to_target_account demo
                        "arn:aws:backup:vault/demo-vault/rp-1" "target-vault"
                        (start agreeable)))
              [Called "source_backup" "start_copy_job" kw])
    by (eexists; vm_compute; reflexivity).
  destruct Hcalled as (kw & Hcalled).
  exists kw.
  apply (X16_copy_job_runs_as_the_backup_role
           demo (start agreeable) s1 _ _ _ (start agreeable) _
           "source_backup" "start_copy_job" kw Hrole Hcalled).
  simpl. left. reflexivity.
Defined.

Lemma X17_witness :
  exists kw : gmap string json,
    kw !! "SourceBackupVaultName" = Some (JStr "demo-vault").
Proof.
  assert (Hv : no_slash "demo-vault" = true) by reflexivity.
  assert (Hr : no_slash "rp-1" = true) by reflexivity.
  destruct (X17_source_vault_is_the_last_component_but_one
              demo "arn:aws:backup:us-east-1:111111111111:vault" "demo-vault"
              "rp-1" "target-vault" (start agreeable) Hv Hr)
    as (kw & _ & _ & Hkw).
  exists kw. exact Hkw.
Defined.

Lemma X18_witness :
  outcome
    (AWSBackupDemo.copy_backup_to_target_account demo
       "arn:aws:backup:us-east-1:111111111111:recovery-point:0a1b"
       "target-vault" (start agreeable))
  = inl (IndexError "list index out of range").
Proof.
  assert (Hno : no_slash
                  "arn:aws:backup:us-east-1:111111111111:recovery-point:0a1b"
                = true) by reflexivity.
  exact (proj1 (X18_arn_without_slash_is_an_index_error
                  demo _ "target-vault" (start agreeable) Hno)).
Defined.

Lemma X21_witness :
  called (start agreeable)
    (after (RedshiftSnapshotDemo.cleanup_snapshots ["snap-1"; "snap-2"]
              (start agreeable)))
    [delete_request "source_redshift" "snap-2";
     delete_request "source_redshift" "snap-1"].
Proof.
  assert (Hob : obliging (on (start agreeable)))
    by (intros n; eexists; reflexivity).
  exact (X21_cleanup_leaves_the_target_account_alone
           ["snap-1"; "snap-2"] (start agreeable) Hob).
Defined.
